(** * TeensyThreads: the scheduler core of [TeensyThreads.cpp]

    A shallow embedding of the thread table, the scheduler selection
    function, the thread lifecycle calls, the stack bootstrap and the
    mutex of [src/TeensyThreads.cpp], with the properties of the
    specification stated over it.

    Conventions of the embedding.
    - A C [int] or pointer is a [Z].  Unsigned 32-bit arithmetic is
      written with its wrap-around ([wrap32]); the conversion of such a
      value to [int] is [to_int32].  The signed arithmetic of the code
      (slot indices, the thread count) stays within the table capacity
      and is written without wrap-around.
    - The thread table [thread[MAX_THREADS]] is a [list ThreadInfo];
      an access [thread[i]] outside [0 .. MAX_THREADS-1] is undefined
      behaviour in C and is [None] here, so every operation that indexes
      the table lives in the [option] monad.
    - The kernel object [threads] and the [extern "C"] globals used by
      the context switch form one record, [Kernel].
    - Loops that yield to other threads ([Mutex::lock], [wait], [delay])
      are run against an explicit environment, a function applied to the
      state between the first two reads of the millisecond counter and at
      every yield.  In [Mutex::lock], whose caller suspends itself, the
      caller goes on after a yield only once [getNextThread] has selected
      its slot again. *)

From Stdlib Require Import ZArith Lia.
From stdpp Require Import base option list gmap.

Local Open Scope Z_scope.

(** ** Build-time constants

    [TeensyThreads.h] declares the capacity of the thread table, the codes
    of the thread and scheduler states and the supervisor-call numbers.
    The header is not part of the sources at hand, so the constants are
    taken as parameters; [del_process] is the address of the termination
    shim [Threads::del_process]. *)

Class Config := {
  MAX_THREADS : Z;
  (* state of individual threads *)
  EMPTY : Z;
  RUNNING : Z;
  ENDED : Z;
  SUSPENDED : Z;
  (* state of the threading system *)
  STARTED : Z;
  STOPPED : Z;
  FIRST_RUN : Z;
  (* supervisor-call immediates *)
  SVC_NUMBER : Z;
  SVC_NUMBER_ACTIVE : Z;
  (* (uint32_t)Threads::del_process *)
  del_process : Z;
}.

(** ** Machine integers *)

Definition wrap32 (x : Z) : Z := x mod 2 ^ 32.

(** Conversion of an [unsigned int] to [int] on the 32-bit target. *)
Definition to_int32 (x : Z) : Z :=
  if decide (wrap32 x < 2 ^ 31) then wrap32 x else wrap32 x - 2 ^ 32.

(** ** Data model *)

(** [ThreadInfo]: one slot of the thread table.  Its declaration is in
    the header; the fields are the ones [TeensyThreads.cpp] reads and
    writes, [stack] and [sp] pointers and the others [int] (they are
    assigned from and to [int] variables such as [currentCount]).
    [save_lr] is the [lr] image of the register save area [save]; the
    other saved registers are written by the assembly trampoline only. *)
Record ThreadInfo := mkThreadInfo {
  stack_size : Z;
  stack : Z;
  my_stack : Z;
  save_lr : Z;
  flags : Z;
  sp : Z;
  ticks : Z;
  priority : Z;
}.

Definition set_flags (v : Z) (t : ThreadInfo) : ThreadInfo :=
  mkThreadInfo (stack_size t) (stack t) (my_stack t) (save_lr t) v (sp t) (ticks t) (priority t).
Definition set_sp (v : Z) (t : ThreadInfo) : ThreadInfo :=
  mkThreadInfo (stack_size t) (stack t) (my_stack t) (save_lr t) (flags t) v (ticks t) (priority t).
Definition set_ticks (v : Z) (t : ThreadInfo) : ThreadInfo :=
  mkThreadInfo (stack_size t) (stack t) (my_stack t) (save_lr t) (flags t) (sp t) v (priority t).
Definition set_priority (v : Z) (t : ThreadInfo) : ThreadInfo :=
  mkThreadInfo (stack_size t) (stack t) (my_stack t) (save_lr t) (flags t) (sp t) (ticks t) v.

(** The [Threads] object together with the globals shared with the
    context switch, the millisecond counter, the words of memory written
    by [loadstack], the blocks released with [delete[]] and the
    supervisor calls issued so far (most recent first). *)
Record Kernel := mkKernel {
  thread : list ThreadInfo;
  current_thread : Z;
  thread_count : Z;
  DEFAULT_TICKS : Z;
  DEFAULT_STACK_SIZE : Z;
  currentActive : Z;
  currentCount : Z;
  currentThread : Z;
  currentSave : Z;
  currentMSP : Z;
  currentSP : Z;
  systick_millis_count : Z;
  memory : gmap Z Z;
  released : list Z;
  svc_issued : list Z;
}.

Definition with_thread (v : list ThreadInfo) (k : Kernel) : Kernel :=
  mkKernel v (current_thread k) (thread_count k) (DEFAULT_TICKS k)
    (DEFAULT_STACK_SIZE k) (currentActive k) (currentCount k) (currentThread k)
    (currentSave k) (currentMSP k) (currentSP k) (systick_millis_count k)
    (memory k) (released k) (svc_issued k).
Definition with_current_thread (v : Z) (k : Kernel) : Kernel :=
  mkKernel (thread k) v (thread_count k) (DEFAULT_TICKS k)
    (DEFAULT_STACK_SIZE k) (currentActive k) (currentCount k) (currentThread k)
    (currentSave k) (currentMSP k) (currentSP k) (systick_millis_count k)
    (memory k) (released k) (svc_issued k).
Definition with_thread_count (v : Z) (k : Kernel) : Kernel :=
  mkKernel (thread k) (current_thread k) v (DEFAULT_TICKS k)
    (DEFAULT_STACK_SIZE k) (currentActive k) (currentCount k) (currentThread k)
    (currentSave k) (currentMSP k) (currentSP k) (systick_millis_count k)
    (memory k) (released k) (svc_issued k).
Definition with_DEFAULT_TICKS (v : Z) (k : Kernel) : Kernel :=
  mkKernel (thread k) (current_thread k) (thread_count k) v
    (DEFAULT_STACK_SIZE k) (currentActive k) (currentCount k) (currentThread k)
    (currentSave k) (currentMSP k) (currentSP k) (systick_millis_count k)
    (memory k) (released k) (svc_issued k).
Definition with_currentActive (v : Z) (k : Kernel) : Kernel :=
  mkKernel (thread k) (current_thread k) (thread_count k) (DEFAULT_TICKS k)
    (DEFAULT_STACK_SIZE k) v (currentCount k) (currentThread k)
    (currentSave k) (currentMSP k) (currentSP k) (systick_millis_count k)
    (memory k) (released k) (svc_issued k).
Definition with_currentCount (v : Z) (k : Kernel) : Kernel :=
  mkKernel (thread k) (current_thread k) (thread_count k) (DEFAULT_TICKS k)
    (DEFAULT_STACK_SIZE k) (currentActive k) v (currentThread k)
    (currentSave k) (currentMSP k) (currentSP k) (systick_millis_count k)
    (memory k) (released k) (svc_issued k).
(** The four variables published for the trampoline at the end of
    [getNextThread]. *)
Definition with_published (th sv msp stk : Z) (k : Kernel) : Kernel :=
  mkKernel (thread k) (current_thread k) (thread_count k) (DEFAULT_TICKS k)
    (DEFAULT_STACK_SIZE k) (currentActive k) (currentCount k) th
    sv msp stk (systick_millis_count k)
    (memory k) (released k) (svc_issued k).
Definition with_systick_millis_count (v : Z) (k : Kernel) : Kernel :=
  mkKernel (thread k) (current_thread k) (thread_count k) (DEFAULT_TICKS k)
    (DEFAULT_STACK_SIZE k) (currentActive k) (currentCount k) (currentThread k)
    (currentSave k) (currentMSP k) (currentSP k) v
    (memory k) (released k) (svc_issued k).
Definition with_memory (v : gmap Z Z) (k : Kernel) : Kernel :=
  mkKernel (thread k) (current_thread k) (thread_count k) (DEFAULT_TICKS k)
    (DEFAULT_STACK_SIZE k) (currentActive k) (currentCount k) (currentThread k)
    (currentSave k) (currentMSP k) (currentSP k) (systick_millis_count k)
    v (released k) (svc_issued k).
Definition with_released (v : list Z) (k : Kernel) : Kernel :=
  mkKernel (thread k) (current_thread k) (thread_count k) (DEFAULT_TICKS k)
    (DEFAULT_STACK_SIZE k) (currentActive k) (currentCount k) (currentThread k)
    (currentSave k) (currentMSP k) (currentSP k) (systick_millis_count k)
    (memory k) v (svc_issued k).
Definition with_svc_issued (v : list Z) (k : Kernel) : Kernel :=
  mkKernel (thread k) (current_thread k) (thread_count k) (DEFAULT_TICKS k)
    (DEFAULT_STACK_SIZE k) (currentActive k) (currentCount k) (currentThread k)
    (currentSave k) (currentMSP k) (currentSP k) (systick_millis_count k)
    (memory k) (released k) v.

(** *** Indexing the thread table *)

(** [thread[i]] as an rvalue: defined for [0 <= i < length]. *)
Definition thread_at (k : Kernel) (i : Z) : option ThreadInfo :=
  if decide (0 <= i) then thread k !! Z.to_nat i else None.

(** [thread[i].field = v], written as an update [f] of the slot. *)
Definition update_thread (i : Z) (f : ThreadInfo → ThreadInfo) (k : Kernel) : option Kernel :=
  t ← thread_at k i;
  Some (with_thread (<[Z.to_nat i := f t]> (thread k)) k).

(** ** Running a call that yields

    [wait], [delay] and [Mutex::lock] spin around [yield()].  While the
    caller is switched out the other threads and the interrupt handlers
    run; what they do to the shared state is the environment.  A run is
    bounded by a number of loop iterations. *)

Inductive Run (A : Type) : Type :=
  | Returned (a : A)   (* the call returned [a] *)
  | Spinning           (* the loop is still running after the given iterations *)
  | Undefined.         (* an access outside the thread table *)
Arguments Returned {A} a.
Arguments Spinning {A}.
Arguments Undefined {A}.

Section Model.
Context `{cfg : Config}.

(** ** Construction *)

(** [Threads::Threads()].  [threads] is a global object, so the slots the
    constructor does not touch are zero-initialised; [default_ticks] and
    [default_stack_size] are the initial values the header gives to
    [DEFAULT_TICKS] and [DEFAULT_STACK_SIZE]. *)
Definition Threads_ctor (default_ticks default_stack_size : Z) : Kernel :=
  mkKernel
    (mkThreadInfo 0 0 0 0 RUNNING 0 default_ticks 0
       :: replicate (Z.to_nat MAX_THREADS - 1) (mkThreadInfo 0 0 0 0 0 0 0 0))
    0 0 default_ticks default_stack_size
    FIRST_RUN default_ticks 0 0 1 0
    0 ∅ [] [].

(** ** Starting and stopping the scheduler *)

(** [Threads::start(prev_state)]; the declaration gives [prev_state] the
    default [-1], which stands for [STARTED]. *)
Definition start (prev_state : Z) (k : Kernel) : Z * Kernel :=
  let old_state := currentActive k in
  let prev_state := if decide (prev_state = -1) then STARTED else prev_state in
  (old_state, with_currentActive prev_state k).

(** [Threads::stop()] *)
Definition stop (k : Kernel) : Z * Kernel :=
  let old_state := currentActive k in
  (old_state, with_currentActive STOPPED k).

(** ** Scheduler selection *)

(** The priority loop of [getNextThread],
    [for (i = ...; i < MAX_THREADS; i++)], with [n] iterations left.  The
    result is the value of [priority_thread] after the loop and the
    state. *)
Fixpoint priority_scan (n : nat) (i : Z) (k : Kernel) : option (Z * Kernel) :=
  match n with
  | O => Some (-1, k)
  | S n' =>
    cur ← thread_at k (current_thread k);
    if decide (flags cur = RUNNING) then
      ti ← thread_at k i;
      if decide (priority ti ≠ 0) then
        let k1 := with_current_thread i k in
        let k2 := with_currentCount (ticks ti) k1 in
        k3 ← update_thread i (set_priority 0) k2;
        Some (i, k3)
      else priority_scan n' (i + 1) k
    else priority_scan n' (i + 1) k
  end.

(** The [while(1)] loop of the round-robin fallback.  Every iteration
    increments [current_thread] and the loop is left once it reaches
    [MAX_THREADS], so [fuel] bounds the iterations; [None] at [O] stands
    for a loop that is still running. *)
Fixpoint next_running (fuel : nat) (k : Kernel) : option Kernel :=
  match fuel with
  | O => None
  | S fuel' =>
    let k1 := with_current_thread (current_thread k + 1) k in
    if decide (current_thread k1 >= MAX_THREADS) then
      Some (with_current_thread 0 k1)
    else
      t ← thread_at k1 (current_thread k1);
      if decide (flags t = RUNNING) then Some k1 else next_running fuel' k1
  end.

(** The tail of [getNextThread]: publish the chosen slot for the
    trampoline. *)
Definition publish (k : Kernel) : option Kernel :=
  t ← thread_at k (current_thread k);
  Some (with_published (current_thread k) (current_thread k)
          (if decide (current_thread k = 0) then 1 else 0) (sp t) k).

(** The fallback branch, taken when [priority_thread == -1]. *)
Definition round_robin (k : Kernel) : option Kernel :=
  k1 ← next_running (Z.to_nat MAX_THREADS) k;
  t ← thread_at k1 (current_thread k1);
  Some (with_currentCount (ticks t) k1).

(** [Threads::getNextThread()] *)
Definition getNextThread (k : Kernel) : option Kernel :=
  k0 ← update_thread (current_thread k) (set_sp (currentSP k)) k;
  '(priority_thread, k1) ← priority_scan (Z.to_nat MAX_THREADS) 0 k0;
  k2 ← (if decide (priority_thread = -1) then round_robin k1 else Some k1);
  publish k2.

(** ** Stack bootstrap *)

(** Modelled from the spec: the fields of [interrupt_stack_t], which the
    header declares.  The frame holds, from the low address upward, the
    argument registers r0 to r3, the scratch register r12, the link
    register, the program counter and the status register. *)
Inductive frame_field : Set := r0 | r1 | r2 | r3 | r12 | lr | pc | xpsr.

(** Modelled from the spec: the offset of a field of [interrupt_stack_t];
    each field is a 32-bit register image. *)
Definition offset (f : frame_field) : Z :=
  match f with
  | r0 => 0 | r1 => 4 | r2 => 8 | r3 => 12
  | r12 => 16 | lr => 20 | pc => 24 | xpsr => 28
  end.

(** Modelled from the spec: [sizeof(interrupt_stack_t)], eight words. *)
Definition sizeof_interrupt_stack_t : Z := 32.

(** A [uint32_t] store through a frame pointer. *)
Definition store32 (addr v : Z) (k : Kernel) : Kernel :=
  with_memory (<[addr := wrap32 v]> (memory k)) k.

Definition load32 (addr : Z) (k : Kernel) : option Z := memory k !! addr.

(** [Threads::loadstack(p, arg, stackaddr, stack_size)] *)
Definition loadstack (p arg stackaddr stack_size : Z) (k : Kernel) : Z * Kernel :=
  let process_frame := stackaddr + stack_size - sizeof_interrupt_stack_t - 8 in
  let k := store32 (process_frame + offset r0) arg k in
  let k := store32 (process_frame + offset r1) 0 k in
  let k := store32 (process_frame + offset r2) 0 k in
  let k := store32 (process_frame + offset r3) 0 k in
  let k := store32 (process_frame + offset r12) 0 k in
  let k := store32 (process_frame + offset lr) del_process k in
  let k := store32 (process_frame + offset pc) p k in
  let k := store32 (process_frame + offset xpsr) 0x1000000 k in
  let ret := process_frame in
  (ret, k).

(** ** Thread lifecycle *)

(** The body of the slot loop of [addThread] once a free slot [i] (whose
    descriptor is [t]) is found.  [fresh] is the address [new] returns if
    it is called. *)
Definition claim_slot (fresh : Z) (p arg stack_size stack_ : Z) (old_state : Z)
    (i : Z) (t : ThreadInfo) (k : Kernel) : option (Z * Kernel) :=
  let k := if decide (stack t ≠ 0 ∧ my_stack t ≠ 0)
           then with_released (stack t :: released k) k else k in
  let '(stack_, my) := if decide (stack_ = 0) then (fresh, 1) else (stack_, 0) in
  let '(psp, k) := loadstack p arg stack_ stack_size k in
  k ← update_thread i (λ _, mkThreadInfo stack_size stack_ my 0xFFFFFFF9
                               RUNNING psp (DEFAULT_TICKS k) 0) k;
  let k := with_currentActive old_state k in
  let k := with_thread_count (thread_count k + 1) k in
  let k := if decide (old_state = STARTED ∨ old_state = FIRST_RUN)
           then (start (-1) k).2 else k in
  Some (i, k).

(** The slot loop of [addThread], [for (i = ...; i < MAX_THREADS; i++)],
    with [n] iterations left; [None] in the result pair's place is
    undefined behaviour, a first component [-1] means no slot was free. *)
Fixpoint find_slot (n : nat) (fresh : Z) (p arg stack_size stack_ : Z) (old_state : Z)
    (i : Z) (k : Kernel) : option (Z * Kernel) :=
  match n with
  | O => Some (-1, k)
  | S n' =>
    t ← thread_at k i;
    if decide (flags t = ENDED ∨ flags t = EMPTY) then
      claim_slot fresh p arg stack_size stack_ old_state i t k
    else find_slot n' fresh p arg stack_size stack_ old_state (i + 1) k
  end.

(** [Threads::addThread(p, arg, stack_size, stack)] *)
Definition addThread (fresh : Z) (p arg stack_size stack_ : Z) (k : Kernel)
    : option (Z * Kernel) :=
  let '(old_state, k) := stop k in
  let stack_size := if decide (stack_size = -1) then DEFAULT_STACK_SIZE k else stack_size in
  '(r, k) ← find_slot (Z.to_nat (MAX_THREADS - 1)) fresh p arg stack_size stack_ old_state 1 k;
  if decide (r = -1) then
    let k := if decide (old_state = STARTED) then (start (-1) k).2 else k in
    Some (-1, k)
  else Some (r, k).

(** [Threads::getState(id)] *)
Definition getState (id : Z) (k : Kernel) : option Z :=
  t ← thread_at k id; Some (flags t).

(** [Threads::setState(id, state)] *)
Definition setState (id state : Z) (k : Kernel) : option (Z * Kernel) :=
  k ← update_thread id (set_flags state) k; Some (state, k).

(** [Threads::kill(id)] *)
Definition kill (id : Z) (k : Kernel) : option (Z * Kernel) :=
  k ← update_thread id (set_flags ENDED) k; Some (id, k).

(** [Threads::suspend(id)] *)
Definition suspend (id : Z) (k : Kernel) : option (Z * Kernel) :=
  k ← update_thread id (set_flags SUSPENDED) k; Some (id, k).

(** [Threads::restart(id)] *)
Definition restart (id : Z) (k : Kernel) : option (Z * Kernel) :=
  k ← update_thread id (set_flags RUNNING) k; Some (id, k).

(** [Threads::setTimeSlice(id, ticks)]: [ticks] is [unsigned int], so
    [ticks - 1] wraps, and the result is converted to the [int] field. *)
Definition setTimeSlice (id ticks_ : Z) (k : Kernel) : option Kernel :=
  update_thread id (set_ticks (to_int32 (ticks_ - 1))) k.

(** [Threads::setDefaultTimeSlice(ticks)] *)
Definition setDefaultTimeSlice (ticks_ : Z) (k : Kernel) : Kernel :=
  with_DEFAULT_TICKS (to_int32 (ticks_ - 1)) k.

(** [Threads::setPriority(id, level)] *)
Definition setPriority (id level : Z) (k : Kernel) : option Kernel :=
  let id := if decide (id = -1) then current_thread k else id in
  update_thread id (set_priority level) k.

(** ** Supervisor calls *)

(** The C part of [svcall_isr], entered with the immediate of the calling
    [svc] instruction.  In both recognised cases it branches to the
    assembly context switch, which is outside [TeensyThreads.cpp] and is
    left to the environment here. *)
Definition svcall_isr (svc : Z) (k : Kernel) : Kernel :=
  if decide (svc = SVC_NUMBER) then k
  else if decide (svc = SVC_NUMBER_ACTIVE) then with_currentActive STARTED k
  else k.

(** [Threads::yield()]: [svc SVC_NUMBER] *)
Definition yield (k : Kernel) : Kernel :=
  svcall_isr SVC_NUMBER (with_svc_issued (SVC_NUMBER :: svc_issued k) k).

(** [Threads::yield_and_start()]: [svc SVC_NUMBER_ACTIVE] *)
Definition yield_and_start (k : Kernel) : Kernel :=
  svcall_isr SVC_NUMBER_ACTIVE (with_svc_issued (SVC_NUMBER_ACTIVE :: svc_issued k) k).

(** The counting part of [systick_isr]: [systick_millis_count++] on the
    [uint32_t] counter. *)
Definition systick_count (k : Kernel) : Kernel :=
  with_systick_millis_count (wrap32 (systick_millis_count k + 1)) k.

(** [millis()] of the Arduino core reads the millisecond counter. *)
Definition millis (k : Kernel) : Z := systick_millis_count k.

(** ** Waiting for a thread *)

(** The loop of [Threads::wait(id, timeout_ms)]; [n] counts the yields
    made so far and [env n] is what happens during yield number [n]. *)
Fixpoint wait_loop (env : nat → Kernel → Kernel) (fuel : nat) (n : nat)
    (id timeout_ms start_ : Z) (k : Kernel) : Run (Z * Kernel) :=
  match fuel with
  | O => Spinning
  | S fuel' =>
    if decide (timeout_ms ≠ 0 ∧ wrap32 (millis k - start_) > timeout_ms) then
      Returned (-1, k)
    else
      match thread_at k id with
      | None => Undefined
      | Some t =>
        let state := flags t in
        if decide (state ≠ RUNNING) then Returned (id, k)
        else wait_loop env fuel' (S n) id timeout_ms start_ (env n (yield k))
      end
  end.

(** [Threads::wait(id, timeout_ms)].  The counter is read for [start]
    and read again by the first test of the loop; [env 0] is what the
    interrupts and the other threads do between the two reads, and
    [env n], for [n >= 1], what happens during yield number [n]. *)
Definition wait (env : nat → Kernel → Kernel) (fuel : nat)
    (id timeout_ms : Z) (k : Kernel) : Run (Z * Kernel) :=
  let start_ := millis k in
  let k := env 0%nat k in
  wait_loop env fuel 1 id timeout_ms start_ k.

(** ** Mutex *)

(** [Threads::Mutex]: [state] is 1 when locked, [waitthread] the parked
    slot or [-1], [waitcount] the tick count saved for it. *)
Record Mutex := mkMutex {
  state : Z;
  waitthread : Z;
  waitcount : Z;
}.

(** [Threads::Mutex::getState()] *)
Definition Mutex_getState (k : Kernel) (m : Mutex) : Z * Kernel :=
  let '(p, k) := stop k in
  let ret := state m in
  let '(_, k) := start p k in
  (ret, k).

(** [Threads::Mutex::try_lock()] *)
Definition try_lock (k : Kernel) (m : Mutex) : Z * Kernel * Mutex :=
  let '(p, k) := stop k in
  if decide (state m = 0) then
    let m := mkMutex 1 (waitthread m) (waitcount m) in
    let '(_, k) := start p k in
    (1, k, m)
  else
    let '(_, k) := start p k in
    (0, k, m).

(** [Threads::Mutex::unlock()]; [leave] is the common tail
    [threads.start(p); return 1;]. *)
Definition unlock (k : Kernel) (m : Mutex) : option (Z * Kernel * Mutex) :=
  let '(p, k) := stop k in
  let leave (k : Kernel) (m : Mutex) :=
    let '(_, k) := start p k in Some (1, k, m) in
  if decide (state m = 1) then
    let m := mkMutex 0 (waitthread m) (waitcount m) in
    if decide (waitthread m >= 0) then
      k ← setPriority (waitthread m) (waitcount m) k;
      '(_, k) ← restart (waitthread m) k;
      let m := mkMutex (state m) (-1) (waitcount m) in
      let k := yield_and_start k in
      Some (1, k, m)
    else leave k m
  else leave k m.

(** The parking block of [Mutex::lock], entered when [waitthread == -1]. *)
Definition park (k : Kernel) (m : Mutex) : option (Kernel * Mutex) :=
  let '(p, k) := stop k in
  let m := mkMutex (state m) (current_thread k) (waitcount m) in
  let m := mkMutex (state m) (waitthread m) (currentCount k) in
  '(_, k) ← suspend (waitthread m) k;
  let '(_, k) := start p k in
  Some (k, m).

(** What follows a [yield] of the thread in slot [me].  The supervisor
    call enters the context switch, which asks [loadNextThread], that is
    [getNextThread], for the thread to run (lines 16 to 30 and 72 to 77 of
    the source).  [env n] is what happens after selection number [n]: the
    work of the thread selected and of the interrupts, up to the next
    selection when another thread was selected, and up to the caller's
    next statement when the caller was.  The caller goes on only once a
    selection has chosen its slot; [fuel] bounds the selections. *)
Fixpoint resume (env : nat → Kernel * Mutex → Kernel * Mutex) (fuel : nat) (n : nat)
    (me : Z) (k : Kernel) (m : Mutex) : Run (nat * Kernel * Mutex) :=
  match fuel with
  | O => Spinning
  | S fuel' =>
    match getNextThread k with
    | None => Undefined
    | Some k1 =>
      let '(k2, m2) := env n (k1, m) in
      if decide (current_thread k1 = me) then Returned (S n, k2, m2)
      else resume env fuel' (S n) me k2 m2
    end
  end.

(** The loop of [Threads::Mutex::lock(timeout_ms)], run by the thread in
    slot [me].  After its [yield] the caller goes on when it is selected
    again, see [resume]; [switches] bounds the selections made while it is
    switched out and [fuel] the rounds of the loop. *)
Fixpoint lock_loop (env : nat → Kernel * Mutex → Kernel * Mutex) (switches : nat)
    (fuel : nat) (n : nat) (me timeout_ms start_ : Z) (k : Kernel) (m : Mutex)
    : Run (Z * Kernel * Mutex) :=
  match fuel with
  | O => Spinning
  | S fuel' =>
    let '(r, k, m) := try_lock k m in
    if decide (r ≠ 0) then Returned (1, k, m)
    else if decide (timeout_ms ≠ 0 ∧ wrap32 (systick_millis_count k - start_) > timeout_ms)
    then Returned (0, k, m)
    else
      match (if decide (waitthread m = -1) then park k m else Some (k, m)) with
      | None => Undefined
      | Some (k, m) =>
        match resume env switches n me (yield k) m with
        | Returned (n, k, m) => lock_loop env switches fuel' n me timeout_ms start_ k m
        | Spinning => Spinning
        | Undefined => Undefined
        end
      end
  end.

(** [Threads::Mutex::lock(timeout_ms)], called by the running thread.
    [env 0] is what the interrupts and the other threads do between the
    read of the counter for [start] and the loop. *)
Definition lock (env : nat → Kernel * Mutex → Kernel * Mutex) (switches fuel : nat)
    (timeout_ms : Z) (k : Kernel) (m : Mutex) : Run (Z * Kernel * Mutex) :=
  let me := current_thread k in
  let '(r, k, m) := try_lock k m in
  if decide (r ≠ 0) then Returned (1, k, m)
  else
    let start_ := systick_millis_count k in
    let '(k, m) := env 0%nat (k, m) in
    lock_loop env switches fuel 1 me timeout_ms start_ k m.

End Model.

(** * The rest of the kernel

    The calls of [TeensyThreads.cpp] that the sections above do not
    need: the termination shim, the scoped guard, stack introspection,
    the remaining setters and [delay]. *)

Definition with_DEFAULT_STACK_SIZE (v : Z) (k : Kernel) : Kernel :=
  mkKernel (thread k) (current_thread k) (thread_count k) (DEFAULT_TICKS k)
    v (currentActive k) (currentCount k) (currentThread k)
    (currentSave k) (currentMSP k) (currentSP k) (systick_millis_count k)
    (memory k) (released k) (svc_issued k).

Section Shim.
Context `{cfg : Config}.

(** [Threads::del_process()], up to its final [while(1)], in which the
    thread stays until it is switched out.  [me] is the index of the slot
    that the pointer [me] designates. *)
Definition Threads_del_process (k : Kernel) : option Kernel :=
  let '(old_state, k) := stop k in
  let me := current_thread k in
  let k := with_thread_count (thread_count k - 1) k in
  k ← update_thread me (set_flags ENDED) k;
  let '(_, k) := start old_state k in
  Some k.

(** [Threads::setDefaultStackSize(bytes_size)]: the [unsigned int]
    argument is converted to the [int] member. *)
Definition setDefaultStackSize (bytes_size : Z) (k : Kernel) : Kernel :=
  with_DEFAULT_STACK_SIZE (to_int32 bytes_size) k.

(** [Threads::getStackUsed(id)]: a difference of 32-bit pointers,
    returned as [int]. *)
Definition getStackUsed (id : Z) (k : Kernel) : option Z :=
  t ← thread_at k id; Some (to_int32 (stack t + stack_size t - sp t)).

(** [Threads::getStackRemaining(id)], an [int] as well. *)
Definition getStackRemaining (id : Z) (k : Kernel) : option Z :=
  t ← thread_at k id; Some (to_int32 (sp t - stack t)).

(** [Threads::Suspend::Suspend()]; the first component of the result is
    the member [save_state]. *)
Definition Suspend_ctor (k : Kernel) : Z * Kernel :=
  let save_state := currentActive k in
  (save_state, with_currentActive 0 k).

(** [Threads::Suspend::~Suspend()] *)
Definition Suspend_dtor (save_state : Z) (k : Kernel) : Kernel :=
  with_currentActive save_state k.

(** The loop of [Threads::delay(millisecond)].  [millis()] is converted
    to [int] and the subtraction is the 32-bit subtraction of the target,
    whose result wraps around. *)
Fixpoint delay_loop (env : nat → Kernel → Kernel) (fuel : nat) (n : nat)
    (millisecond mx : Z) (k : Kernel) : Run Kernel :=
  match fuel with
  | O => Spinning
  | S fuel' =>
    let d := to_int32 (to_int32 (millis k) - mx) in
    if decide (d < millisecond) then
      delay_loop env fuel' (S n) millisecond mx (env n (yield k))
    else Returned k
  end.

(** [Threads::delay(millisecond)].  The counter is read for [mx] and read
    again by the first test of the loop; [env 0] is what the interrupts
    and the other threads do between the two reads, and [env n], for
    [n >= 1], what happens during yield number [n]. *)
Definition delay (env : nat → Kernel → Kernel) (fuel : nat)
    (millisecond : Z) (k : Kernel) : Run Kernel :=
  let mx := to_int32 (millis k) in
  let k := env 0%nat k in
  delay_loop env fuel 1 millisecond mx k.

End Shim.

(** ** Tick source

    [setMicroTimer] programs the interval timer [context_timer] of the
    Teensy core.  The timer, the interrupt controller and the PIT
    registers are outside the source; they are a state [PitState] with the
    operations the code calls on it. *)
Class Pit := {
  PitState : Type;
  (* context_timer.priority(n) *)
  IntervalTimer_priority : Z → PitState → PitState;
  (* context_timer.begin(context_pit_empty, microseconds) and its result *)
  IntervalTimer_begin : Z → PitState → bool * PitState;
  (* &PIT_TFLG0 + width * number, for the channel the timer runs on *)
  pit_flag_address : PitState → Z;
  (* attachInterruptVector(context_timer, context_switch_pit_isr) *)
  attachInterruptVector : PitState → PitState;
}.

(** The kernel together with the globals of the tick source:
    [currentUseSystick], [context_timer_flag] and [context_timer]. *)
Record Timed `{Pit} := mkTimed {
  kern : Kernel;
  currentUseSystick : Z;
  context_timer_flag : Z;
  context_timer : PitState;
}.

Section TickSource.
Context `{cfg : Config} `{pit : Pit}.

(** [Threads::setMicroTimer(tick_microseconds)] *)
Definition setMicroTimer (tick_microseconds : Z) (s : Timed) : Z * Timed :=
  let dev := IntervalTimer_priority 255 (context_timer s) in
  let '(ok, dev) := IntervalTimer_begin tick_microseconds dev in
  if negb ok then
    (0, mkTimed _ (kern s) (currentUseSystick s) (context_timer_flag s) dev)
  else
    let flag := pit_flag_address dev in
    let dev := attachInterruptVector dev in
    (1, mkTimed _ (kern s) 0 flag dev).

(** [Threads::setSliceMicros(microseconds)] *)
Definition setSliceMicros (microseconds : Z) (s : Timed) : Z * Timed :=
  let '(_, s) := setMicroTimer microseconds s in
  (1, mkTimed _ (setDefaultTimeSlice 1 (kern s)) (currentUseSystick s)
        (context_timer_flag s) (context_timer s)).

(** [Threads::setSliceMillis(milliseconds)]; the product
    [milliseconds * 1000] is an [int], and undefined when it
    overflows. *)
Definition setSliceMillis (milliseconds : Z) (s : Timed) : option (Z * Timed) :=
  if decide (currentUseSystick s ≠ 0) then
    Some (1, mkTimed _ (setDefaultTimeSlice (wrap32 milliseconds) (kern s))
               (currentUseSystick s) (context_timer_flag s) (context_timer s))
  else if decide (- 2 ^ 31 <= milliseconds * 1000 < 2 ^ 31) then
    let '(_, s) := setSliceMicros (milliseconds * 1000) s in Some (1, s)
  else None.

(** [systick_isr()]: the counter is advanced, and the second component
    tells whether the handler branches to [context_switch]. *)
Definition systick_isr (s : Timed) : Timed * bool :=
  (mkTimed _ (systick_count (kern s)) (currentUseSystick s)
     (context_timer_flag s) (context_timer s),
   bool_decide (currentUseSystick s ≠ 0)).

End TickSource.

(** * Properties *)

(** The thread table has [MAX_THREADS] slots. *)
Definition table_ok `{cfg : Config} (k : Kernel) : Prop :=
  length (thread k) = Z.to_nat MAX_THREADS.

(** The state code of slot [i], when [i] is a slot. *)
Definition flags_at (k : Kernel) (i : Z) : option Z := flags <$> thread_at k i.

(** The boost counter of slot [i], when [i] is a slot. *)
Definition priority_at (k : Kernel) (i : Z) : option Z := priority <$> thread_at k i.

(** The time slice of slot [i], when [i] is a slot. *)
Definition ticks_at (k : Kernel) (i : Z) : option Z := ticks <$> thread_at k i.

(** What the round-robin scan from slot [cur] may choose: the first
    RUNNING slot above [cur], or slot 0 when there is none. *)
Definition round_robin_choice `{cfg : Config} (k : Kernel) (cur c : Z) : Prop :=
  (cur < c < MAX_THREADS ∧ flags_at k c = Some RUNNING
     ∧ ∀ j, cur < j < c → flags_at k j ≠ Some RUNNING)
  ∨ (c = 0 ∧ ∀ j, cur < j < MAX_THREADS → flags_at k j ≠ Some RUNNING).

(** A slot that [addThread] may reuse. *)
Definition free_slot `{cfg : Config} (k : Kernel) (i : Z) : Prop :=
  ∃ t, thread_at k i = Some t ∧ (flags t = ENDED ∨ flags t = EMPTY).

(** The round-robin fallback in the words of the specification:
    starting from [current_thread + 1], scan forward, wrapping at
    [MAX_THREADS] back to 0; the first slot found RUNNING is chosen.
    [n] is the number of slots still to be looked at. *)
Fixpoint spec_scan `{cfg : Config} (n : nat) (i : Z) (k : Kernel) : option Z :=
  match n with
  | O => None
  | S n' =>
    let i := if decide (i >= MAX_THREADS) then 0 else i in
    if decide (flags_at k i = Some RUNNING) then Some i
    else spec_scan n' (i + 1) k
  end.

Definition spec_round_robin `{cfg : Config} (k : Kernel) : option Z :=
  spec_scan (Z.to_nat MAX_THREADS) (current_thread k + 1) k.

(** The deadline test of [wait] and [Mutex::lock]: a deadline is set and
    more than [timeout_ms] milliseconds have elapsed since [start_] on the
    wrapping counter. *)
Definition deadline_passed (timeout_ms start_ : Z) (k : Kernel) : Prop :=
  timeout_ms ≠ 0 ∧ wrap32 (millis k - start_) > timeout_ms.

(** The time elapsed from state [k0] to state [k1] as [delay] measures
    it: the difference of the two counter values, read as an [int]. *)
Definition elapsed_int (k0 k1 : Kernel) : Z := to_int32 (millis k1 - millis k0).

(** The kernel at the check that follows [n] yields of a spinning call,
    the first of them being yield number [n0]. *)
Fixpoint after_yields `{cfg : Config} (env : nat → Kernel → Kernel) (n0 n : nat)
    (k : Kernel) : Kernel :=
  match n with
  | O => k
  | S n' => after_yields env (S n0) n' (env n0 (yield k))
  end.

(** A round of the loop of [Mutex::lock] that does not return, from its
    [try_lock] to its [yield]. *)
Definition lock_round `{cfg : Config} (w : Kernel * Mutex) : option (Kernel * Mutex) :=
  let '(_, k, m) := try_lock w.1 w.2 in
  '(k, m) ← (if decide (waitthread m = -1) then park k m else Some (k, m));
  Some (yield k, m).

(** Slot [me] is one that a selection can choose: slot 0, which the
    round-robin scan takes at the wrap whatever its state, a RUNNING slot,
    or a slot with a boost pending. *)
Definition dispatchable `{cfg : Config} (me : Z) (k : Kernel) : Prop :=
  me = 0 ∨ flags_at k me = Some RUNNING ∨ ∃ p, priority_at k me = Some p ∧ p ≠ 0.

(** Slot [me] is neither RUNNING nor boosted. *)
Definition set_aside `{cfg : Config} (me : Z) (k : Kernel) : Prop :=
  (∃ f, flags_at k me = Some f ∧ f ≠ RUNNING) ∧ priority_at k me = Some 0.


(** The saved stack pointer of slot [i], when [i] is a slot. *)
Definition sp_at (k : Kernel) (i : Z) : option Z := sp <$> thread_at k i.

(** [n] scheduler selections in a row, with nothing else running in
    between. *)
Fixpoint select_n `{cfg : Config} (n : nat) (k : Kernel) : option Kernel :=
  match n with
  | O => Some k
  | S n' => k1 ← getNextThread k; select_n n' k1
  end.

(** The fields of the kernel that only the lifecycle calls, the tick
    handler and the supervisor calls write. *)
Definition same_globals (k k' : Kernel) : Prop :=
  currentActive k' = currentActive k
  ∧ thread_count k' = thread_count k
  ∧ DEFAULT_TICKS k' = DEFAULT_TICKS k
  ∧ DEFAULT_STACK_SIZE k' = DEFAULT_STACK_SIZE k
  ∧ systick_millis_count k' = systick_millis_count k
  ∧ memory k' = memory k
  ∧ released k' = released k
  ∧ svc_issued k' = svc_issued k.

(** No slot has a boost pending. *)
Definition no_boosts `{cfg : Config} (k : Kernel) : Prop :=
  ∀ j, 0 <= j < MAX_THREADS → priority_at k j = Some 0.

(** The arguments of one [addThread] call: the address [new] would
    return, the entry point, its argument, the stack size and the stack
    pointer passed. *)
Record Spawn := mkSpawn {
  spawn_fresh : Z;
  spawn_entry : Z;
  spawn_arg : Z;
  spawn_stack_size : Z;
  spawn_stack : Z;
}.

(** A sequence of [addThread] calls; the result lists the values they
    return. *)
Fixpoint addThreads `{cfg : Config} (reqs : list Spawn) (k : Kernel)
    : option (list Z * Kernel) :=
  match reqs with
  | [] => Some ([], k)
  | q :: reqs' =>
    '(i, k1) ← addThread (spawn_fresh q) (spawn_entry q) (spawn_arg q)
                 (spawn_stack_size q) (spawn_stack q) k;
    '(ids, k2) ← addThreads reqs' k1;
    Some (i :: ids, k2)
  end.

(** The value [loadstack] gives to a field of the frame. *)
Definition frame_value `{cfg : Config} (entry arg : Z) (f : frame_field) : Z :=
  match f with
  | r0 => arg
  | lr => del_process
  | pc => entry
  | xpsr => 0x1000000
  | _ => 0
  end.

(** Slots [1 .. j] are RUNNING and the slots above [j] are EMPTY. *)
Definition filled_to `{cfg : Config} (j : Z) (k : Kernel) : Prop :=
  table_ok k
  ∧ (∀ i, 1 <= i <= j → flags_at k i = Some RUNNING)
  ∧ (∀ i, j < i < MAX_THREADS → flags_at k i = Some EMPTY).

(** ** A sample build

    The codes below are one admissible choice of the header constants,
    with the table capacity 8 of the specification's scenario S4; they
    serve to run the model on concrete inputs. *)
Definition sample : Config := {|
  MAX_THREADS := 8;
  EMPTY := 0; RUNNING := 1; ENDED := 2; SUSPENDED := 3;
  STARTED := 1; STOPPED := 2; FIRST_RUN := 3;
  SVC_NUMBER := 0x21; SVC_NUMBER_ACTIVE := 0x22;
  del_process := 0x00001a31;
|}.

(** An unused slot and a live slot with time slice [tk] and boost [pr]. *)
Definition empty_slot : ThreadInfo := mkThreadInfo 0 0 0 0 0 0 0 0.
Definition live_slot (fl tk pr : Z) : ThreadInfo :=
  mkThreadInfo 1024 0x20001000 1 0xFFFFFFF9 fl 0x200013d8 tk pr.

(** A kernel with the given table, running slot and scheduler state. *)
Definition kernel_of (tbl : list ThreadInfo) (cur active : Z) : Kernel :=
  mkKernel tbl cur 0 10 1024 active 10 cur cur (if decide (cur = 0) then 1 else 0)
    0x20007fc0 0 ∅ [] [].

(** The state after construction of [threads]: only slot 0 is in use and
    the scheduler is in state FIRST_RUN. *)
Definition boot : Kernel := Threads_ctor (cfg := sample) 10 1024.

(** Slots 0 and 1 RUNNING, slot 1 with a time slice of 4 ticks, the
    others unused; [cur] is the running slot. *)
Definition two_threads (cur : Z) : Kernel :=
  kernel_of (live_slot 1 10 0 :: live_slot 1 4 0 :: replicate 6 empty_slot) cur 1.

(** Slot 1 runs and is SUSPENDED, parked on a mutex. *)
Definition parked : Kernel :=
  kernel_of (live_slot 1 10 0 :: live_slot 3 4 0 :: replicate 6 empty_slot) 1 1.

(** Every slot RUNNING. *)
Definition full_table (active : Z) : Kernel :=
  kernel_of (replicate 8 (live_slot 1 10 0)) 0 active.

(** Slot 1 runs and is SUSPENDED, slot 2 is RUNNING, and slot 0, RUNNING,
    has a boost of 20. *)
Definition parked_with_boost : Kernel :=
  kernel_of (live_slot 1 10 20 :: live_slot 3 4 0 :: live_slot 1 6 0
             :: replicate 5 empty_slot) 1 1.

(** A mutex held by another thread, nobody parked. *)
Definition held : Mutex := mkMutex 1 (-1) 0.

(** A held mutex and a free one with slot 1 parked, 7 ticks saved. *)
Definition held_with_waiter : Mutex := mkMutex 1 1 7.
Definition free_with_waiter : Mutex := mkMutex 0 1 7.

(** Ten milliseconds pass. *)
Definition ten_ms (k : Kernel) : Kernel := Nat.iter 10 systick_count k.

(** An environment for [wait]: nothing happens between the two reads of
    the counter, and slot 1 is killed during a yield. *)
Definition target_ends (n : nat) (k : Kernel) : Kernel :=
  match n with
  | O => k
  | S _ =>
    match kill (cfg := sample) 1 k with
    | Some (_, k') => k'
    | None => k
    end
  end.

(** An environment for [wait]: nothing happens between the two reads of
    the counter; during a yield slot 1 is killed, and ten milliseconds
    pass before the waiting thread runs again. *)
Definition target_ends_waiter_late (n : nat) (k : Kernel) : Kernel :=
  match n with
  | O => k
  | S _ => ten_ms (target_ends n k)
  end.


(** An environment for [Mutex::lock]: the holder keeps the mutex and ten
    milliseconds pass after every selection. *)
Definition holder_keeps (n : nat) (w : Kernel * Mutex) : Kernel * Mutex :=
  match n with
  | O => w
  | S _ => (ten_ms w.1, w.2)
  end.

(** Slots 0, 1 and 2 RUNNING, with boosts pending on slots 1 and 2. *)
Definition two_boosts : Kernel :=
  kernel_of (live_slot 1 10 0 :: live_slot 1 4 20 :: live_slot 1 6 20
             :: replicate 5 empty_slot) 0 1.

(** Slot 1 is SUSPENDED, parked on a mutex, while slot 0 runs. *)
Definition holder_runs : Kernel :=
  kernel_of (live_slot 1 10 0 :: live_slot 3 4 0 :: replicate 6 empty_slot) 0 1.

(** Two [addThread] requests, the first with a stack of the kernel's own
    and the second with a buffer of the caller. *)
Definition spawn_owned : Spawn := mkSpawn 0x20002000 0x4001 0x20000100 (-1) 0.
Definition spawn_given : Spawn := mkSpawn 0x20003000 0x4101 0x20000200 512 0x20004000.

(** An environment in which ten milliseconds pass between the two reads
    of the counter and during every yield. *)
Definition time_passes (n : nat) (k : Kernel) : Kernel := ten_ms k.

(** A sample interval timer: its state is the priority and the period
    set; it starts for every positive period. *)
Definition sample_pit : Pit := {|
  PitState := Z * Z;
  IntervalTimer_priority := λ p st, (p, st.2);
  IntervalTimer_begin := λ us st, (bool_decide (0 < us), (st.1, us));
  pit_flag_address := λ _, 0x4003710C;
  attachInterruptVector := λ st, st;
|}.

(** The booted kernel with the SysTick as tick source. *)
Definition boot_timed : Timed (H := sample_pit) :=
  mkTimed sample_pit boot 1 0 (0, 0).

Section Table.
Context `{cfg : Config}.

Lemma thread_at_Some k i :
  table_ok k → (is_Some (thread_at k i) ↔ 0 <= i < MAX_THREADS).
Proof.
  unfold table_ok, thread_at. intros Hlen.
  destruct (decide (0 <= i)) as [Hi|Hi].
  - rewrite lookup_lt_is_Some, Hlen. lia.
  - split; [intros [? ?]; discriminate | lia].
Qed.

Lemma thread_at_in_range k i :
  table_ok k → 0 <= i < MAX_THREADS → ∃ t, thread_at k i = Some t.
Proof. intros Hk Hi. by apply thread_at_Some. Qed.

Lemma update_thread_Some k i f :
  table_ok k → (is_Some (update_thread i f k) ↔ 0 <= i < MAX_THREADS).
Proof.
  intros Hk. rewrite <- (thread_at_Some k i Hk). unfold update_thread.
  destruct (thread_at k i); simpl; split; intros [? ?]; eauto; discriminate.
Qed.

Lemma update_thread_eq k i f t :
  thread_at k i = Some t →
  update_thread i f k = Some (with_thread (<[Z.to_nat i := f t]> (thread k)) k).
Proof. unfold update_thread. by intros ->. Qed.

Lemma with_thread_table_ok k l :
  length l = length (thread k) → table_ok k → table_ok (with_thread l k).
Proof. unfold table_ok. simpl. congruence. Qed.

Lemma update_thread_table_ok k i f k' :
  update_thread i f k = Some k' → table_ok k → table_ok k'.
Proof.
  unfold update_thread. destruct (thread_at k i); simpl; [|discriminate].
  intros [= <-]. apply with_thread_table_ok. by rewrite length_insert.
Qed.

Lemma thread_at_update_same k i f t k' :
  thread_at k i = Some t → update_thread i f k = Some k' →
  thread_at k' i = Some (f t).
Proof.
  intros Ht. rewrite (update_thread_eq _ _ _ _ Ht). intros [= <-].
  unfold thread_at in *. simpl. destruct (decide (0 <= i)); [|discriminate].
  apply list_lookup_insert_eq. by eapply lookup_lt_Some.
Qed.

Lemma thread_at_update_other k i f k' j :
  update_thread i f k = Some k' → j ≠ i → thread_at k' j = thread_at k j.
Proof.
  unfold update_thread. destruct (thread_at k i) eqn:Ht; simpl; [|discriminate].
  intros [= <-] Hne. unfold thread_at in *. simpl.
  destruct (decide (0 <= j)); [|done].
  destruct (decide (0 <= i)); [|discriminate].
  apply list_lookup_insert_ne. lia.
Qed.

End Table.

Section Lifecycle.
Context `{cfg : Config}.

Lemma bind_Some_is_Some {A B} (m : option A) (f : A → B) :
  is_Some (x ← m; Some (f x)) ↔ is_Some m.
Proof. destruct m; simpl; split; intros [? ?]; eauto; discriminate. Qed.

(** C9. [getState], [setState], [kill], [suspend] and [restart] index
    the thread table with [id] unchecked: each of them is defined exactly
    when [0 <= id < MAX_THREADS], and is an out-of-bounds access for every
    other [id]. *)
Theorem thread_id_access_in_bounds_iff (k : Kernel) (id s : Z) :
  table_ok k →
  (is_Some (getState id k) ↔ 0 <= id < MAX_THREADS)
  ∧ (is_Some (setState id s k) ↔ 0 <= id < MAX_THREADS)
  ∧ (is_Some (kill id k) ↔ 0 <= id < MAX_THREADS)
  ∧ (is_Some (suspend id k) ↔ 0 <= id < MAX_THREADS)
  ∧ (is_Some (restart id k) ↔ 0 <= id < MAX_THREADS).
Proof.
  intros Hk. unfold getState, setState, kill, suspend, restart.
  rewrite !bind_Some_is_Some, !update_thread_Some by done.
  rewrite thread_at_Some by done. tauto.
Qed.

Lemma to_int32_small (x : Z) : - 2 ^ 31 <= x < 2 ^ 31 → to_int32 x = x.
Proof.
  intros Hx. unfold to_int32, wrap32.
  destruct (decide (0 <= x)) as [Hpos|Hneg].
  - rewrite Z.mod_small by lia. destruct (decide (x < 2 ^ 31)); lia.
  - replace (x mod 2 ^ 32) with (x + 2 ^ 32).
    + destruct (decide (x + 2 ^ 32 < 2 ^ 31)); lia.
    + apply Z.mod_unique with (q := -1); lia.
Qed.

(** *** [addThread] *)

Lemma claim_slot_spec fresh p arg sz st old i t k :
  thread_at k i = Some t →
  ∃ k', claim_slot fresh p arg sz st old i t k = Some (i, k')
    ∧ ticks_at k' i = Some (DEFAULT_TICKS k)
    ∧ flags_at k' i = Some RUNNING
    ∧ priority_at k' i = Some 0
    ∧ currentActive k' = (if decide (old = STARTED ∨ old = FIRST_RUN) then STARTED else old)
    ∧ thread_count k' = thread_count k + 1
    ∧ ∀ j, j ≠ i → thread_at k' j = thread_at k j.
Proof.
  intros Ht. unfold claim_slot.
  set (k1 := if decide (stack t ≠ 0 ∧ my_stack t ≠ 0)
             then with_released (stack t :: released k) k else k).
  assert (Hk1 : thread k1 = thread k ∧ DEFAULT_TICKS k1 = DEFAULT_TICKS k
                ∧ thread_count k1 = thread_count k).
  { subst k1. by destruct (decide _). }
  destruct Hk1 as (Htbl & Hdt & Htc).
  destruct (if decide (st = 0) then (fresh, 1) else (st, 0)) as [st' my].
  destruct (loadstack p arg st' sz k1) as [psp k2] eqn:Hls.
  assert (Hk2 : thread k2 = thread k ∧ DEFAULT_TICKS k2 = DEFAULT_TICKS k
                ∧ thread_count k2 = thread_count k).
  { unfold loadstack in Hls. injection Hls as _ <-. simpl. auto. }
  destruct Hk2 as (Htbl2 & Hdt2 & Htc2).
  assert (Ht2 : thread_at k2 i = Some t).
  { unfold thread_at in *. by rewrite Htbl2. }
  destruct (update_thread i (λ _, mkThreadInfo sz st' my 4294967289 RUNNING psp
                                    (DEFAULT_TICKS k2) 0) k2) as [k3|] eqn:Hup.
  2: { rewrite (update_thread_eq _ _ _ _ Ht2) in Hup. discriminate. }
  simpl. eexists. split; [reflexivity|].
  pose proof (thread_at_update_same _ _ _ _ _ Ht2 Hup) as Hsame.
  assert (Hother : ∀ j, j ≠ i → thread_at k3 j = thread_at k j).
  { intros j Hj. rewrite (thread_at_update_other _ _ _ _ _ Hup Hj).
    unfold thread_at. by rewrite Htbl2. }
  assert (Hk3 : thread_count k3 = thread_count k).
  { rewrite (update_thread_eq _ _ _ _ Ht2) in Hup. injection Hup as <-. done. }
  destruct (decide (old = STARTED ∨ old = FIRST_RUN)); simpl;
    unfold ticks_at, flags_at, priority_at, thread_at in *; simpl;
    rewrite Hsame; simpl; rewrite Hdt2, Hk3; repeat split; auto.
Qed.

Lemma find_slot_none fresh p arg sz st old n i k :
  table_ok k → 0 <= i → i + Z.of_nat n = MAX_THREADS →
  (∀ j, i <= j < MAX_THREADS → ¬ free_slot k j) →
  find_slot n fresh p arg sz st old i k = Some (-1, k).
Proof.
  intros Hk. revert i. induction n as [|n IH]; intros i Hi Hn Hfree; [done|].
  simpl. destruct (thread_at_in_range k i Hk) as [t Ht]; [lia|].
  rewrite Ht. simpl. destruct (decide (flags t = ENDED ∨ flags t = EMPTY)) as [Hf|Hf].
  - exfalso. apply (Hfree i); [lia|]. by exists t.
  - apply IH; [lia|lia|]. intros j Hj. apply Hfree. lia.
Qed.

Lemma find_slot_first fresh p arg sz st old n i k j t :
  table_ok k → 0 <= i → i + Z.of_nat n = MAX_THREADS →
  i <= j < MAX_THREADS → thread_at k j = Some t →
  (flags t = ENDED ∨ flags t = EMPTY) →
  (∀ j', i <= j' < j → ¬ free_slot k j') →
  find_slot n fresh p arg sz st old i k = claim_slot fresh p arg sz st old j t k.
Proof.
  intros Hk. revert i. induction n as [|n IH]; intros i Hi Hn Hj Ht Hf Hfirst; [lia|].
  simpl. destruct (decide (i = j)) as [->|Hne].
  - rewrite Ht. simpl. by rewrite decide_True.
  - destruct (thread_at_in_range k i Hk) as [ti Hti]; [lia|].
    rewrite Hti. simpl. rewrite decide_False.
    + apply IH; try done; try lia. intros j' Hj'. apply Hfirst. lia.
    + intros Hfi. apply (Hfirst i); [lia|]. by exists ti.
Qed.

Lemma stop_start_restores (k : Kernel) :
  currentActive k ≠ -1 → (start (currentActive k) (stop k).2).2 = k.
Proof.
  intros Hne. unfold start, stop. simpl. rewrite decide_False by done.
  by destruct k.
Qed.

Lemma find_slot_ticks fresh p arg sz st old n i k r k' :
  find_slot n fresh p arg sz st old i k = Some (r, k') → r ≠ -1 →
  ticks_at k' r = Some (DEFAULT_TICKS k).
Proof.
  revert i. induction n as [|n IH]; intros i; simpl.
  - intros [= <- <-]. done.
  - destruct (thread_at k i) as [t|] eqn:Ht; simpl; [|discriminate].
    destruct (decide (flags t = ENDED ∨ flags t = EMPTY)); [|apply IH].
    destruct (claim_slot_spec fresh p arg sz st old i t k Ht) as (k1 & -> & Htk & _).
    by intros [= <- <-] _.
Qed.

Lemma addThread_ticks fresh p arg sz st k i k' :
  addThread fresh p arg sz st k = Some (i, k') → i ≠ -1 →
  ticks_at k' i = Some (DEFAULT_TICKS k).
Proof.
  unfold addThread, stop.
  destruct (find_slot _ _ _ _ _ _ _ _ _) as [[r k1]|] eqn:Hfs; simpl; [|discriminate].
  destruct (decide (r = -1)); intros [= <- <-] Hi; [done|].
  by apply (find_slot_ticks _ _ _ _ _ _ _ _ _ _ _ Hfs).
Qed.

(** C8. [setTimeSlice(id, t)] stores [t - 1], computed in [unsigned int]
    and converted to the [int] field, into [thread[id].ticks];
    [setDefaultTimeSlice(t)] stores the same value into the default that
    [addThread] gives to a new thread.  For [t] up to [2^31] the stored
    value is the integer [t - 1]. *)
Theorem time_slice_stored_minus_one (k : Kernel) (id t : Z) :
  table_ok k → 0 <= id < MAX_THREADS → 0 <= t < 2 ^ 32 →
  (∃ k', setTimeSlice id t k = Some k'
         ∧ ticks_at k' id = Some (to_int32 (t - 1))
         ∧ ∀ j, j ≠ id → thread_at k' j = thread_at k j)
  ∧ DEFAULT_TICKS (setDefaultTimeSlice t k) = to_int32 (t - 1)
  ∧ (∀ fresh p arg sz st i k',
        addThread fresh p arg sz st (setDefaultTimeSlice t k) = Some (i, k') →
        i ≠ -1 → ticks_at k' i = Some (to_int32 (t - 1)))
  ∧ (t <= 2 ^ 31 → to_int32 (t - 1) = t - 1).
Proof.
  intros Hk Hid Ht. repeat split.
  - destruct (thread_at_in_range k id Hk Hid) as [ti Hti].
    unfold setTimeSlice. rewrite (update_thread_eq _ _ _ _ Hti).
    eexists. split; [reflexivity|].
    pose proof (update_thread_eq k id (set_ticks (to_int32 (t - 1))) ti Hti) as Hup.
    split.
    + unfold ticks_at. by rewrite (thread_at_update_same _ _ _ _ _ Hti Hup).
    + intros j Hj. by apply (thread_at_update_other _ _ _ _ _ Hup).
  - intros fresh p arg sz st i k' Hadd Hi.
    by rewrite (addThread_ticks _ _ _ _ _ _ _ _ Hadd Hi).
  - intros Hle. apply to_int32_small. lia.
Qed.

(** C5, amended.  When no slot of [1 .. MAX_THREADS-1] is ENDED or EMPTY,
    [addThread] returns [-1] and leaves the thread table and
    [thread_count] as they were, and a prior scheduler state STARTED or
    STOPPED is restored.  When a free slot exists, [addThread] returns
    the lowest free slot, now RUNNING and counted; the scheduler state
    afterwards is STARTED if it was STARTED or FIRST_RUN before the call
    and the prior state otherwise. *)
Theorem addThread_exhaustion_and_reuse (fresh p arg sz st : Z) (k : Kernel) :
  table_ok k → 1 <= MAX_THREADS →
  ((∀ j, 1 <= j < MAX_THREADS → ¬ free_slot k j) →
     ∃ k', addThread fresh p arg sz st k = Some (-1, k')
       ∧ thread k' = thread k ∧ thread_count k' = thread_count k
       ∧ (currentActive k = STARTED ∨ currentActive k = STOPPED →
          currentActive k' = currentActive k))
  ∧ (∀ i, 1 <= i < MAX_THREADS → free_slot k i →
       (∀ j, 1 <= j < i → ¬ free_slot k j) →
       ∃ k', addThread fresh p arg sz st k = Some (i, k')
         ∧ flags_at k' i = Some RUNNING
         ∧ thread_count k' = thread_count k + 1
         ∧ currentActive k' =
             (if decide (currentActive k = STARTED ∨ currentActive k = FIRST_RUN)
              then STARTED else currentActive k)).
Proof.
  intros Hk Hmax. unfold addThread, stop.
  set (ks := with_currentActive STOPPED k).
  set (sz' := if decide (sz = -1) then DEFAULT_STACK_SIZE ks else sz).
  assert (Hks : table_ok ks) by done.
  assert (Hn : 1 + Z.of_nat (Z.to_nat (MAX_THREADS - 1)) = MAX_THREADS) by lia.
  split.
  - intros Hfull.
    rewrite (find_slot_none fresh p arg sz' st (currentActive k) _ 1 ks Hks); try done; try lia.
    simpl. eexists. split; [reflexivity|].
    destruct (decide (currentActive k = STARTED)) as [He|He]; simpl;
      repeat split; auto.
    intros [?|?]; congruence.
  - intros i Hi (t & Ht & Hf) Hfirst.
    rewrite (find_slot_first fresh p arg sz' st (currentActive k) _ 1 ks i t Hks);
      try done; try lia.
    destruct (claim_slot_spec fresh p arg sz' st (currentActive k) i t ks Ht)
      as (k' & -> & _ & Hfl & _ & Hact & Htc & _).
    simpl. rewrite decide_False by lia.
    exists k'. auto.
Qed.

End Lifecycle.

Section Bootstrap.
Context `{cfg : Config}.

Lemma wrap32_small (x : Z) : 0 <= x < 2 ^ 32 → wrap32 x = x.
Proof. intros Hx. unfold wrap32. by apply Z.mod_small. Qed.

(** C6. [loadstack(entry, arg, base, size)] writes the exception frame at
    [base + size - sizeof(interrupt_stack_t) - 8]: r0 holds [arg], r1, r2,
    r3 and r12 hold 0, lr the address of [del_process], pc holds [entry]
    and xpsr [0x1000000], the Thumb bit (bit 24) alone, with exception
    number 0; the returned pointer is the address of the frame, its
    lowest word, and no word outside the frame is written. *)
Theorem loadstack_frame_layout (entry arg base size : Z) (k : Kernel) :
  0 <= arg < 2 ^ 32 → 0 <= entry < 2 ^ 32 → 0 <= del_process < 2 ^ 32 →
  ∃ k', let frame := base + size - sizeof_interrupt_stack_t - 8 in
    loadstack entry arg base size k = (frame, k')
    ∧ load32 (frame + offset r0) k' = Some arg
    ∧ load32 (frame + offset r1) k' = Some 0
    ∧ load32 (frame + offset r2) k' = Some 0
    ∧ load32 (frame + offset r3) k' = Some 0
    ∧ load32 (frame + offset r12) k' = Some 0
    ∧ load32 (frame + offset lr) k' = Some del_process
    ∧ load32 (frame + offset pc) k' = Some entry
    ∧ load32 (frame + offset xpsr) k' = Some 0x1000000
    ∧ Z.testbit 0x1000000 24 = true ∧ Z.land 0x1000000 0x1FF = 0
    ∧ (∀ f, 0 <= offset f < sizeof_interrupt_stack_t)
    ∧ (∀ a, a < frame ∨ frame + sizeof_interrupt_stack_t <= a →
            load32 a k' = load32 a k)
    ∧ thread k' = thread k.
Proof.
  intros Harg Hentry Hdel. eexists. cbv zeta. split; [reflexivity|].
  unfold load32, store32, sizeof_interrupt_stack_t. simpl.
  repeat split;
    try (repeat (rewrite lookup_insert_ne by lia); rewrite lookup_insert_eq;
         rewrite ?wrap32_small by lia; reflexivity);
    try (destruct f; simpl; lia).
  intros a Ha. by repeat (rewrite lookup_insert_ne by lia).
Qed.

End Bootstrap.

Section MutexUnlock.
Context `{cfg : Config}.

Lemma stop_start_id (k : Kernel) :
  currentActive k ≠ -1 →
  (let '(p, k1) := stop k in let '(_, k2) := start p k1 in k2) = k.
Proof.
  intros Hne. unfold start, stop. rewrite decide_False by done. by destruct k.
Qed.

Lemma unlock_not_locked (k : Kernel) (m : Mutex) :
  currentActive k ≠ -1 → state m ≠ 1 → unlock k m = Some (1, k, m).
Proof.
  intros Hne Hst. unfold unlock, stop, start. rewrite (decide_False (P := state m = 1)) by done.
  rewrite decide_False by done. by destruct k.
Qed.

Lemma unlock_no_waiter (k : Kernel) (m : Mutex) :
  currentActive k ≠ -1 → state m = 1 → waitthread m < 0 →
  unlock k m = Some (1, k, mkMutex 0 (waitthread m) (waitcount m)).
Proof.
  intros Hne Hst Hw. unfold unlock, stop, start.
  rewrite (decide_True (P := state m = 1)) by done. simpl.
  rewrite (decide_False (P := waitthread m >= 0)) by lia.
  rewrite decide_False by done. by destruct k.
Qed.

Lemma thread_at_yield_and_start (k : Kernel) (j : Z) :
  thread_at (yield_and_start k) j = thread_at k j.
Proof. unfold yield_and_start, svcall_isr. by repeat destruct (decide _). Qed.

Lemma unlock_waiter (k : Kernel) (m : Mutex) (t : ThreadInfo) :
  state m = 1 → 0 <= waitthread m → thread_at k (waitthread m) = Some t →
  ∃ k', unlock k m = Some (1, k', mkMutex 0 (-1) (waitcount m))
    ∧ thread_at k' (waitthread m)
      = Some (set_flags RUNNING (set_priority (waitcount m) t))
    ∧ (∀ j, j ≠ waitthread m → thread_at k' j = thread_at k j)
    ∧ svc_issued k' = SVC_NUMBER_ACTIVE :: svc_issued k
    ∧ (SVC_NUMBER_ACTIVE ≠ SVC_NUMBER → currentActive k' = STARTED).
Proof.
  intros Hst Hw Ht. unfold unlock, stop.
  rewrite (decide_True (P := state m = 1)) by done. simpl.
  rewrite (decide_True (P := waitthread m >= 0)) by lia.
  unfold setPriority. simpl. rewrite decide_False by lia.
  set (ks := with_currentActive STOPPED k).
  assert (Hts : thread_at ks (waitthread m) = Some t) by done.
  pose proof (update_thread_eq ks _ (set_priority (waitcount m)) t Hts) as Hup1.
  rewrite Hup1. simpl.
  set (k1 := with_thread _ ks) in *.
  pose proof (thread_at_update_same _ _ _ _ _ Hts Hup1) as Ht1.
  unfold restart.
  pose proof (update_thread_eq k1 _ (set_flags RUNNING) _ Ht1) as Hup2.
  rewrite Hup2. simpl.
  set (k2 := with_thread _ k1) in *.
  eexists. split; [reflexivity|].
  split; [|split; [|split]].
  - rewrite thread_at_yield_and_start.
    apply (thread_at_update_same _ _ _ _ _ Ht1 Hup2).
  - intros j Hj. rewrite thread_at_yield_and_start.
    change (thread_at k2 j = thread_at ks j).
    rewrite (thread_at_update_other _ _ _ _ _ Hup2 Hj).
    apply (thread_at_update_other _ _ _ _ _ Hup1 Hj).
  - unfold yield_and_start, svcall_isr.
    repeat destruct (decide _); reflexivity.
  - intros Hsvc. unfold yield_and_start, svcall_isr.
    rewrite decide_False by done. by rewrite decide_True.
Qed.

(** C3. [unlock] on a locked mutex releases it.  With a waiter parked,
    the waiter's slot gets the saved tick count as its boost and becomes
    RUNNING, [waitthread] becomes [-1] and [yield_and_start] is issued,
    which sets the scheduler STARTED; without a waiter the kernel is left
    exactly as it was before the call. *)
Theorem unlock_locked_wakes_waiter (k : Kernel) (m : Mutex) :
  table_ok k → currentActive k ≠ -1 → state m = 1 → waitthread m < MAX_THREADS →
  ∃ k' m', unlock k m = Some (1, k', m')
    ∧ state m' = 0 ∧ waitcount m' = waitcount m
    ∧ (0 <= waitthread m →
         waitthread m' = -1
         ∧ (∃ t, thread_at k (waitthread m) = Some t
              ∧ thread_at k' (waitthread m)
                = Some (set_flags RUNNING (set_priority (waitcount m) t)))
         ∧ priority_at k' (waitthread m) = Some (waitcount m)
         ∧ flags_at k' (waitthread m) = Some RUNNING
         ∧ (∀ j, j ≠ waitthread m → thread_at k' j = thread_at k j)
         ∧ svc_issued k' = SVC_NUMBER_ACTIVE :: svc_issued k
         ∧ (SVC_NUMBER_ACTIVE ≠ SVC_NUMBER → currentActive k' = STARTED))
    ∧ (waitthread m < 0 → k' = k ∧ waitthread m' = waitthread m).
Proof.
  intros Hk Hact Hst Hlt.
  destruct (decide (0 <= waitthread m)) as [Hw|Hw].
  - destruct (thread_at_in_range k (waitthread m) Hk) as [t Ht]; [lia|].
    destruct (unlock_waiter k m t Hst Hw Ht) as (k' & Hun & Hsame & Hoth & Hsvc & Hstart).
    exists k', (mkMutex 0 (-1) (waitcount m)). simpl.
    repeat split; auto; try lia.
    + by exists t.
    + unfold priority_at. by rewrite Hsame.
    + unfold flags_at. by rewrite Hsame.
  - exists k, (mkMutex 0 (waitthread m) (waitcount m)). simpl.
    rewrite unlock_no_waiter by (done || lia).
    repeat split; auto; lia.
Qed.

(** C10. [unlock] returns 1 whatever the state of the mutex.  On a mutex
    that is not locked it changes nothing: the lock state, the parked
    waiter, the thread table and the scheduler state are as before. *)
Theorem unlock_always_returns_1 (k : Kernel) (m : Mutex) :
  currentActive k ≠ -1 →
  (∀ r k' m', unlock k m = Some (r, k', m') → r = 1)
  ∧ (table_ok k → waitthread m < MAX_THREADS → ∃ k' m', unlock k m = Some (1, k', m'))
  ∧ (state m ≠ 1 → unlock k m = Some (1, k, m)).
Proof.
  intros Hact. split; [|split].
  - intros r k' m'. unfold unlock, stop, start.
    repeat (destruct (decide _); simpl); try by intros [= <- _ _].
    destruct (setPriority _ _ _); simpl; [|discriminate].
    destruct (restart _ _) as [[? ?]|]; simpl; [|discriminate].
    by intros [= <- _ _].
  - intros Hk Hlt. destruct (decide (state m = 1)) as [Hst|Hst].
    + destruct (decide (0 <= waitthread m)) as [Hw|Hw].
      * destruct (thread_at_in_range k (waitthread m) Hk) as [t Ht]; [lia|].
        destruct (unlock_waiter k m t Hst Hw Ht) as (k' & Hun & _). eauto.
      * rewrite unlock_no_waiter by (done || lia). eauto.
    + rewrite unlock_not_locked by done. eauto.
  - by apply unlock_not_locked.
Qed.

End MutexUnlock.

Section Scheduler.
Context `{cfg : Config}.

Lemma round_robin_choice_same_flags (k k' : Kernel) (cur c : Z) :
  (∀ j, flags_at k' j = flags_at k j) →
  round_robin_choice k cur c → round_robin_choice k' cur c.
Proof.
  intros Hfl. unfold round_robin_choice. rewrite Hfl.
  intros [(H1 & H2 & H3)|(H1 & H2)]; [left|right].
  - split; [exact H1|]. split; [exact H2|]. intros j Hj. rewrite Hfl. by apply H3.
  - split; [exact H1|]. intros j Hj. rewrite Hfl. by apply H2.
Qed.

Lemma round_robin_choice_same_table (k k' : Kernel) (cur c : Z) :
  thread k' = thread k → round_robin_choice k cur c → round_robin_choice k' cur c.
Proof.
  intros Htbl. apply round_robin_choice_same_flags.
  intros j. unfold flags_at, thread_at. by rewrite Htbl.
Qed.

(** The [while(1)] scan leaves within [MAX_THREADS - current_thread]
    iterations, at the first RUNNING slot above the current one or at
    slot 0. *)
Lemma next_running_spec (fuel : nat) (k : Kernel) :
  table_ok k → -1 <= current_thread k < MAX_THREADS →
  MAX_THREADS - current_thread k <= Z.of_nat fuel →
  ∃ c, next_running fuel k = Some (with_current_thread c k)
       ∧ round_robin_choice k (current_thread k) c.
Proof.
  revert k. induction fuel as [|fuel IH]; intros k Hk Hcur Hfuel; [lia|].
  simpl. destruct (decide (current_thread k + 1 >= MAX_THREADS)) as [Hend|Hin].
  - exists 0. split; [done|]. right. split; [done|]. intros j Hj. lia.
  - set (k1 := with_current_thread (current_thread k + 1) k).
    destruct (thread_at_in_range k1 (current_thread k + 1)) as [t Ht]; [done|lia|].
    rewrite Ht. simpl. destruct (decide (flags t = RUNNING)) as [Hrun|Hrun].
    + exists (current_thread k + 1). split; [done|]. left.
      split; [lia|]. split.
      * unfold flags_at. change (thread_at k (current_thread k + 1)) with
          (thread_at k1 (current_thread k + 1)). rewrite Ht. simpl. by f_equal.
      * intros j Hj. lia.
    + destruct (IH k1) as (c & Hc & Hch); [done|simpl; lia|simpl; lia|].
      exists c. split; [exact Hc|].
      assert (Hnot : flags_at k (current_thread k + 1) ≠ Some RUNNING).
      { unfold flags_at. change (thread_at k (current_thread k + 1)) with
          (thread_at k1 (current_thread k + 1)). rewrite Ht. simpl. congruence. }
      apply (round_robin_choice_same_table k1 k) in Hch; [|done].
      simpl in Hch. destruct Hch as [(Hc1 & Hc2 & Hc3)|(Hc1 & Hc2)].
      * left. split; [lia|]. split; [done|]. intros j Hj.
        destruct (decide (j = current_thread k + 1)) as [->|Hne]; [done|].
        apply Hc3. lia.
      * right. split; [done|]. intros j Hj.
        destruct (decide (j = current_thread k + 1)) as [->|Hne]; [done|].
        apply Hc2. lia.
Qed.

(** The priority loop finds nothing when the running thread is not
    RUNNING or no boost is set. *)
Lemma priority_scan_none (n : nat) (i : Z) (k : Kernel) :
  table_ok k → 0 <= current_thread k < MAX_THREADS →
  0 <= i → i + Z.of_nat n <= MAX_THREADS →
  (flags_at k (current_thread k) ≠ Some RUNNING
   ∨ ∀ j, i <= j < i + Z.of_nat n → priority_at k j = Some 0) →
  priority_scan n i k = Some (-1, k).
Proof.
  intros Hk Hcur. revert i. induction n as [|n IH]; intros i Hi Hn Hno; [done|].
  simpl. destruct (thread_at_in_range k (current_thread k) Hk Hcur) as [tc Htc].
  rewrite Htc. simpl.
  assert (Hrec : priority_scan n (i + 1) k = Some (-1, k)).
  { apply IH; [lia|lia|]. destruct Hno as [Hno|Hno]; [by left|right].
    intros j Hj. apply Hno. lia. }
  destruct (decide (flags tc = RUNNING)) as [Hrun|Hrun]; [|done].
  destruct (thread_at_in_range k i Hk) as [ti Hti]; [lia|].
  rewrite Hti. simpl.
  destruct Hno as [Hno|Hno].
  - exfalso. apply Hno. unfold flags_at. rewrite Htc. simpl. by f_equal.
  - specialize (Hno i ltac:(lia)). unfold priority_at in Hno. rewrite Hti in Hno.
    injection Hno as Hno. by rewrite decide_False by lia.
Qed.

(** With the running thread RUNNING, the priority loop stops at the
    first slot whose boost is set. *)
Lemma priority_scan_first (n : nat) (i j : Z) (k : Kernel) (tj : ThreadInfo) :
  table_ok k → 0 <= current_thread k < MAX_THREADS →
  0 <= i → i + Z.of_nat n <= MAX_THREADS →
  flags_at k (current_thread k) = Some RUNNING →
  i <= j < i + Z.of_nat n → thread_at k j = Some tj → priority tj ≠ 0 →
  (∀ j', i <= j' < j → priority_at k j' = Some 0) →
  priority_scan n i k
  = Some (j, with_thread (<[Z.to_nat j := set_priority 0 tj]> (thread k))
               (with_currentCount (ticks tj) (with_current_thread j k))).
Proof.
  intros Hk Hcur. revert i.
  induction n as [|n IH]; intros i Hi Hn Hrun Hj Htj Hp Hfirst; [lia|].
  simpl. destruct (thread_at_in_range k (current_thread k) Hk Hcur) as [tc Htc].
  rewrite Htc. simpl. unfold flags_at in Hrun. rewrite Htc in Hrun.
  injection Hrun as Hrun. rewrite decide_True by done.
  destruct (decide (i = j)) as [->|Hne].
  - rewrite Htj. simpl. rewrite decide_True by done.
    unfold update_thread.
    change (thread_at (with_currentCount (ticks tj) (with_current_thread j k)) j)
      with (thread_at k j). by rewrite Htj.
  - destruct (thread_at_in_range k i Hk) as [ti Hti]; [lia|].
    rewrite Hti. simpl.
    specialize (Hfirst i ltac:(lia)) as Hpi. unfold priority_at in Hpi.
    rewrite Hti in Hpi. injection Hpi as Hpi. rewrite decide_False by lia.
    apply IH; try done; try lia.
    + unfold flags_at. rewrite Htc. simpl. by f_equal.
    + intros j' Hj'. apply Hfirst. lia.
Qed.

(** Saving the outgoing stack pointer changes no state code, boost or
    time slice. *)
Lemma fields_after_set_sp (i v : Z) (k k0 : Kernel) :
  update_thread i (set_sp v) k = Some k0 →
  ∀ j, flags_at k0 j = flags_at k j ∧ priority_at k0 j = priority_at k j
       ∧ ticks_at k0 j = ticks_at k j.
Proof.
  intros Hup j. unfold flags_at, priority_at, ticks_at.
  destruct (decide (j = i)) as [->|Hne].
  - destruct (thread_at k i) as [t|] eqn:Ht.
    + by rewrite (thread_at_update_same _ _ _ _ _ Ht Hup).
    + unfold update_thread in Hup. by rewrite Ht in Hup.
  - by rewrite (thread_at_update_other _ _ _ _ _ Hup Hne).
Qed.

(** The selection when no boost is taken. *)
Lemma getNextThread_round_robin (k : Kernel) :
  table_ok k → 0 <= current_thread k < MAX_THREADS →
  (flags_at k (current_thread k) ≠ Some RUNNING
   ∨ ∀ j, 0 <= j < MAX_THREADS → priority_at k j = Some 0) →
  ∃ k', getNextThread k = Some k'
    ∧ round_robin_choice k (current_thread k) (current_thread k')
    ∧ Some (currentCount k') = ticks_at k (current_thread k')
    ∧ (∀ j, flags_at k' j = flags_at k j ∧ priority_at k' j = priority_at k j
            ∧ ticks_at k' j = ticks_at k j)
    ∧ table_ok k' ∧ 0 <= current_thread k' < MAX_THREADS
    ∧ currentThread k' = current_thread k'.
Proof.
  intros Hk Hcur Hno. unfold getNextThread.
  destruct (thread_at_in_range k (current_thread k) Hk Hcur) as [tc Htc].
  pose proof (update_thread_eq k _ (set_sp (currentSP k)) tc Htc) as Hup.
  rewrite Hup. simpl. set (k0 := with_thread _ k) in *.
  pose proof (fields_after_set_sp _ _ _ _ Hup) as Hf.
  pose proof (update_thread_table_ok _ _ _ _ Hup Hk) as Hk0.
  rewrite (priority_scan_none _ 0 k0 Hk0); [| done | lia | lia |].
  2: { destruct Hno as [Hno|Hno]; [left|right].
       - change (current_thread k0) with (current_thread k).
         by rewrite (proj1 (Hf _)).
       - intros j Hj. rewrite (proj1 (proj2 (Hf j))). apply Hno. lia. }
  simpl. unfold round_robin.
  destruct (next_running_spec (Z.to_nat MAX_THREADS) k0 Hk0) as (c & -> & Hc);
    [simpl; lia | simpl; lia |].
  simpl. change (current_thread k0) with (current_thread k) in Hc.
  assert (Hcr : 0 <= c < MAX_THREADS).
  { destruct Hc as [(? & _)|(-> & _)]; lia. }
  destruct (thread_at_in_range k0 c Hk0 Hcr) as [t Ht].
  change (thread_at (with_current_thread c k0) c) with (thread_at k0 c).
  rewrite Ht. simpl. unfold publish. simpl.
  change (thread_at (with_currentCount (ticks t) (with_current_thread c k0)) c)
    with (thread_at k0 c).
  rewrite Ht. simpl. eexists. split; [reflexivity|]. simpl.
  split.
  { apply (round_robin_choice_same_flags k0 k); [|exact Hc].
    intros j. symmetry. apply Hf. }
  split. { rewrite <- (proj2 (proj2 (Hf c))). unfold ticks_at. by rewrite Ht. }
  split; [exact Hf|]. split; [exact Hk0|]. done.
Qed.

(** The selection when the running thread is RUNNING and slot [j] is the
    first one with a boost. *)
Lemma getNextThread_boost (k : Kernel) (j p : Z) :
  table_ok k → 0 <= current_thread k < MAX_THREADS →
  flags_at k (current_thread k) = Some RUNNING →
  0 <= j < MAX_THREADS → priority_at k j = Some p → p ≠ 0 →
  (∀ j', 0 <= j' < j → priority_at k j' = Some 0) →
  ∃ k', getNextThread k = Some k'
    ∧ current_thread k' = j
    ∧ Some (currentCount k') = ticks_at k j
    ∧ priority_at k' j = Some 0
    ∧ (∀ j', j' ≠ j → priority_at k' j' = priority_at k j')
    ∧ (∀ j', flags_at k' j' = flags_at k j' ∧ ticks_at k' j' = ticks_at k j')
    ∧ table_ok k'.
Proof.
  intros Hk Hcur Hrun Hj Hp Hp0 Hfirst. unfold getNextThread.
  destruct (thread_at_in_range k (current_thread k) Hk Hcur) as [tc Htc].
  pose proof (update_thread_eq k _ (set_sp (currentSP k)) tc Htc) as Hup.
  rewrite Hup. simpl. set (k0 := with_thread _ k) in *.
  pose proof (fields_after_set_sp _ _ _ _ Hup) as Hf.
  pose proof (update_thread_table_ok _ _ _ _ Hup Hk) as Hk0.
  destruct (thread_at_in_range k0 j Hk0 Hj) as [tj Htj].
  assert (Hptj : priority tj = p).
  { pose proof (proj1 (proj2 (Hf j))) as Hpj. unfold priority_at in Hpj, Hp.
    rewrite Htj, Hp in Hpj. by injection Hpj. }
  rewrite (priority_scan_first _ 0 j k0 tj Hk0); try done; try lia.
  2: { change (current_thread k0) with (current_thread k). by rewrite (proj1 (Hf _)). }
  2: { intros j' Hj'. rewrite (proj1 (proj2 (Hf j'))). by apply Hfirst. }
  simpl. rewrite decide_False by lia.
  set (k0' := with_currentCount (ticks tj) (with_current_thread j k0)).
  assert (Htj' : thread_at k0' j = Some tj) by done.
  pose proof (update_thread_eq k0' j (set_priority 0) tj Htj') as Hup2.
  change (thread k0) with (thread k0'). set (kk := with_thread _ k0') in *.
  pose proof (thread_at_update_same _ _ _ _ _ Htj' Hup2) as Hsame.
  unfold publish. simpl. change (current_thread kk) with j.
  rewrite Hsame. simpl.
  eexists. split; [reflexivity|]. simpl.
  split; [done|].
  split. { rewrite <- (proj2 (proj2 (Hf j))). unfold ticks_at. by rewrite Htj. }
  split. { unfold priority_at. change (thread_at _ j) with (thread_at kk j).
           by rewrite Hsame. }
  split.
  { intros j' Hj'. rewrite <- (proj1 (proj2 (Hf j'))). unfold priority_at.
    change (thread_at (with_published _ _ _ _ kk) j') with (thread_at kk j').
    change (thread_at k0 j') with (thread_at k0' j').
    by rewrite (thread_at_update_other _ _ _ _ _ Hup2 Hj'). }
  split.
  { intros j'. rewrite <- (proj1 (Hf j')), <- (proj2 (proj2 (Hf j'))).
    unfold flags_at, ticks_at.
    change (thread_at (with_published _ _ _ _ kk) j') with (thread_at kk j').
    destruct (decide (j' = j)) as [->|Hne].
    - rewrite Hsame. change (thread_at k0 j) with (thread_at k0' j). by rewrite Htj'.
    - by rewrite (thread_at_update_other _ _ _ _ _ Hup2 Hne). }
  change (table_ok kk). apply (update_thread_table_ok _ _ _ _ Hup2). exact Hk0.
Qed.

Lemma fields_after_set_priority (i v : Z) (k k' : Kernel) :
  update_thread i (set_priority v) k = Some k' →
  priority_at k' i = Some v
  ∧ ∀ j, flags_at k' j = flags_at k j ∧ ticks_at k' j = ticks_at k j
         ∧ (j ≠ i → priority_at k' j = priority_at k j).
Proof.
  intros Hup. unfold flags_at, priority_at, ticks_at.
  destruct (thread_at k i) as [t|] eqn:Ht.
  2: { unfold update_thread in Hup. by rewrite Ht in Hup. }
  split; [by rewrite (thread_at_update_same _ _ _ _ _ Ht Hup)|].
  intros j. destruct (decide (j = i)) as [->|Hne].
  - by rewrite (thread_at_update_same _ _ _ _ _ Ht Hup), Ht.
  - by rewrite (thread_at_update_other _ _ _ _ _ Hup Hne).
Qed.

(** With slot 0 RUNNING, the scan of the specification finds the slot
    that the scan of the code finds. *)
Lemma spec_scan_agrees (n : nat) (i c : Z) (k : Kernel) :
  0 <= i <= MAX_THREADS → MAX_THREADS - i < Z.of_nat n →
  flags_at k 0 = Some RUNNING →
  ((i <= c < MAX_THREADS ∧ flags_at k c = Some RUNNING
      ∧ ∀ j, i <= j < c → flags_at k j ≠ Some RUNNING)
   ∨ (c = 0 ∧ ∀ j, i <= j < MAX_THREADS → flags_at k j ≠ Some RUNNING)) →
  spec_scan n i k = Some c.
Proof.
  revert i. induction n as [|n IH]; intros i Hi Hn H0 Hc; [lia|].
  simpl. destruct (decide (i >= MAX_THREADS)) as [Hwrap|Hin].
  - rewrite decide_True by done. f_equal.
    destruct Hc as [(? & _)|(-> & _)]; lia.
  - destruct (decide (flags_at k i = Some RUNNING)) as [Hrun|Hrun].
    + f_equal. destruct Hc as [(Hc1 & Hc2 & Hc3)|(Hc1 & Hc2)].
      * destruct (decide (c = i)) as [->|Hne]; [done|].
        exfalso. apply (Hc3 i); [lia|done].
      * exfalso. apply (Hc2 i); [lia|done].
    + apply IH; [lia|lia|done|].
      destruct Hc as [(Hc1 & Hc2 & Hc3)|(Hc1 & Hc2)]; [left|right].
      * assert (c ≠ i) by congruence.
        split; [lia|]. split; [done|]. intros j Hj. apply Hc3. lia.
      * split; [done|]. intros j Hj. apply Hc2. lia.
Qed.

(** C4. When no boost is taken and slot 0 is RUNNING, [getNextThread]
    returns, having scanned from [current_thread + 1] upward: the new
    [current_thread] is the first RUNNING slot above the old one, or slot
    0 after the wrap at [MAX_THREADS] when there is none; it is RUNNING,
    it is the slot the specification's scan chooses, and its [ticks] are
    the new tick budget. *)
Theorem round_robin_fallback_selection (k : Kernel) :
  table_ok k → 0 <= current_thread k < MAX_THREADS →
  (flags_at k (current_thread k) ≠ Some RUNNING
   ∨ ∀ j, 0 <= j < MAX_THREADS → priority_at k j = Some 0) →
  flags_at k 0 = Some RUNNING →
  ∃ k', getNextThread k = Some k'
    ∧ round_robin_choice k (current_thread k) (current_thread k')
    ∧ flags_at k (current_thread k') = Some RUNNING
    ∧ spec_round_robin k = Some (current_thread k')
    ∧ Some (currentCount k') = ticks_at k (current_thread k')
    ∧ currentThread k' = current_thread k'.
Proof.
  intros Hk Hcur Hno H0.
  destruct (getNextThread_round_robin k Hk Hcur Hno)
    as (k' & Hget & Hc & Hticks & _ & _ & _ & Hpub).
  exists k'. split; [exact Hget|]. split; [exact Hc|].
  split; [|split; [|split; [exact Hticks|exact Hpub]]].
  - destruct Hc as [(_ & Hrun & _)|(-> & _)]; done.
  - unfold spec_round_robin. apply spec_scan_agrees; [lia|lia|done|].
    destruct Hc as [(Hc1 & Hc2 & Hc3)|(Hc1 & Hc2)]; [left|right].
    + split; [lia|]. split; [done|]. intros j Hj. apply Hc3. lia.
    + split; [done|]. intros j Hj. apply Hc2. lia.
Qed.

(** C1, amended.  After [setPriority(id, level)] with [level] non-zero,
    with the running thread and thread [id] both RUNNING and no boost set
    on a lower slot, the next [getNextThread] makes [id] the current
    thread, loads the time slice [thread[id].ticks] (not [level]) as the
    tick budget and clears the boost.  If no higher slot has a boost
    either, the selection after that one is the round-robin choice
    starting from [id]. *)
Theorem priority_boost_one_shot (k : Kernel) (id level : Z) :
  table_ok k → 0 <= current_thread k < MAX_THREADS →
  0 <= id < MAX_THREADS → level ≠ 0 →
  flags_at k (current_thread k) = Some RUNNING →
  flags_at k id = Some RUNNING →
  (∀ j, 0 <= j < id → priority_at k j = Some 0) →
  ∃ kp k1, setPriority id level k = Some kp
    ∧ getNextThread kp = Some k1
    ∧ current_thread k1 = id
    ∧ Some (currentCount k1) = ticks_at k id
    ∧ priority_at k1 id = Some 0
    ∧ ((∀ j, id < j < MAX_THREADS → priority_at k j = Some 0) →
       ∃ k2, getNextThread k1 = Some k2
         ∧ round_robin_choice k id (current_thread k2)
         ∧ Some (currentCount k2) = ticks_at k (current_thread k2)).
Proof.
  intros Hk Hcur Hid Hlvl Hrun Hidrun Hlow.
  unfold setPriority. rewrite decide_False by lia.
  destruct (thread_at_in_range k id Hk Hid) as [t Ht].
  pose proof (update_thread_eq k id (set_priority level) t Ht) as Hup.
  rewrite Hup. set (kp := with_thread _ k) in *.
  destruct (fields_after_set_priority _ _ _ _ Hup) as (Hpid & Hfp).
  pose proof (update_thread_table_ok _ _ _ _ Hup Hk) as Hkp.
  destruct (getNextThread_boost kp id level Hkp) as
    (k1 & Hget & Hc1 & Htk1 & Hp1 & Hpo1 & Hf1 & Hk1); try done.
  { change (current_thread kp) with (current_thread k).
    by rewrite (proj1 (Hfp _)). }
  { intros j Hj. rewrite (proj2 (proj2 (Hfp j))) by lia. by apply Hlow. }
  exists kp, k1. split; [done|]. split; [exact Hget|]. split; [exact Hc1|].
  split. { by rewrite Htk1, (proj1 (proj2 (Hfp id))). }
  split; [exact Hp1|].
  intros Hhigh.
  destruct (getNextThread_round_robin k1 Hk1) as (k2 & Hget2 & Hc2 & Htk2 & _).
  { lia. }
  { right. intros j Hj. destruct (decide (j = id)) as [->|Hne]; [done|].
    rewrite (Hpo1 j Hne), (proj2 (proj2 (Hfp j))) by done.
    destruct (decide (j < id)); [apply Hlow|apply Hhigh]; lia. }
  assert (Hfl : ∀ j, flags_at k j = flags_at k1 j).
  { intros j. by rewrite (proj1 (Hf1 j)), (proj1 (Hfp j)). }
  exists k2. split; [exact Hget2|]. split.
  - rewrite Hc1 in Hc2. by apply (round_robin_choice_same_flags k1 k).
  - by rewrite Htk2, (proj2 (Hf1 _)), (proj1 (proj2 (Hfp _))).
Qed.

End Scheduler.

Section Wait.
Context `{cfg : Config}.

(** One round of the loop of [wait]. *)
Lemma wait_loop_unfold env fuel n id timeout_ms start_ k :
  wait_loop env (S fuel) n id timeout_ms start_ k =
  if decide (deadline_passed timeout_ms start_ k) then Returned (-1, k)
  else match thread_at k id with
       | None => Undefined
       | Some t =>
         if decide (flags t ≠ RUNNING) then Returned (id, k)
         else wait_loop env fuel (S n) id timeout_ms start_ (env n (yield k))
       end.
Proof. reflexivity. Qed.

(** What a run of the loop of [wait] returns, and after how many
    yields. *)
Lemma wait_loop_returns env fuel n0 id timeout_ms start_ k r k' :
  wait_loop env fuel n0 id timeout_ms start_ k = Returned (r, k') ↔
  ∃ n, (n < fuel)%nat ∧ k' = after_yields env n0 n k
    ∧ (∀ j, (j < n)%nat →
         ¬ deadline_passed timeout_ms start_ (after_yields env n0 j k)
         ∧ flags_at (after_yields env n0 j k) id = Some RUNNING)
    ∧ ((deadline_passed timeout_ms start_ k' ∧ r = -1)
       ∨ (¬ deadline_passed timeout_ms start_ k'
          ∧ (∃ f, flags_at k' id = Some f ∧ f ≠ RUNNING) ∧ r = id)).
Proof.
  revert n0 k. induction fuel as [|fuel IH]; intros n0 k.
  { simpl. split; [discriminate|]. intros (n & Hn & _). lia. }
  rewrite wait_loop_unfold.
  destruct (decide (deadline_passed timeout_ms start_ k)) as [Hd|Hd].
  { split.
    - intros [= <- <-]. exists 0%nat. split; [lia|]. split; [done|].
      split; [intros j Hj; lia|]. by left.
    - intros (n & Hn & -> & Hbefore & Hlast). destruct n as [|n].
      + simpl in Hlast. destruct Hlast as [(_ & ->)|(Hnd & _)]; done.
      + destruct (Hbefore 0%nat ltac:(lia)) as (Hnd & _). done. }
  destruct (thread_at k id) as [t|] eqn:Ht.
  2: { split; [discriminate|].
       intros (n & Hn & -> & Hbefore & Hlast). exfalso. destruct n as [|n].
       - simpl in Hlast. destruct Hlast as [(? & _)|(_ & (f & Hf & _) & _)]; [done|].
         unfold flags_at in Hf. by rewrite Ht in Hf.
       - destruct (Hbefore 0%nat ltac:(lia)) as (_ & Hf).
         unfold flags_at in Hf. simpl in Hf. by rewrite Ht in Hf. }
  destruct (decide (flags t ≠ RUNNING)) as [Hfl|Hfl].
  { split.
    - intros [= <- <-]. exists 0%nat. split; [lia|]. split; [done|].
      split; [intros j Hj; lia|]. right. split; [done|]. split; [|done].
      exists (flags t). unfold flags_at. by rewrite Ht.
    - intros (n & Hn & -> & Hbefore & Hlast). destruct n as [|n].
      + simpl in Hlast. destruct Hlast as [(? & _)|(_ & _ & ->)]; done.
      + destruct (Hbefore 0%nat ltac:(lia)) as (_ & Hf).
        unfold flags_at in Hf. simpl in Hf. rewrite Ht in Hf.
        injection Hf as Hf. done. }
  assert (Hrun : flags t = RUNNING) by (destruct (decide (flags t = RUNNING)); tauto).
  rewrite IH. split.
  - intros (n & Hn & -> & Hbefore & Hlast). exists (S n). split; [lia|].
    split; [done|]. split; [|exact Hlast].
    intros [|j] Hj; simpl.
    + split; [done|]. unfold flags_at. rewrite Ht. simpl. by f_equal.
    + apply Hbefore. lia.
  - intros (n & Hn & -> & Hbefore & Hlast). destruct n as [|n].
    + exfalso. simpl in Hlast.
      destruct Hlast as [(? & _)|(_ & (f & Hf & Hne) & _)]; [done|].
      unfold flags_at in Hf. rewrite Ht in Hf. injection Hf as <-. done.
    + exists n. split; [lia|]. split; [done|]. split; [|exact Hlast].
      intros j Hj. apply (Hbefore (S j)). lia.
Qed.

(** C7, amended.  [wait(id, timeout_ms)] spins, yielding, while the
    deadline has not passed and the target is RUNNING.  At each check the
    deadline is tested first: the call returns [-1] at the first check at
    which [timeout_ms] is non-zero and more than [timeout_ms]
    milliseconds have elapsed, whatever the target's state then, and it
    returns [id] at the first check at which the deadline has not passed
    and the target's flags differ from RUNNING.  With [timeout_ms = 0] it
    never returns [-1].  The first check is made on [env 0 k], the state
    the environment has produced since the start time was read. *)
Theorem wait_returns (env : nat → Kernel → Kernel) (fuel : nat)
    (id timeout_ms : Z) (k : Kernel) (r : Z) (k' : Kernel) :
  (wait env fuel id timeout_ms k = Returned (r, k') ↔
   ∃ n, (n < fuel)%nat ∧ k' = after_yields env 1 n (env 0%nat k)
     ∧ (∀ j, (j < n)%nat →
          ¬ deadline_passed timeout_ms (millis k) (after_yields env 1 j (env 0%nat k))
          ∧ flags_at (after_yields env 1 j (env 0%nat k)) id = Some RUNNING)
     ∧ ((deadline_passed timeout_ms (millis k) k' ∧ r = -1)
        ∨ (¬ deadline_passed timeout_ms (millis k) k'
           ∧ (∃ f, flags_at k' id = Some f ∧ f ≠ RUNNING) ∧ r = id)))
  ∧ (timeout_ms = 0 → wait env fuel id timeout_ms k = Returned (r, k') → r ≠ -1).
Proof.
  split; [apply wait_loop_returns|].
  intros -> Hret. apply wait_loop_returns in Hret.
  destruct Hret as (n & _ & _ & _ & [((Hd & _) & _)|(_ & (f & Hf & _) & ->)]); [done|].
  unfold flags_at, thread_at in Hf. destruct (decide (0 <= id)); [lia|discriminate].
Qed.

End Wait.

Section MutexLock.
Context `{cfg : Config}.

Lemma try_lock_cases (k : Kernel) (m : Mutex) :
  (state m = 0
   ∧ ∃ k1, try_lock k m = (1, k1, mkMutex 1 (waitthread m) (waitcount m))
           ∧ systick_millis_count k1 = systick_millis_count k)
  ∨ (state m ≠ 0
     ∧ ∃ k1, try_lock k m = (0, k1, m)
             ∧ systick_millis_count k1 = systick_millis_count k).
Proof.
  unfold try_lock, stop, start.
  destruct (decide (state m = 0)) as [Hs|Hs]; [left|right];
    (split; [done|]); eexists; (split; [reflexivity|done]).
Qed.


End MutexLock.

(** * Concrete runs on the sample build *)

Section Runs.
Local Existing Instance sample.

Lemma thread_id_access_in_bounds_iff_witness :
  table_ok boot
  ∧ (is_Some (getState 3 boot) ↔ 0 <= 3 < MAX_THREADS)
  ∧ (is_Some (setState 3 1 boot) ↔ 0 <= 3 < MAX_THREADS)
  ∧ (is_Some (kill 3 boot) ↔ 0 <= 3 < MAX_THREADS)
  ∧ (is_Some (suspend 3 boot) ↔ 0 <= 3 < MAX_THREADS)
  ∧ (is_Some (restart 3 boot) ↔ 0 <= 3 < MAX_THREADS).
Proof.
  split; [reflexivity|].
  apply (thread_id_access_in_bounds_iff boot 3 1). reflexivity.
Defined.

Lemma time_slice_stored_minus_one_witness :
  table_ok boot ∧ 0 <= 1 < MAX_THREADS ∧ 0 <= 5 < 2 ^ 32
  ∧ ∃ k', setTimeSlice 1 5 boot = Some k' ∧ ticks_at k' 1 = Some 4.
Proof.
  split; [reflexivity|]. split; [simpl; lia|]. split; [lia|].
  destruct (time_slice_stored_minus_one boot 1 5) as ((k' & Hset & Htk & _) & _);
    [reflexivity | simpl; lia | lia |].
  exists k'. split; [exact Hset|exact Htk].
Defined.

Lemma addThread_exhaustion_and_reuse_witness :
  table_ok boot ∧ 1 <= MAX_THREADS
  ∧ ∃ k', addThread 0x20002000 0x4001 0x20000100 (-1) 0 boot = Some (1, k')
          ∧ flags_at k' 1 = Some RUNNING ∧ currentActive k' = STARTED.
Proof.
  split; [reflexivity|]. split; [simpl; lia|].
  destruct (addThread_exhaustion_and_reuse 0x20002000 0x4001 0x20000100 (-1) 0 boot)
    as (_ & Hreuse); [reflexivity | simpl; lia |].
  destruct (Hreuse 1) as (k' & Hadd & Hfl & _ & Hact).
  - simpl. lia.
  - exists empty_slot. split; [reflexivity|]. right. reflexivity.
  - intros j Hj. lia.
  - exists k'. split; [exact Hadd|]. split; [exact Hfl|exact Hact].
Defined.

Lemma loadstack_frame_layout_witness :
  0 <= 0x20000100 < 2 ^ 32 ∧ 0 <= 0x4001 < 2 ^ 32 ∧ 0 <= del_process < 2 ^ 32
  ∧ ∃ k', loadstack 0x4001 0x20000100 0x20001000 1024 boot = (0x200013d8, k')
          ∧ load32 0x200013d8 k' = Some 0x20000100
          ∧ load32 (0x200013d8 + offset lr) k' = Some del_process
          ∧ load32 (0x200013d8 + offset pc) k' = Some 0x4001
          ∧ load32 (0x200013d8 + offset xpsr) k' = Some 0x1000000.
Proof.
  split; [lia|]. split; [lia|]. split; [simpl; lia|].
  destruct (loadstack_frame_layout 0x4001 0x20000100 0x20001000 1024 boot)
    as (k' & Hls & Hr0 & _ & _ & _ & _ & Hlr & Hpc & Hxpsr & _ & _ & _);
    [lia | lia | simpl; lia |].
  exists k'. split; [exact Hls|]. split; [exact Hr0|].
  split; [exact Hlr|]. split; [exact Hpc|exact Hxpsr].
Defined.

Lemma unlock_locked_wakes_waiter_witness :
  table_ok parked ∧ currentActive parked ≠ -1 ∧ state held_with_waiter = 1
  ∧ waitthread held_with_waiter < MAX_THREADS
  ∧ ∃ k' m', unlock parked held_with_waiter = Some (1, k', m')
      ∧ state m' = 0 ∧ waitthread m' = -1
      ∧ priority_at k' 1 = Some 7 ∧ flags_at k' 1 = Some RUNNING
      ∧ svc_issued k' = SVC_NUMBER_ACTIVE :: svc_issued parked.
Proof.
  split; [reflexivity|]. split; [simpl; lia|]. split; [reflexivity|].
  split; [simpl; lia|].
  destruct (unlock_locked_wakes_waiter parked held_with_waiter)
    as (k' & m' & Hun & Hst & _ & Hwake & _);
    [reflexivity | simpl; lia | reflexivity | simpl; lia |].
  destruct Hwake as (Hw & _ & Hp & Hfl & _ & Hsvc & _); [simpl; lia|].
  exists k', m'. split; [exact Hun|]. split; [exact Hst|]. split; [exact Hw|].
  split; [exact Hp|]. split; [exact Hfl|exact Hsvc].
Defined.

Lemma unlock_always_returns_1_witness :
  currentActive parked ≠ -1
  ∧ unlock parked free_with_waiter = Some (1, parked, free_with_waiter).
Proof.
  split; [simpl; lia|].
  apply (unlock_always_returns_1 parked free_with_waiter); [simpl; lia|].
  simpl. lia.
Defined.

Lemma round_robin_fallback_selection_witness :
  table_ok parked ∧ 0 <= current_thread parked < MAX_THREADS
  ∧ flags_at parked (current_thread parked) ≠ Some RUNNING
  ∧ flags_at parked 0 = Some RUNNING
  ∧ ∃ k', getNextThread parked = Some k'
          ∧ current_thread k' = 0 ∧ currentCount k' = 10.
Proof.
  split; [reflexivity|]. split; [simpl; lia|]. split; [discriminate|].
  split; [reflexivity|].
  destruct (round_robin_fallback_selection parked)
    as (k' & Hget & Hc & _ & _ & Htk & _);
    [reflexivity | simpl; lia | left; discriminate | reflexivity |].
  exists k'. split; [exact Hget|].
  assert (Hcur : current_thread k' = 0).
  { destruct Hc as [(Hr & Hfl & _)|(Hz & _)]; [|exact Hz].
    simpl in Hr. exfalso.
    assert (Hcases : current_thread k' = 2 ∨ current_thread k' = 3
                     ∨ current_thread k' = 4 ∨ current_thread k' = 5
                     ∨ current_thread k' = 6 ∨ current_thread k' = 7) by lia.
    destruct Hcases as [He|[He|[He|[He|[He|He]]]]];
      rewrite He in Hfl; discriminate. }
  split; [exact Hcur|].
  rewrite Hcur in Htk. by injection Htk.
Defined.

Lemma priority_boost_one_shot_witness :
  table_ok (two_threads 0) ∧ 0 <= 1 < MAX_THREADS
  ∧ flags_at (two_threads 0) 0 = Some RUNNING
  ∧ flags_at (two_threads 0) 1 = Some RUNNING
  ∧ ∃ kp k1, setPriority 1 20 (two_threads 0) = Some kp
      ∧ getNextThread kp = Some k1
      ∧ current_thread k1 = 1 ∧ Some (currentCount k1) = Some 4
      ∧ priority_at k1 1 = Some 0.
Proof.
  split; [reflexivity|]. split; [simpl; lia|]. split; [reflexivity|].
  split; [reflexivity|].
  destruct (priority_boost_one_shot (two_threads 0) 1 20)
    as (kp & k1 & Hset & Hget & Hc & Htk & Hp & _);
    [reflexivity | simpl; lia | simpl; lia | lia | reflexivity | reflexivity | |].
  - intros j Hj. assert (j = 0) as -> by lia. reflexivity.
  - exists kp, k1. split; [exact Hset|]. split; [exact Hget|]. split; [exact Hc|].
    split; [exact Htk|exact Hp].
Defined.

Lemma wait_returns_witness :
  ∃ k', wait target_ends 3 1 0 (two_threads 0) = Returned (1, k') ∧ 1 ≠ -1.
Proof.
  eexists. split; [vm_compute; reflexivity|].
  eapply (proj2 (wait_returns target_ends 3 1 0 (two_threads 0) 1 _));
    [reflexivity | vm_compute; reflexivity].
Defined.

(** C1 as stated fails: after [setPriority(1, 20)] on RUNNING slot 1 the
    next selection chooses slot 1, but the tick budget loaded is the
    slot's time slice, 4, not the level 20. *)
Lemma priority_boost_budget_is_slice :
  flags_at (two_threads 0) 1 = Some RUNNING
  ∧ ∃ kp k1, setPriority 1 20 (two_threads 0) = Some kp
      ∧ getNextThread kp = Some k1
      ∧ current_thread k1 = 1
      ∧ ticks_at kp 1 = Some 4
      ∧ currentCount k1 = 4
      ∧ currentCount k1 ≠ 20.
Proof.
  split; [reflexivity|]. eexists _, _.
  split; [vm_compute; reflexivity|]. split; [vm_compute; reflexivity|].
  vm_compute. repeat split; discriminate.
Qed.

(** The priority loop tests the state of the outgoing thread: with slot 1
    outgoing and SUSPENDED, the boost of RUNNING slot 0 is not taken; the
    round-robin choice, slot 2, runs and the boost stays set. *)
Example boost_skipped_when_outgoing_thread_not_running :
  flags_at parked_with_boost 0 = Some RUNNING
  ∧ priority_at parked_with_boost 0 = Some 20
  ∧ ∃ k1, getNextThread parked_with_boost = Some k1
      ∧ current_thread k1 = 2 ∧ currentCount k1 = 6
      ∧ priority_at k1 0 = Some 20.
Proof.
  split; [reflexivity|]. split; [reflexivity|]. eexists.
  split; [vm_compute; reflexivity|]. vm_compute. repeat split.
Qed.

(** C5 as stated fails: the first [addThread], made in scheduler state
    FIRST_RUN, finds slot 1 free and leaves the scheduler STARTED, not
    FIRST_RUN. *)
Lemma addThread_first_run_becomes_started :
  currentActive boot = FIRST_RUN
  ∧ ∃ k', addThread 0x20002000 0x4001 0x20000100 (-1) 0 boot = Some (1, k')
      ∧ currentActive k' = STARTED
      ∧ currentActive k' ≠ currentActive boot.
Proof.
  split; [reflexivity|]. eexists.
  split; [vm_compute; reflexivity|]. vm_compute. split; [reflexivity|discriminate].
Qed.

(** With every slot in use and the scheduler in state FIRST_RUN,
    [addThread] returns [-1] and leaves the scheduler STOPPED: the final
    test of [addThread] restarts it for STARTED only. *)
Example addThread_exhausted_first_run_left_stopped :
  currentActive (full_table FIRST_RUN) = FIRST_RUN
  ∧ ∃ k', addThread 0x20002000 0x4001 0x20000100 (-1) 0 (full_table FIRST_RUN)
          = Some (-1, k')
      ∧ thread k' = thread (full_table FIRST_RUN)
      ∧ currentActive k' = STOPPED.
Proof.
  split; [reflexivity|]. eexists.
  split; [vm_compute; reflexivity|]. vm_compute. split; reflexivity.
Qed.

(** C7 as stated fails: slot 1 is RUNNING at the first check of
    [wait(1, 5)] and ends during the first yield, before any time has
    passed; the waiting thread runs again ten milliseconds later and the
    call returns [-1], although the target's flags differ from RUNNING at
    that check and differed before the deadline. *)
Lemma wait_deadline_first_on_ended_target :
  flags_at (two_threads 0) 1 = Some RUNNING
  ∧ flags_at (target_ends 1 (yield (two_threads 0))) 1 = Some ENDED
  ∧ millis (target_ends 1 (yield (two_threads 0))) - millis (two_threads 0) = 0
  ∧ ∃ k', wait target_ends_waiter_late 3 1 5 (two_threads 0) = Returned (-1, k')
      ∧ k' = ten_ms (target_ends 1 (yield (two_threads 0)))
      ∧ millis k' - millis (two_threads 0) = 10
      ∧ flags_at k' 1 = Some ENDED
      ∧ flags_at k' 1 ≠ Some RUNNING.
Proof.
  split; [reflexivity|]. split; [reflexivity|]. split; [reflexivity|]. eexists.
  split; [vm_compute; reflexivity|]. vm_compute. repeat split. discriminate.
Qed.

End Runs.

(** * Further properties of the kernel *)

Section SchedulerInvariants.
Context `{cfg : Config}.

Lemma priority_scan_shape (n : nat) (i : Z) (k : Kernel) (r : Z) (k1 : Kernel) :
  priority_scan n i k = Some (r, k1) →
  (r = -1 ∧ k1 = k)
  ∨ (∃ t, i <= r < i + Z.of_nat n ∧ thread_at k r = Some t ∧ priority t ≠ 0
        ∧ flags_at k (current_thread k) = Some RUNNING
        ∧ (∀ j, i <= j < r → priority_at k j = Some 0)
        ∧ k1 = with_thread (<[Z.to_nat r := set_priority 0 t]> (thread k))
                 (with_currentCount (ticks t) (with_current_thread r k))).
Proof.
  revert i. induction n as [|n IH]; intros i; simpl.
  { intros [= <- <-]. by left. }
  destruct (thread_at k (current_thread k)) as [tc|] eqn:Htc; simpl; [|discriminate].
  assert (Hrec : priority_scan n (i + 1) k = Some (r, k1) →
    priority_at k i = Some 0 ∨ flags tc ≠ RUNNING →
    (r = -1 ∧ k1 = k)
    ∨ (∃ t, i <= r < i + Z.of_nat (S n) ∧ thread_at k r = Some t ∧ priority t ≠ 0
          ∧ flags_at k (current_thread k) = Some RUNNING
          ∧ (∀ j, i <= j < r → priority_at k j = Some 0)
          ∧ k1 = with_thread (<[Z.to_nat r := set_priority 0 t]> (thread k))
                   (with_currentCount (ticks t) (with_current_thread r k)))).
  { intros Hscan Hi. destruct (IH _ Hscan) as [?|(t & Hr & Ht & Hp & Hrun & Hlow & ->)];
      [by left|right].
    exists t. split; [lia|]. split; [done|]. split; [done|]. split; [done|].
    split; [|done]. intros j Hj. destruct (decide (j = i)) as [->|Hne].
    - destruct Hi as [Hi|Hi]; [done|]. exfalso.
      unfold flags_at in Hrun. rewrite Htc in Hrun. by injection Hrun.
    - apply Hlow. lia. }
  destruct (decide (flags tc = RUNNING)) as [Hrun|Hrun]; [|intros H; apply Hrec; auto].
  destruct (thread_at k i) as [ti|] eqn:Hti; simpl; [|discriminate].
  destruct (decide (priority ti ≠ 0)) as [Hp|Hp].
  - unfold update_thread.
    change (thread_at (with_currentCount (ticks ti) (with_current_thread i k)) i)
      with (thread_at k i). rewrite Hti. simpl. intros [= <- <-]. right.
    exists ti. split; [lia|]. split; [done|]. split; [done|].
    split. { unfold flags_at. rewrite Htc. simpl. by f_equal. }
    split; [intros j Hj; lia|done].
  - intros H. apply Hrec; [done|]. left. unfold priority_at. rewrite Hti. simpl.
    f_equal. destruct (decide (priority ti = 0)); [done|]. exfalso. by apply Hp.
Qed.

Lemma next_running_shape (fuel : nat) (k k1 : Kernel) :
  next_running fuel k = Some k1 → ∃ c, k1 = with_current_thread c k.
Proof.
  revert k. induction fuel as [|fuel IH]; intros k; simpl; [discriminate|].
  destruct (decide (current_thread k + 1 >= MAX_THREADS)).
  { intros [= <-]. by exists 0. }
  destruct (thread_at _ _) as [t|]; simpl; [|discriminate].
  destruct (decide (flags t = RUNNING)).
  { intros [= <-]. by eexists. }
  intros H. destruct (IH _ H) as (c & ->). by exists c.
Qed.

(** The table and the globals after a selection: the outgoing stack
    pointer is saved in the outgoing slot, at most the boost of the chosen
    slot is cleared, and the chosen slot is published. *)
Lemma getNextThread_shape (k k' : Kernel) :
  getNextThread k = Some k' →
  ∃ tc t', thread_at k (current_thread k) = Some tc
    ∧ let tbl0 := <[Z.to_nat (current_thread k) := set_sp (currentSP k) tc]> (thread k) in
      (thread k' = tbl0
       ∨ ∃ t, tbl0 !! Z.to_nat (current_thread k') = Some t
           ∧ thread k' = <[Z.to_nat (current_thread k') := set_priority 0 t]> tbl0)
    ∧ same_globals k k'
    ∧ thread_at k' (current_thread k') = Some t'
    ∧ currentSP k' = sp t'
    ∧ currentThread k' = current_thread k'
    ∧ currentSave k' = current_thread k'
    ∧ currentMSP k' = (if decide (current_thread k' = 0) then 1 else 0).
Proof.
  unfold getNextThread, update_thread.
  destruct (thread_at k (current_thread k)) as [tc|] eqn:Htc; simpl; [|discriminate].
  set (k0 := with_thread _ k).
  destruct (priority_scan _ 0 k0) as [[r k1]|] eqn:Hscan; simpl; [|discriminate].
  intros Hrest. exists tc.
  assert (Hk1 : ∃ k2, (if decide (r = -1) then round_robin k1 else Some k1) = Some k2
                      ∧ publish k2 = Some k').
  { destruct (if decide (r = -1) then round_robin k1 else Some k1) as [k2|];
      simpl in Hrest; [eauto|discriminate]. }
  destruct Hk1 as (k2 & Hk2 & Hpub).
  unfold publish in Hpub.
  destruct (thread_at k2 (current_thread k2)) as [t'|] eqn:Ht'; simpl in Hpub;
    [|discriminate].
  injection Hpub as <-. exists t'. split; [done|]. cbv zeta.
  assert (Hshape : (thread k2 = thread k0
       ∨ ∃ t, thread k0 !! Z.to_nat (current_thread k2) = Some t
           ∧ thread k2 = <[Z.to_nat (current_thread k2) := set_priority 0 t]> (thread k0))
     ∧ same_globals k k2).
  { destruct (priority_scan_shape _ _ _ _ _ Hscan)
      as [(-> & ->)|(t & Hr & Ht & Hp & _ & _ & ->)].
    - rewrite decide_True in Hk2 by done. unfold round_robin in Hk2.
      destruct (next_running _ k0) as [k3|] eqn:Hnr; simpl in Hk2; [|discriminate].
      destruct (next_running_shape _ _ _ Hnr) as (c & ->).
      simpl in Hk2.
      destruct (thread_at (with_current_thread c k0) c) as [t3|]; simpl in Hk2;
        [|discriminate].
      injection Hk2 as <-. split; [by left|]. by repeat split.
    - rewrite decide_False in Hk2 by lia. injection Hk2 as <-.
      split; [|by repeat split]. right. exists t. split; [|done].
      simpl. unfold thread_at in Ht. by rewrite decide_True in Ht by lia. }
  destruct Hshape as (Htbl & Hglob). simpl.
  split; [exact Htbl|]. split; [exact Hglob|]. done.
Qed.

Lemma lookup_insert_field {A} (f : ThreadInfo → A) (g : ThreadInfo → ThreadInfo)
    (l : list ThreadInfo) (i : nat) (t : ThreadInfo) :
  l !! i = Some t → f (g t) = f t →
  ∀ j, f <$> (<[i := g t]> l) !! j = f <$> l !! j.
Proof.
  intros Hi Hf j. destruct (decide (j = i)) as [->|Hne].
  - rewrite list_lookup_insert_eq by (by eapply lookup_lt_Some).
    rewrite Hi. simpl. by f_equal.
  - by rewrite list_lookup_insert_ne.
Qed.

Lemma priority_scan_total (n : nat) (i : Z) (k : Kernel) :
  table_ok k → 0 <= current_thread k < MAX_THREADS →
  0 <= i → i + Z.of_nat n <= MAX_THREADS →
  is_Some (priority_scan n i k).
Proof.
  intros Hk Hcur. revert i. induction n as [|n IH]; intros i Hi Hn; simpl; [eauto|].
  destruct (thread_at_in_range k _ Hk Hcur) as [tc ->]. simpl.
  assert (Hrec : is_Some (priority_scan n (i + 1) k)) by (apply IH; lia).
  destruct (decide (flags tc = RUNNING)); [|done].
  destruct (thread_at_in_range k i Hk) as [ti Hti]; [lia|]. rewrite Hti. simpl.
  destruct (decide (priority ti ≠ 0)); [|done].
  unfold update_thread.
  change (thread_at (with_currentCount (ticks ti) (with_current_thread i k)) i)
    with (thread_at k i). rewrite Hti. simpl. eauto.
Qed.

Lemma getNextThread_total (k : Kernel) :
  table_ok k → 0 <= current_thread k < MAX_THREADS →
  is_Some (getNextThread k).
Proof.
  intros Hk Hcur. unfold getNextThread.
  destruct (thread_at_in_range k _ Hk Hcur) as [tc Htc].
  pose proof (update_thread_eq k _ (set_sp (currentSP k)) tc Htc) as Hup.
  rewrite Hup. simpl. set (k0 := with_thread _ k) in *.
  pose proof (update_thread_table_ok _ _ _ _ Hup Hk) as Hk0.
  destruct (priority_scan_total (Z.to_nat MAX_THREADS) 0 k0 Hk0) as [[r k1] Hscan];
    [done|lia|lia|].
  rewrite Hscan. simpl.
  destruct (priority_scan_shape _ _ _ _ _ Hscan)
    as [(-> & ->)|(t & Hr & Ht & Hp & _ & _ & ->)].
  - rewrite decide_True by done. unfold round_robin.
    destruct (next_running_spec (Z.to_nat MAX_THREADS) k0 Hk0) as (c & -> & Hc);
      [simpl; lia|simpl; lia|].
    simpl. assert (Hcr : 0 <= c < MAX_THREADS).
    { destruct Hc as [(? & _)|(-> & _)]; simpl in *; lia. }
    destruct (thread_at_in_range k0 c Hk0 Hcr) as [t Ht].
    change (thread_at (with_current_thread c k0) c) with (thread_at k0 c).
    rewrite Ht. simpl. unfold publish. simpl.
    change (thread_at (with_currentCount (ticks t) (with_current_thread c k0)) c)
      with (thread_at k0 c). rewrite Ht. simpl. eauto.
  - rewrite decide_False by lia.
    set (k0' := with_currentCount (ticks t) (with_current_thread r k0)).
    assert (Ht' : thread_at k0' r = Some t) by done.
    pose proof (update_thread_eq k0' r (set_priority 0) t Ht') as Hup2.
    change (thread k0) with (thread k0'). set (kk := with_thread _ k0') in *.
    pose proof (thread_at_update_same _ _ _ _ _ Ht' Hup2) as Hsame.
    unfold publish. simpl. change (current_thread kk) with r.
    rewrite Hsame. simpl. eauto.
Qed.

(** A selection on a well-formed kernel returns, with a slot of the
    table as the current thread.  It changes no thread state, no time
    slice, no boost other than the chosen slot's, and none of the
    scheduler state, the thread count, the defaults, the clock, the stack
    memory and the supervisor-call log. *)
Theorem getNextThread_keeps_kernel (k : Kernel) :
  table_ok k → 0 <= current_thread k < MAX_THREADS →
  ∃ k', getNextThread k = Some k'
    ∧ table_ok k' ∧ 0 <= current_thread k' < MAX_THREADS
    ∧ same_globals k k'
    ∧ (∀ j, flags_at k' j = flags_at k j ∧ ticks_at k' j = ticks_at k j)
    ∧ (∀ j, j ≠ current_thread k' → priority_at k' j = priority_at k j)
    ∧ (priority_at k' (current_thread k') = Some 0
       ∨ priority_at k' (current_thread k') = priority_at k (current_thread k')).
Proof.
  intros Hk Hcur. destruct (getNextThread_total k Hk Hcur) as [k' Hget].
  exists k'. split; [exact Hget|].
  destruct (getNextThread_shape _ _ Hget)
    as (tc & t' & Htc & Htbl & Hglob & Ht' & _).
  cbv zeta in Htbl.
  assert (Htc' : thread k !! Z.to_nat (current_thread k) = Some tc).
  { unfold thread_at in Htc. by rewrite decide_True in Htc by lia. }
  set (tbl0 := <[Z.to_nat (current_thread k) := set_sp (currentSP k) tc]> (thread k)) in *.
  assert (Hlen : length (thread k') = length (thread k)).
  { destruct Htbl as [->|(t & _ & ->)]; subst tbl0; by rewrite ?length_insert. }
  assert (Hk' : table_ok k') by (unfold table_ok in *; congruence).
  assert (Hc' : 0 <= current_thread k' < MAX_THREADS).
  { apply (thread_at_Some k' _ Hk'). eauto. }
  assert (Hfield : ∀ {A} (f : ThreadInfo → A),
    (∀ v t, f (set_sp v t) = f t) →
    ∀ j, (j ≠ current_thread k' ∨ ∀ v t, f (set_priority v t) = f t) →
    f <$> thread_at k' j = f <$> thread_at k j).
  { intros A f Hsp j Hj. unfold thread_at. destruct (decide (0 <= j)); [|done].
    destruct Htbl as [->|(t & Ht & ->)].
    - subst tbl0. by apply lookup_insert_field.
    - destruct Hj as [Hj|Hj].
      + rewrite list_lookup_insert_ne by lia. subst tbl0. by apply lookup_insert_field.
      + rewrite (lookup_insert_field f (set_priority 0) _ _ _ Ht (Hj 0 t)).
        subst tbl0. by apply lookup_insert_field. }
  split; [exact Hk'|]. split; [exact Hc'|]. split; [exact Hglob|].
  split; [|split].
  - intros j. split; apply Hfield; auto.
  - intros j Hj. apply Hfield; auto.
  - destruct Htbl as [Heq|(t & Ht & Heq)].
    + right. unfold priority_at, thread_at. rewrite decide_True by lia.
      rewrite decide_True by lia. rewrite Heq. subst tbl0. by apply lookup_insert_field.
    + left. unfold priority_at, thread_at. rewrite decide_True by lia. rewrite Heq.
      rewrite list_lookup_insert_eq; [done|]. by eapply lookup_lt_Some.
Qed.

(** A selection stores the outgoing stack pointer [currentSP] in the
    outgoing slot, touches no other saved stack pointer, and publishes the
    saved stack pointer of the chosen slot, with the main-stack flag set
    exactly for slot 0.  When the choice falls on the outgoing thread
    again, the published stack pointer is the one just saved. *)
Theorem getNextThread_saves_and_publishes_sp (k k' : Kernel) :
  getNextThread k = Some k' →
  sp_at k' (current_thread k) = Some (currentSP k)
  ∧ (∀ j, j ≠ current_thread k → sp_at k' j = sp_at k j)
  ∧ sp_at k' (current_thread k') = Some (currentSP k')
  ∧ currentThread k' = current_thread k'
  ∧ currentSave k' = current_thread k'
  ∧ currentMSP k' = (if decide (current_thread k' = 0) then 1 else 0)
  ∧ (current_thread k' = current_thread k → currentSP k' = currentSP k).
Proof.
  intros Hget.
  destruct (getNextThread_shape _ _ Hget)
    as (tc & t' & Htc & Htbl & _ & Ht' & Hsp & Hth & Hsv & Hmsp).
  cbv zeta in Htbl.
  assert (Hcur : 0 <= current_thread k).
  { unfold thread_at in Htc. destruct (decide (0 <= current_thread k)); [done|discriminate]. }
  assert (Hc' : 0 <= current_thread k').
  { unfold thread_at in Ht'. destruct (decide (0 <= current_thread k')); [done|discriminate]. }
  assert (Htc' : thread k !! Z.to_nat (current_thread k) = Some tc).
  { unfold thread_at in Htc. by rewrite decide_True in Htc by lia. }
  pose proof (lookup_lt_Some _ _ _ Htc') as Hlt.
  set (tbl0 := <[Z.to_nat (current_thread k) := set_sp (currentSP k) tc]> (thread k)) in *.
  assert (Hsaved : sp_at k' (current_thread k) = Some (currentSP k)).
  { unfold sp_at, thread_at. rewrite decide_True by done.
    destruct Htbl as [->|(t & Ht & ->)].
    - subst tbl0. by rewrite list_lookup_insert_eq.
    - destruct (decide (current_thread k' = current_thread k)) as [He|Hne].
      + rewrite He in *. rewrite list_lookup_insert_eq
          by (subst tbl0; by rewrite length_insert).
        subst tbl0. rewrite list_lookup_insert_eq in Ht by done.
        by injection Ht as <-.
      + rewrite list_lookup_insert_ne by lia. subst tbl0.
        by rewrite list_lookup_insert_eq. }
  assert (Hpub : sp_at k' (current_thread k') = Some (currentSP k')).
  { unfold sp_at. rewrite Ht'. simpl. by rewrite Hsp. }
  split; [exact Hsaved|]. split.
  { intros j Hj. unfold sp_at, thread_at. destruct (decide (0 <= j)); [|done].
    destruct Htbl as [->|(t & Ht & ->)].
    - subst tbl0. by rewrite list_lookup_insert_ne by lia.
    - rewrite (lookup_insert_field sp (set_priority 0) _ _ _ Ht eq_refl).
      subst tbl0. by rewrite list_lookup_insert_ne by lia. }
  split; [exact Hpub|]. split; [exact Hth|]. split; [exact Hsv|].
  split; [exact Hmsp|].
  intros He. rewrite He in Hpub. rewrite Hsaved in Hpub. by injection Hpub.
Qed.

End SchedulerInvariants.

Section Fairness.
Context `{cfg : Config}.

Lemma select_n_app (a b : nat) (k : Kernel) :
  select_n (a + b) k = k1 ← select_n a k; select_n b k1.
Proof.
  revert k. induction a as [|a IH]; intros k; simpl; [done|].
  destruct (getNextThread k) as [k1|]; simpl; [apply IH|done].
Qed.

(** One selection without boosts: the round-robin choice, and a kernel
    that is again well formed and without boosts. *)
Lemma select_step (k : Kernel) :
  table_ok k → 0 <= current_thread k < MAX_THREADS → no_boosts k →
  ∃ k1, getNextThread k = Some k1
    ∧ table_ok k1 ∧ 0 <= current_thread k1 < MAX_THREADS ∧ no_boosts k1
    ∧ (∀ j, flags_at k1 j = flags_at k j)
    ∧ round_robin_choice k (current_thread k) (current_thread k1).
Proof.
  intros Hk Hcur Hnb.
  destruct (getNextThread_round_robin k Hk Hcur) as
    (k1 & Hget & Hc & _ & Hf & Hk1 & Hc1 & _); [by right|].
  exists k1. split; [done|]. split; [done|]. split; [done|].
  split; [|split; [|done]].
  - intros j Hj. rewrite (proj1 (proj2 (Hf j))). by apply Hnb.
  - intros j. apply Hf.
Qed.

Lemma reach_above (d : nat) (k : Kernel) (r : Z) :
  table_ok k → 0 <= current_thread k < MAX_THREADS → no_boosts k →
  current_thread k < r < MAX_THREADS → flags_at k r = Some RUNNING →
  r - current_thread k <= Z.of_nat d →
  ∃ n k', (1 <= n)%nat ∧ Z.of_nat n <= r - current_thread k
    ∧ select_n n k = Some k' ∧ current_thread k' = r.
Proof.
  revert k. induction d as [|d IH]; intros k Hk Hcur Hnb Hr Hrun Hd; [lia|].
  destruct (select_step k Hk Hcur Hnb) as (k1 & Hget & Hk1 & Hc1 & Hnb1 & Hfl & Hch).
  destruct Hch as [(Hc & Hcrun & Hbetween)|(Hc & Hnone)].
  2: { exfalso. by apply (Hnone r). }
  destruct (decide (current_thread k1 = r)) as [He|Hne].
  { exists 1%nat, k1. split; [lia|]. split; [lia|]. split; [|done].
    simpl. by rewrite Hget. }
  assert (Hlt : current_thread k1 < r).
  { destruct (decide (current_thread k1 < r)); [done|]. exfalso.
    apply (Hbetween r); [lia|done]. }
  destruct (IH k1) as (n & k' & Hn1 & Hn2 & Hsel & Hcur'); try done; try lia.
  { by rewrite Hfl. }
  exists (S n), k'. split; [lia|]. split; [lia|]. split; [|done].
  simpl. by rewrite Hget.
Qed.

Lemma reach_zero (d : nat) (k : Kernel) :
  table_ok k → 0 <= current_thread k < MAX_THREADS → no_boosts k →
  MAX_THREADS - current_thread k <= Z.of_nat d →
  ∃ n k', (1 <= n)%nat ∧ Z.of_nat n <= MAX_THREADS - current_thread k
    ∧ select_n n k = Some k' ∧ current_thread k' = 0
    ∧ table_ok k' ∧ no_boosts k' ∧ (∀ j, flags_at k' j = flags_at k j).
Proof.
  revert k. induction d as [|d IH]; intros k Hk Hcur Hnb Hd; [lia|].
  destruct (select_step k Hk Hcur Hnb) as (k1 & Hget & Hk1 & Hc1 & Hnb1 & Hfl & Hch).
  destruct Hch as [(Hc & _ & _)|(Hc & _)].
  - destruct (IH k1) as (n & k' & Hn1 & Hn2 & Hsel & Hcur' & Hk' & Hnb' & Hfl');
      try done; try lia.
    exists (S n), k'. split; [lia|]. split; [lia|].
    split; [simpl; by rewrite Hget|]. split; [done|]. split; [done|].
    split; [done|]. intros j. by rewrite Hfl'.
  - exists 1%nat, k1. split; [lia|]. split; [lia|].
    split; [simpl; by rewrite Hget|]. done.
Qed.

(** Round-robin is fair: while no boost is pending and nothing else
    changes the table, every RUNNING slot, and slot 0 in any state,
    becomes the current thread within [MAX_THREADS] selections. *)
Theorem round_robin_reaches_every_running_slot (k : Kernel) (r : Z) :
  table_ok k → 0 <= current_thread k < MAX_THREADS → no_boosts k →
  0 <= r < MAX_THREADS → (flags_at k r = Some RUNNING ∨ r = 0) →
  ∃ n k', (1 <= n)%nat ∧ Z.of_nat n <= MAX_THREADS
    ∧ select_n n k = Some k' ∧ current_thread k' = r.
Proof.
  intros Hk Hcur Hnb Hr Hrun.
  destruct (decide (current_thread k < r)) as [Hlt|Hge].
  { destruct Hrun as [Hrun| ->]; [|lia].
    destruct (reach_above (Z.to_nat MAX_THREADS) k r)
      as (n & k' & ? & ? & ? & ?); try done; try lia.
    exists n, k'. repeat split; try done; lia. }
  destruct (reach_zero (Z.to_nat MAX_THREADS) k)
    as (n0 & k0 & Hn0 & Hn0' & Hsel0 & Hc0 & Hk0 & Hnb0 & Hfl0); try done; try lia.
  destruct (decide (r = 0)) as [->|Hr0].
  { exists n0, k0. repeat split; try done; lia. }
  destruct Hrun as [Hrun|?]; [|done].
  destruct (reach_above (Z.to_nat MAX_THREADS) k0 r)
    as (n1 & k1 & Hn1 & Hn1' & Hsel1 & Hc1); try done; try lia.
  { by rewrite Hfl0. }
  exists (n0 + n1)%nat, k1. split; [lia|]. split; [lia|]. split; [|done].
  rewrite select_n_app, Hsel0. done.
Qed.

(** With only slot 0 RUNNING and no boost on another slot, every
    selection returns to slot 0, from whichever slot it is made. *)
Theorem only_main_running_returns_to_main (k : Kernel) :
  table_ok k → 0 <= current_thread k < MAX_THREADS →
  flags_at k 0 = Some RUNNING →
  (∀ j, 0 < j < MAX_THREADS → flags_at k j ≠ Some RUNNING ∧ priority_at k j = Some 0) →
  ∃ k', getNextThread k = Some k' ∧ current_thread k' = 0
    ∧ Some (currentCount k') = ticks_at k 0 ∧ currentMSP k' = 1.
Proof.
  intros Hk Hcur H0 Hrest.
  assert (Hmsp : ∀ k', getNextThread k = Some k' → current_thread k' = 0 →
                       currentMSP k' = 1).
  { intros k' Hget Hc. destruct (getNextThread_shape _ _ Hget)
      as (_ & _ & _ & _ & _ & _ & _ & _ & _ & ->). by rewrite Hc. }
  destruct (thread_at_in_range k 0 Hk) as [t0 Ht0]; [lia|].
  destruct (decide (flags_at k (current_thread k) = Some RUNNING
                    ∧ priority t0 ≠ 0)) as [(Hrun & Hp)|Hno].
  - destruct (getNextThread_boost k 0 (priority t0) Hk Hcur Hrun)
      as (k' & Hget & Hc & Htk & _); try done; try lia.
    { unfold priority_at. by rewrite Ht0. }
    exists k'. split; [done|]. split; [done|]. split; [done|]. by apply Hmsp.
  - destruct (getNextThread_round_robin k Hk Hcur) as
      (k' & Hget & Hc & Htk & _).
    { destruct (decide (flags_at k (current_thread k) = Some RUNNING)) as [Hrun|Hrun];
        [right|by left].
      intros j Hj. destruct (decide (j = 0)) as [->|Hj0]; [|apply Hrest; lia].
      unfold priority_at. rewrite Ht0. simpl. f_equal.
      destruct (decide (priority t0 = 0)); [done|]. exfalso. apply Hno. done. }
    assert (Hc0 : current_thread k' = 0).
    { destruct Hc as [(Hc & Hcrun & _)|(Hc & _)]; [|done].
      exfalso. by apply (proj1 (Hrest (current_thread k') ltac:(lia))). }
    exists k'. split; [done|]. split; [done|]. rewrite Hc0 in Htk.
    split; [done|]. by apply Hmsp.
Qed.

(** Boosts are served one per selection, lowest slot first: with boosts
    pending on slots [a < b] and on no other slot below [b], the next
    selection runs [a] and the one after it runs [b], each with its own
    time slice as budget, and both boosts are then cleared. *)
Theorem boosts_served_lowest_slot_first (k : Kernel) (a b pa pb : Z) :
  table_ok k → 0 <= current_thread k < MAX_THREADS →
  flags_at k (current_thread k) = Some RUNNING →
  0 <= a < b → b < MAX_THREADS →
  flags_at k a = Some RUNNING →
  priority_at k a = Some pa → pa ≠ 0 →
  priority_at k b = Some pb → pb ≠ 0 →
  (∀ j, 0 <= j < b → j ≠ a → priority_at k j = Some 0) →
  ∃ k1 k2, getNextThread k = Some k1 ∧ current_thread k1 = a
    ∧ Some (currentCount k1) = ticks_at k a
    ∧ priority_at k1 b = Some pb
    ∧ getNextThread k1 = Some k2 ∧ current_thread k2 = b
    ∧ Some (currentCount k2) = ticks_at k b
    ∧ priority_at k2 a = Some 0 ∧ priority_at k2 b = Some 0.
Proof.
  intros Hk Hcur Hrun Ha Hb Harun Hpa Hpa0 Hpb Hpb0 Hlow.
  destruct (getNextThread_boost k a pa Hk Hcur Hrun)
    as (k1 & Hget1 & Hc1 & Htk1 & Hp1 & Hpo1 & Hf1 & Hk1); try done; try lia.
  { intros j Hj. apply Hlow; lia. }
  destruct (getNextThread_boost k1 b pb Hk1)
    as (k2 & Hget2 & Hc2 & Htk2 & Hp2 & Hpo2 & Hf2 & Hk2); try done; try lia.
  { rewrite Hc1, (proj1 (Hf1 a)). done. }
  { rewrite Hpo1 by lia. done. }
  { intros j Hj. destruct (decide (j = a)) as [->|Hne]; [done|].
    rewrite Hpo1 by done. by apply Hlow. }
  exists k1, k2. split; [done|]. split; [done|]. split; [done|].
  split; [by rewrite Hpo1 by lia|]. split; [done|]. split; [done|].
  split; [by rewrite Htk2, (proj2 (Hf1 b))|].
  split; [|done]. by rewrite Hpo2 by lia.
Qed.

(** [setPriority(-1, level)] boosts the calling thread: with a non-zero
    level, the caller RUNNING and no boost on a lower slot, the next
    selection stays on the caller, reloads its time slice and clears the
    boost. *)
Theorem self_boost_keeps_the_cpu (k : Kernel) (level : Z) :
  table_ok k → 0 <= current_thread k < MAX_THREADS → level ≠ 0 →
  flags_at k (current_thread k) = Some RUNNING →
  (∀ j, 0 <= j < current_thread k → priority_at k j = Some 0) →
  ∃ kp k1, setPriority (-1) level k = Some kp
    ∧ priority_at kp (current_thread k) = Some level
    ∧ getNextThread kp = Some k1
    ∧ current_thread k1 = current_thread k
    ∧ Some (currentCount k1) = ticks_at k (current_thread k)
    ∧ priority_at k1 (current_thread k) = Some 0.
Proof.
  intros Hk Hcur Hlvl Hrun Hlow.
  unfold setPriority. rewrite decide_True by done.
  destruct (thread_at_in_range k _ Hk Hcur) as [t Ht].
  pose proof (update_thread_eq k _ (set_priority level) t Ht) as Hup.
  rewrite Hup. set (kp := with_thread _ k) in *.
  destruct (fields_after_set_priority _ _ _ _ Hup) as (Hpid & Hfp).
  pose proof (update_thread_table_ok _ _ _ _ Hup Hk) as Hkp.
  destruct (getNextThread_boost kp (current_thread k) level Hkp) as
    (k1 & Hget & Hc1 & Htk1 & Hp1 & _); try done.
  { change (current_thread kp) with (current_thread k). by rewrite (proj1 (Hfp _)). }
  { intros j Hj. rewrite (proj2 (proj2 (Hfp j))) by lia. by apply Hlow. }
  exists kp, k1. split; [done|]. split; [done|]. split; [done|]. split; [done|].
  split; [|done]. by rewrite Htk1, (proj1 (proj2 (Hfp _))).
Qed.

End Fairness.

Section LifecycleMore.
Context `{cfg : Config}.

(** What [addThread] leaves in the slot it claims and around it. *)
Lemma claim_slot_detail fresh p arg sz st old i t k :
  thread_at k i = Some t →
  let st' := if decide (st = 0) then fresh else st in
  let my := if decide (st = 0) then 1 else 0 in
  ∃ k', claim_slot fresh p arg sz st old i t k = Some (i, k')
    ∧ thread_at k' i
      = Some (mkThreadInfo sz st' my 0xFFFFFFF9 RUNNING
                (st' + sz - sizeof_interrupt_stack_t - 8) (DEFAULT_TICKS k) 0)
    ∧ (∀ j, j ≠ i → thread_at k' j = thread_at k j)
    ∧ released k'
      = (if decide (stack t ≠ 0 ∧ my_stack t ≠ 0)
         then stack t :: released k else released k)
    ∧ memory k' = memory (loadstack p arg st' sz k).2
    ∧ thread_count k' = thread_count k + 1
    ∧ current_thread k' = current_thread k
    ∧ DEFAULT_TICKS k' = DEFAULT_TICKS k
    ∧ DEFAULT_STACK_SIZE k' = DEFAULT_STACK_SIZE k
    ∧ currentActive k'
      = (if decide (old = STARTED ∨ old = FIRST_RUN) then STARTED else old)
    ∧ length (thread k') = length (thread k).
Proof.
  intros Ht st' my. unfold claim_slot.
  set (k1 := if decide (stack t ≠ 0 ∧ my_stack t ≠ 0)
             then with_released (stack t :: released k) k else k).
  assert (Hk1 : thread k1 = thread k ∧ DEFAULT_TICKS k1 = DEFAULT_TICKS k
                ∧ thread_count k1 = thread_count k ∧ memory k1 = memory k
                ∧ current_thread k1 = current_thread k
                ∧ DEFAULT_STACK_SIZE k1 = DEFAULT_STACK_SIZE k
                ∧ released k1 = (if decide (stack t ≠ 0 ∧ my_stack t ≠ 0)
                                 then stack t :: released k else released k)).
  { subst k1. destruct (decide (stack t ≠ 0 ∧ my_stack t ≠ 0)); by repeat split. }
  destruct Hk1 as (Htbl & Hdt & Htc & Hmem & Hcur & Hds & Hrel).
  replace (if decide (st = 0) then (fresh, 1) else (st, 0)) with (st', my)
    by (subst st' my; by destruct (decide (st = 0))).
  unfold loadstack.
  set (frame := st' + sz - sizeof_interrupt_stack_t - 8).
  set (k2 := store32 _ _ _).
  assert (Hk2 : thread k2 = thread k1 ∧ DEFAULT_TICKS k2 = DEFAULT_TICKS k1
                ∧ thread_count k2 = thread_count k1 ∧ released k2 = released k1
                ∧ current_thread k2 = current_thread k1
                ∧ DEFAULT_STACK_SIZE k2 = DEFAULT_STACK_SIZE k1) by (by repeat split).
  destruct Hk2 as (Htbl2 & Hdt2 & Htc2 & Hrel2 & Hcur2 & Hds2).
  assert (Hmem2 : memory k2 = memory (loadstack p arg st' sz k).2).
  { subst k2. unfold loadstack, store32. simpl. by rewrite Hmem. }
  assert (Hi : 0 <= i).
  { unfold thread_at in Ht. destruct (decide (0 <= i)); [done|discriminate]. }
  assert (Hlook : thread k !! Z.to_nat i = Some t).
  { unfold thread_at in Ht. by rewrite decide_True in Ht. }
  pose proof (lookup_lt_Some _ _ _ Hlook) as Hlt.
  assert (Ht2 : thread_at k2 i = Some t).
  { unfold thread_at in *. by rewrite Htbl2, Htbl. }
  rewrite (update_thread_eq k2 i _ t Ht2). simpl.
  eexists. split; [reflexivity|].
  destruct (decide (old = STARTED ∨ old = FIRST_RUN)); simpl.
  all: split;
    [unfold thread_at; simpl; rewrite decide_True by done; rewrite Htbl;
     rewrite list_lookup_insert_eq by done; by rewrite Hdt|].
  all: split;
    [intros j Hj; unfold thread_at; simpl; destruct (decide (0 <= j)); [|done];
     rewrite Htbl; by rewrite list_lookup_insert_ne by lia|].
  all: rewrite length_insert, Hrel, Hmem, Htc, Hcur, Hdt, Hds, Htbl;
    by repeat split.
Qed.

(** [addThread] on a kernel whose lowest free slot is [i]. *)
Lemma addThread_detail fresh p arg sz st k i t :
  table_ok k → 1 <= i < MAX_THREADS →
  thread_at k i = Some t → (flags t = ENDED ∨ flags t = EMPTY) →
  (∀ j, 1 <= j < i → ¬ free_slot k j) →
  let sz' := if decide (sz = -1) then DEFAULT_STACK_SIZE k else sz in
  let st' := if decide (st = 0) then fresh else st in
  let my := if decide (st = 0) then 1 else 0 in
  ∃ k', addThread fresh p arg sz st k = Some (i, k')
    ∧ thread_at k' i
      = Some (mkThreadInfo sz' st' my 0xFFFFFFF9 RUNNING
                (st' + sz' - sizeof_interrupt_stack_t - 8) (DEFAULT_TICKS k) 0)
    ∧ (∀ j, j ≠ i → thread_at k' j = thread_at k j)
    ∧ released k'
      = (if decide (stack t ≠ 0 ∧ my_stack t ≠ 0)
         then stack t :: released k else released k)
    ∧ memory k' = memory (loadstack p arg st' sz' k).2
    ∧ thread_count k' = thread_count k + 1
    ∧ current_thread k' = current_thread k
    ∧ DEFAULT_TICKS k' = DEFAULT_TICKS k
    ∧ DEFAULT_STACK_SIZE k' = DEFAULT_STACK_SIZE k
    ∧ currentActive k'
      = (if decide (currentActive k = STARTED ∨ currentActive k = FIRST_RUN)
         then STARTED else currentActive k)
    ∧ table_ok k'.
Proof.
  intros Hk Hi Ht Hf Hfirst sz' st' my. unfold addThread, stop.
  set (ks := with_currentActive STOPPED k).
  change (DEFAULT_STACK_SIZE ks) with (DEFAULT_STACK_SIZE k). fold sz'.
  assert (Hks : table_ok ks) by done.
  rewrite (find_slot_first fresh p arg sz' st (currentActive k) _ 1 ks i t Hks);
    try done; try lia.
  destruct (claim_slot_detail fresh p arg sz' st (currentActive k) i t ks Ht)
    as (k' & -> & Hslot & Hoth & Hrel & Hmem & Htc & Hcur & Hdt & Hds & Hact & Hlen).
  simpl. rewrite decide_False by lia.
  exists k'. split; [done|]. split; [exact Hslot|]. split; [exact Hoth|].
  split; [exact Hrel|]. split; [exact Hmem|]. split; [exact Htc|].
  split; [exact Hcur|]. split; [exact Hdt|]. split; [exact Hds|].
  split; [exact Hact|]. unfold table_ok in *. by rewrite Hlen.
Qed.

Lemma loadstack_memory (entry arg base size : Z) (k : Kernel) (f : frame_field) :
  memory (loadstack entry arg base size k).2
    !! (base + size - sizeof_interrupt_stack_t - 8 + offset f)
  = Some (wrap32 (frame_value entry arg f)).
Proof.
  unfold loadstack, store32, sizeof_interrupt_stack_t. simpl.
  destruct f; simpl;
    repeat (rewrite lookup_insert_ne by lia); by rewrite lookup_insert_eq.
Qed.

(** A thread created by [addThread] is ready to be switched to: its slot
    is RUNNING with the default time slice and no boost, its saved stack
    pointer is the frame written 40 bytes below the top of its stack, and
    that frame holds the argument in r0, the entry point in pc and the
    termination shim in lr.  [getStackUsed] reports the 40 bytes and
    [getStackRemaining] the rest as an [int], which is negative for a
    stack shorter than 40 bytes: the size is not checked.  Other slots
    are untouched. *)
Theorem addThread_bootstraps_new_thread (fresh entry arg sz st : Z) (k : Kernel) (i : Z) :
  table_ok k → 1 <= i < MAX_THREADS → free_slot k i →
  (∀ j, 1 <= j < i → ¬ free_slot k j) →
  0 <= arg < 2 ^ 32 → 0 <= entry < 2 ^ 32 → 0 <= del_process < 2 ^ 32 →
  let sz' := if decide (sz = -1) then DEFAULT_STACK_SIZE k else sz in
  let st' := if decide (st = 0) then fresh else st in
  ∃ k' t', addThread fresh entry arg sz st k = Some (i, k')
    ∧ thread_at k' i = Some t'
    ∧ flags t' = RUNNING ∧ ticks t' = DEFAULT_TICKS k ∧ priority t' = 0
    ∧ stack t' = st' ∧ stack_size t' = sz' ∧ save_lr t' = 0xFFFFFFF9
    ∧ my_stack t' = (if decide (st = 0) then 1 else 0)
    ∧ sp t' = st' + sz' - 40
    ∧ load32 (sp t' + offset r0) k' = Some arg
    ∧ load32 (sp t' + offset pc) k' = Some entry
    ∧ load32 (sp t' + offset lr) k' = Some del_process
    ∧ load32 (sp t' + offset xpsr) k' = Some 0x1000000
    ∧ getStackUsed i k' = Some 40
    ∧ getStackRemaining i k' = Some (to_int32 (sz' - 40))
    ∧ (- 2 ^ 31 + 40 <= sz' < 2 ^ 31 → getStackRemaining i k' = Some (sz' - 40))
    ∧ (∀ j, j ≠ i → thread_at k' j = thread_at k j).
Proof.
  intros Hk Hi (t & Ht & Hf) Hfirst Harg Hentry Hdel sz' st'.
  destruct (addThread_detail fresh entry arg sz st k i t Hk Hi Ht Hf Hfirst)
    as (k' & Hadd & Hslot & Hoth & _ & Hmem & _).
  fold sz' st' in Hslot, Hmem.
  eexists k', _. split; [exact Hadd|]. split; [exact Hslot|].
  cbn [flags ticks priority stack stack_size save_lr my_stack sp].
  unfold sizeof_interrupt_stack_t.
  assert (Hload : ∀ f, load32 (st' + sz' - 40 + offset f) k'
                       = Some (wrap32 (frame_value entry arg f))).
  { intros f. unfold load32. rewrite Hmem.
    pose proof (loadstack_memory entry arg st' sz' k f) as Hl.
    unfold sizeof_interrupt_stack_t in Hl.
    by replace (st' + sz' - 40) with (st' + sz' - 32 - 8) by lia. }
  replace (st' + sz' - 32 - 8) with (st' + sz' - 40) by lia.
  repeat split; try done;
    try (rewrite Hload; simpl; by rewrite ?wrap32_small by lia).
  - unfold getStackUsed. rewrite Hslot. simpl. f_equal.
    unfold sizeof_interrupt_stack_t.
    replace (st' + sz' - (st' + sz' - 32 - 8)) with 40 by lia.
    by apply to_int32_small.
  - unfold getStackRemaining. rewrite Hslot. simpl. do 2 f_equal.
    unfold sizeof_interrupt_stack_t. lia.
  - intros Hsz. unfold getStackRemaining. rewrite Hslot. simpl. f_equal.
    unfold sizeof_interrupt_stack_t.
    replace (st' + sz' - 32 - 8 - st') with (sz' - 40) by lia.
    apply to_int32_small. lia.
Qed.

(** [setState] followed by [getState] reads back the state written;
    [kill], [suspend] and [restart] write ENDED, SUSPENDED and RUNNING and
    return the id.  Each of them changes the state of that one slot only:
    the slot's stack, saved stack pointer, time slice and boost, the other
    slots, the thread count and the released stacks stay as they were. *)
Theorem state_written_is_state_read (k : Kernel) (id s : Z) :
  table_ok k → 0 <= id < MAX_THREADS →
  ∃ t k1, thread_at k id = Some t
    ∧ setState id s k = Some (s, k1)
    ∧ getState id k1 = Some s
    ∧ k1 = with_thread (<[Z.to_nat id := set_flags s t]> (thread k)) k
    ∧ thread_at k1 id = Some (set_flags s t)
    ∧ (∀ j, j ≠ id → thread_at k1 j = thread_at k j)
    ∧ same_globals k k1 ∧ current_thread k1 = current_thread k
    ∧ (∃ kk, kill id k = Some (id, kk) ∧ getState id kk = Some ENDED)
    ∧ (∃ ks, suspend id k = Some (id, ks) ∧ getState id ks = Some SUSPENDED)
    ∧ (∃ kr, restart id k = Some (id, kr) ∧ getState id kr = Some RUNNING).
Proof.
  intros Hk Hid. destruct (thread_at_in_range k id Hk Hid) as [t Ht].
  pose proof (update_thread_eq k id (set_flags s) t Ht) as Hup.
  exists t, (with_thread (<[Z.to_nat id := set_flags s t]> (thread k)) k).
  split; [done|]. unfold setState, getState, kill, suspend, restart.
  rewrite Hup. simpl.
  pose proof (thread_at_update_same _ _ _ _ _ Ht Hup) as Hsame.
  split; [done|]. rewrite Hsame. simpl. split; [done|]. split; [done|].
  split; [done|].
  split; [intros j Hj; by apply (thread_at_update_other _ _ _ _ _ Hup)|].
  split; [by repeat split|]. split; [done|].
  assert (Hwr : ∀ v, ∃ kv, update_thread id (set_flags v) k = Some kv
                          ∧ flags <$> thread_at kv id = Some v).
  { intros v. pose proof (update_thread_eq k id (set_flags v) t Ht) as Hv.
    eexists. split; [exact Hv|].
    by rewrite (thread_at_update_same _ _ _ _ _ Ht Hv). }
  repeat split.
  - destruct (Hwr ENDED) as (kv & -> & Hv). simpl. exists kv. split; [done|].
    destruct (thread_at kv id); simpl in *; [congruence|discriminate].
  - destruct (Hwr SUSPENDED) as (kv & -> & Hv). simpl. exists kv. split; [done|].
    destruct (thread_at kv id); simpl in *; [congruence|discriminate].
  - destruct (Hwr RUNNING) as (kv & -> & Hv). simpl. exists kv. split; [done|].
    destruct (thread_at kv id); simpl in *; [congruence|discriminate].
Qed.

(** [suspend] followed by [restart] gives back the kernel exactly as it
    was when the thread was RUNNING.  [restart] does not look at the
    state it overwrites: it makes any slot of the table RUNNING, an ENDED
    or unused one included. *)
Theorem suspend_then_restart (k : Kernel) (id : Z) :
  table_ok k → 0 <= id < MAX_THREADS →
  ∃ k1 k2, suspend id k = Some (id, k1)
    ∧ flags_at k1 id = Some SUSPENDED
    ∧ restart id k1 = Some (id, k2)
    ∧ flags_at k2 id = Some RUNNING
    ∧ (flags_at k id = Some RUNNING → k2 = k)
    ∧ ∃ k3, restart id k = Some (id, k3) ∧ flags_at k3 id = Some RUNNING.
Proof.
  intros Hk Hid. destruct (thread_at_in_range k id Hk Hid) as [t Ht].
  pose proof (update_thread_eq k id (set_flags SUSPENDED) t Ht) as Hup.
  pose proof (thread_at_update_same _ _ _ _ _ Ht Hup) as Hsame.
  set (k1 := with_thread _ k) in *.
  pose proof (update_thread_eq k1 id (set_flags RUNNING) _ Hsame) as Hup2.
  pose proof (thread_at_update_same _ _ _ _ _ Hsame Hup2) as Hsame2.
  set (k2 := with_thread _ k1) in *.
  pose proof (update_thread_eq k id (set_flags RUNNING) t Ht) as Hup3.
  pose proof (thread_at_update_same _ _ _ _ _ Ht Hup3) as Hsame3.
  exists k1, k2. unfold suspend, restart. rewrite Hup. simpl.
  split; [reflexivity|]. split; [unfold flags_at; by rewrite Hsame|].
  rewrite Hup2. simpl. split; [reflexivity|].
  split; [unfold flags_at; by rewrite Hsame2|]. split.
  - unfold flags_at. rewrite Ht. simpl. intros [= Hrun].
    subst k2 k1. simpl. rewrite list_insert_insert_eq.
    assert (Hset : set_flags RUNNING (set_flags SUSPENDED t) = t).
    { destruct t. unfold set_flags. simpl in *. by rewrite Hrun. }
    rewrite Hset. rewrite list_insert_id.
    + by destruct k.
    + unfold thread_at in Ht. destruct (decide (0 <= id)); [done|discriminate].
  - rewrite Hup3. simpl. eexists. split; [reflexivity|].
    unfold flags_at. by rewrite Hsame3.
Qed.

(** A killed slot keeps its stack until it is reused: [kill] releases
    nothing and leaves [thread_count] alone, and the [addThread] that
    takes the slot again releases the old stack if the kernel had
    allocated it, and only then.  A stack passed in by the caller is
    marked as not owned, so a later reuse of the slot does not release
    it; one allocated by [addThread] is released by that later reuse.
    Each [addThread] counts one more thread, with no [kill] counting one
    less. *)
Theorem killed_slot_reused_stack_released_on_reuse
    (k : Kernel) (i : Z) (t : ThreadInfo) (q1 q2 : Spawn) :
  table_ok k → 1 <= i < MAX_THREADS → thread_at k i = Some t →
  (∀ j, 1 <= j < i → ¬ free_slot k j) →
  spawn_fresh q1 ≠ 0 →
  ∃ k1 k2 k3 k4,
    kill i k = Some (i, k1)
    ∧ released k1 = released k ∧ thread_count k1 = thread_count k
    ∧ addThread (spawn_fresh q1) (spawn_entry q1) (spawn_arg q1)
        (spawn_stack_size q1) (spawn_stack q1) k1 = Some (i, k2)
    ∧ released k2 = (if decide (stack t ≠ 0 ∧ my_stack t ≠ 0)
                     then stack t :: released k else released k)
    ∧ kill i k2 = Some (i, k3)
    ∧ addThread (spawn_fresh q2) (spawn_entry q2) (spawn_arg q2)
        (spawn_stack_size q2) (spawn_stack q2) k3 = Some (i, k4)
    ∧ released k4 = (if decide (spawn_stack q1 = 0)
                     then spawn_fresh q1 :: released k2 else released k2)
    ∧ thread_count k4 = thread_count k + 2.
Proof.
  intros Hk Hi Ht Hfirst Hfresh.
  assert (Hkill : ∀ k0 t0, table_ok k0 → thread_at k0 i = Some t0 →
    (∀ j, 1 <= j < i → ¬ free_slot k0 j) →
    ∃ k1, kill i k0 = Some (i, k1)
      ∧ released k1 = released k0 ∧ thread_count k1 = thread_count k0
      ∧ table_ok k1 ∧ thread_at k1 i = Some (set_flags ENDED t0)
      ∧ (∀ j, 1 <= j < i → ¬ free_slot k1 j)).
  { intros k0 t0 Hk0 Ht0 Hfirst0.
    pose proof (update_thread_eq k0 i (set_flags ENDED) t0 Ht0) as Hup.
    eexists. unfold kill. rewrite Hup. simpl. split; [reflexivity|].
    split; [done|]. split; [done|].
    split; [by apply (update_thread_table_ok _ _ _ _ Hup)|].
    split; [by apply (thread_at_update_same _ _ _ _ _ Ht0 Hup)|].
    intros j Hj (tj & Htj & Hfj). apply (Hfirst0 j Hj). exists tj. split; [|done].
    rewrite <- Htj. symmetry. apply (thread_at_update_other _ _ _ _ _ Hup). lia. }
  destruct (Hkill k t Hk Ht Hfirst) as (k1 & Hk1 & Hrel1 & Htc1 & Hok1 & Ht1 & Hfirst1).
  destruct (addThread_detail (spawn_fresh q1) (spawn_entry q1) (spawn_arg q1)
              (spawn_stack_size q1) (spawn_stack q1) k1 i _ Hok1 Hi Ht1)
    as (k2 & Hadd2 & Hslot2 & Hoth2 & Hrel2 & _ & Htc2 & _ & _ & _ & _ & Hok2);
    [by left|done|].
  assert (Hfirst2 : ∀ j, 1 <= j < i → ¬ free_slot k2 j).
  { intros j Hj (tj & Htj & Hfj). apply (Hfirst1 j Hj). exists tj. split; [|done].
    rewrite <- Htj. symmetry. apply Hoth2. lia. }
  destruct (Hkill k2 _ Hok2 Hslot2 Hfirst2)
    as (k3 & Hk3 & Hrel3 & Htc3 & Hok3 & Ht3 & Hfirst3).
  destruct (addThread_detail (spawn_fresh q2) (spawn_entry q2) (spawn_arg q2)
              (spawn_stack_size q2) (spawn_stack q2) k3 i _ Hok3 Hi Ht3)
    as (k4 & Hadd4 & _ & _ & Hrel4 & _ & Htc4 & _); [by left|done|].
  exists k1, k2, k3, k4. split; [done|]. split; [done|]. split; [done|].
  split; [done|]. split; [by rewrite Hrel2, Hrel1|]. split; [done|].
  split; [done|]. split; [|lia].
  rewrite Hrel4, Hrel3. simpl.
  destruct (decide (spawn_stack q1 = 0)) as [Hs|Hs].
  - rewrite decide_True; [done|]. split; [done|lia].
  - rewrite decide_False; [done|]. intros (_ & ?). lia.
Qed.

(** The termination shim: [del_process] marks the running thread ENDED,
    counts one thread less and puts the scheduler state back; it releases
    no stack and touches no other slot.  The next selection then leaves
    the thread, unless it is slot 0, which the round-robin wrap takes
    without looking at its state. *)
Theorem del_process_ends_running_thread (k : Kernel) :
  table_ok k → 0 <= current_thread k < MAX_THREADS → currentActive k ≠ -1 →
  ∃ k1, Threads_del_process k = Some k1
    ∧ flags_at k1 (current_thread k) = Some ENDED
    ∧ (∀ j, j ≠ current_thread k → thread_at k1 j = thread_at k j)
    ∧ sp_at k1 (current_thread k) = sp_at k (current_thread k)
    ∧ thread_count k1 = thread_count k - 1
    ∧ currentActive k1 = currentActive k
    ∧ released k1 = released k
    ∧ current_thread k1 = current_thread k
    ∧ (RUNNING ≠ ENDED →
       ∃ k2, getNextThread k1 = Some k2
         ∧ round_robin_choice k1 (current_thread k) (current_thread k2)
         ∧ (current_thread k ≠ 0 → current_thread k2 ≠ current_thread k)
         ∧ (current_thread k = 0 → current_thread k2 = 0 →
            flags_at k2 0 = Some ENDED)).
Proof.
  intros Hk Hcur Hact. unfold Threads_del_process, stop, start.
  destruct (thread_at_in_range k _ Hk Hcur) as [t Ht].
  set (ks := with_thread_count _ _).
  assert (Hts : thread_at ks (current_thread k) = Some t) by done.
  pose proof (update_thread_eq ks _ (set_flags ENDED) t Hts) as Hup.
  change (current_thread (with_currentActive STOPPED k)) with (current_thread k).
  rewrite Hup. simpl. rewrite decide_False by done.
  set (k0 := with_thread _ ks) in *.
  pose proof (thread_at_update_same _ _ _ _ _ Hts Hup) as Hsame.
  eexists. split; [reflexivity|].
  set (k1 := with_currentActive _ k0).
  assert (Hth : ∀ j, thread_at k1 j = thread_at k0 j) by done.
  assert (Hfl : flags_at k1 (current_thread k) = Some ENDED).
  { unfold flags_at. by rewrite Hth, Hsame. }
  split; [exact Hfl|].
  split. { intros j Hj. rewrite Hth. by apply (thread_at_update_other _ _ _ _ _ Hup). }
  split. { unfold sp_at. by rewrite Hth, Hsame, Ht. }
  split; [done|]. split; [done|]. split; [done|]. split; [done|].
  intros Hne.
  assert (Hk1 : table_ok k1).
  { change (table_ok k0). by apply (update_thread_table_ok _ _ _ _ Hup). }
  destruct (getNextThread_round_robin k1 Hk1) as (k2 & Hget & Hc & _ & Hf & _);
    [done| |].
  { left. change (current_thread k1) with (current_thread k). rewrite Hfl.
    intros [= ?]. by apply Hne. }
  exists k2. split; [done|]. split; [done|].
  change (current_thread k1) with (current_thread k) in Hc.
  split.
  - intros Hnz. destruct Hc as [(? & _)|(-> & _)]; [lia|done].
  - intros Hz Hz2. rewrite (proj1 (Hf 0)). by rewrite <- Hz.
Qed.

End LifecycleMore.

Section FillTable.
Context `{cfg : Config}.
Hypothesis RUNNING_not_EMPTY : RUNNING ≠ EMPTY.
Hypothesis RUNNING_not_ENDED : RUNNING ≠ ENDED.

Lemma filled_not_free (j i : Z) (k : Kernel) :
  filled_to j k → 1 <= i <= j → ¬ free_slot k i.
Proof.
  intros (_ & Hrun & _) Hi (t & Ht & Hf).
  specialize (Hrun i Hi). unfold flags_at in Hrun. rewrite Ht in Hrun.
  injection Hrun as Hrun. destruct Hf; congruence.
Qed.

Lemma addThread_fills_next (q : Spawn) (j : Z) (k : Kernel) :
  filled_to j k → 0 <= j → j + 1 < MAX_THREADS →
  ∃ k', addThread (spawn_fresh q) (spawn_entry q) (spawn_arg q)
          (spawn_stack_size q) (spawn_stack q) k = Some (j + 1, k')
    ∧ filled_to (j + 1) k'
    ∧ thread_count k' = thread_count k + 1
    ∧ currentActive k'
      = (if decide (currentActive k = STARTED ∨ currentActive k = FIRST_RUN)
         then STARTED else currentActive k).
Proof.
  intros Hfill Hj Hlt. pose proof Hfill as (Hk & Hrun & Hempty).
  destruct (thread_at_in_range k (j + 1) Hk) as [t Ht]; [lia|].
  assert (Hft : flags t = EMPTY).
  { specialize (Hempty (j + 1) ltac:(lia)). unfold flags_at in Hempty.
    rewrite Ht in Hempty. by injection Hempty. }
  destruct (addThread_detail (spawn_fresh q) (spawn_entry q) (spawn_arg q)
              (spawn_stack_size q) (spawn_stack q) k (j + 1) t Hk)
    as (k' & Hadd & Hslot & Hoth & _ & _ & Htc & _ & _ & _ & Hact & Hk');
    [lia|done|by right| |].
  { intros i Hi. apply (filled_not_free j i k Hfill). lia. }
  exists k'. split; [done|]. split; [|done].
  split; [done|]. split.
  - intros i Hi. destruct (decide (i = j + 1)) as [->|Hne].
    + unfold flags_at. by rewrite Hslot.
    + unfold flags_at. rewrite Hoth by done. apply Hrun. lia.
  - intros i Hi. unfold flags_at. rewrite Hoth by lia. apply Hempty. lia.
Qed.

Lemma addThreads_cons (q : Spawn) (reqs : list Spawn) (k : Kernel) :
  addThreads (q :: reqs) k =
  '(i, k1) ← addThread (spawn_fresh q) (spawn_entry q) (spawn_arg q)
               (spawn_stack_size q) (spawn_stack q) k;
  '(ids, k2) ← addThreads reqs k1;
  Some (i :: ids, k2).
Proof. reflexivity. Qed.

Lemma addThreads_fill (reqs : list Spawn) (j : Z) (k : Kernel) :
  filled_to j k → 0 <= j → j + Z.of_nat (length reqs) < MAX_THREADS →
  ∃ k', addThreads reqs k = Some (seqZ (j + 1) (Z.of_nat (length reqs)), k')
    ∧ filled_to (j + Z.of_nat (length reqs)) k'
    ∧ thread_count k' = thread_count k + Z.of_nat (length reqs)
    ∧ (currentActive k = STARTED ∨ currentActive k = FIRST_RUN →
       reqs ≠ [] → currentActive k' = STARTED).
Proof.
  revert j k. induction reqs as [|q reqs IH]; intros j k Hfill Hj Hlen.
  { simpl. exists k. rewrite Z.add_0_r. by rewrite Z.add_0_r. }
  simpl length in *. rewrite Nat2Z.inj_succ in *.
  destruct (addThread_fills_next q j k Hfill Hj) as (k1 & Hadd & Hfill1 & Htc1 & Hact1);
    [lia|].
  destruct (IH (j + 1) k1 Hfill1) as (k' & Hrest & Hfill' & Htc' & Hact'); [lia|lia|].
  exists k'. rewrite addThreads_cons, Hadd. simpl. rewrite Hrest. simpl.
  split.
  { rewrite (seqZ_cons (j + 1)) by lia.
    replace (Z.succ (j + 1)) with (j + 1 + 1) by lia.
    by replace (Z.pred (Z.succ (Z.of_nat (length reqs))))
      with (Z.of_nat (length reqs)) by lia. }
  replace (j + Z.succ (Z.of_nat (length reqs))) with (j + 1 + Z.of_nat (length reqs)) by lia.
  split; [done|]. split; [lia|].
  intros Hact _. rewrite decide_True in Hact1 by done.
  destruct reqs as [|q' reqs'].
  - simpl in Hrest. injection Hrest as <-. done.
  - apply Hact'; [by left|done].
Qed.

(** Filling the table: from a kernel in which only slot 0 is in use,
    [MAX_THREADS - 1] calls of [addThread] return the ids
    [1, 2, ..., MAX_THREADS - 1] in this order; every further call returns
    [-1] and leaves the table alone.  The scheduler is STARTED afterwards
    if it was STARTED or FIRST_RUN before. *)
Theorem addThread_fills_table_in_order (reqs : list Spawn) (k : Kernel) :
  filled_to 0 k → Z.of_nat (length reqs) = MAX_THREADS - 1 →
  ∃ k', addThreads reqs k = Some (seqZ 1 (MAX_THREADS - 1), k')
    ∧ thread_count k' = thread_count k + MAX_THREADS - 1
    ∧ (∀ i, 1 <= i < MAX_THREADS → flags_at k' i = Some RUNNING)
    ∧ (∀ q, ∃ k'', addThread (spawn_fresh q) (spawn_entry q) (spawn_arg q)
                     (spawn_stack_size q) (spawn_stack q) k' = Some (-1, k'')
              ∧ thread k'' = thread k' ∧ thread_count k'' = thread_count k')
    ∧ (2 <= MAX_THREADS →
       currentActive k = STARTED ∨ currentActive k = FIRST_RUN →
       currentActive k' = STARTED).
Proof.
  intros Hfill Hlen.
  destruct (addThreads_fill reqs 0 k Hfill) as (k' & Hadd & Hfill' & Htc & Hact);
    [lia|lia|].
  exists k'. rewrite Hlen in *. simpl in Hadd.
  split; [exact Hadd|]. split; [lia|].
  pose proof Hfill' as (Hk' & Hrun' & _).
  split; [intros i Hi; apply Hrun'; lia|]. split.
  - intros q. unfold addThread, stop.
    set (ks := with_currentActive STOPPED k').
    rewrite (find_slot_none _ _ _ _ _ _ _ 1 ks); try done; try lia.
    + simpl. eexists. split; [reflexivity|].
      by destruct (decide (currentActive k' = STARTED)).
    + intros i Hi. apply (filled_not_free (0 + (MAX_THREADS - 1)) i k'); [done|lia].
  - intros Hmax Hprior. apply Hact; [done|].
    intros ->. simpl in Hlen. lia.
Qed.

End FillTable.

Section Construction.
Context `{cfg : Config}.

Lemma ctor_slot (dt ds j : Z) :
  0 < j < MAX_THREADS →
  thread_at (Threads_ctor dt ds) j = Some (mkThreadInfo 0 0 0 0 0 0 0 0).
Proof.
  intros Hj. unfold thread_at. rewrite decide_True by lia. simpl.
  replace (Z.to_nat j) with (S (Z.to_nat j - 1)) by lia. simpl.
  apply lookup_replicate. split; [done|lia].
Qed.

(** The constructed kernel is ready to schedule: the table has
    [MAX_THREADS] slots, slot 0 is RUNNING as the current thread with the
    default time slice, every other slot is zeroed and no boost is
    pending, and the scheduler is in state FIRST_RUN.  While no thread is
    added a selection returns to slot 0; the other slots are free for
    [addThread] when EMPTY is the code 0. *)
Theorem constructed_kernel_is_ready (dt ds : Z) :
  1 <= MAX_THREADS →
  let k := Threads_ctor dt ds in
  table_ok k ∧ current_thread k = 0 ∧ thread_count k = 0
  ∧ currentActive k = FIRST_RUN ∧ currentCount k = dt ∧ currentMSP k = 1
  ∧ thread_at k 0 = Some (mkThreadInfo 0 0 0 0 RUNNING 0 dt 0)
  ∧ (∀ j, 0 < j < MAX_THREADS → thread_at k j = Some (mkThreadInfo 0 0 0 0 0 0 0 0))
  ∧ no_boosts k
  ∧ (EMPTY = 0 → filled_to 0 k)
  ∧ (RUNNING ≠ 0 →
     ∃ k', getNextThread k = Some k' ∧ current_thread k' = 0 ∧ currentCount k' = dt).
Proof.
  intros Hmax k.
  assert (Hk : table_ok k).
  { unfold table_ok. simpl. rewrite length_replicate. lia. }
  assert (H0 : thread_at k 0 = Some (mkThreadInfo 0 0 0 0 RUNNING 0 dt 0)) by done.
  assert (Hnb : no_boosts k).
  { intros j Hj. unfold priority_at. destruct (decide (j = 0)) as [->|Hne].
    - by rewrite H0.
    - subst k. by rewrite ctor_slot by lia. }
  split; [done|]. split; [done|]. split; [done|]. split; [done|]. split; [done|].
  split; [done|]. split; [done|].
  split; [intros j Hj; by apply ctor_slot|]. split; [done|]. split.
  - intros Hempty. split; [done|]. split; [intros i Hi; lia|].
    intros i Hi. unfold flags_at. subst k. rewrite ctor_slot by lia.
    simpl. by rewrite Hempty.
  - intros Hrun.
    destruct (getNextThread_round_robin k Hk) as (k' & Hget & Hc & Htk & _);
      [simpl; lia|by right|].
    assert (Hc0 : current_thread k' = 0).
    { destruct Hc as [(Hc & Hcrun & _)|(Hc & _)]; [|done]. exfalso.
      unfold flags_at in Hcrun. subst k. simpl in Hc.
      rewrite ctor_slot in Hcrun by lia. simpl in Hcrun.
      injection Hcrun as Hcrun. by apply Hrun. }
    exists k'. split; [done|]. split; [done|].
    rewrite Hc0 in Htk. unfold ticks_at in Htk. rewrite H0 in Htk.
    by injection Htk.
Qed.

(** With byte counts below [2^31], [setDefaultStackSize] sets the size
    that [addThread] uses when it is called with a stack size of [-1]; an
    explicit stack size takes precedence over the default. *)
Theorem default_stack_size_applies (b fresh entry arg sz st : Z) (k : Kernel) (i : Z) :
  table_ok k → 1 <= i < MAX_THREADS → free_slot k i →
  (∀ j, 1 <= j < i → ¬ free_slot k j) →
  0 <= b < 2 ^ 31 → sz ≠ -1 →
  let st' := if decide (st = 0) then fresh else st in
  ∃ k1 k2, addThread fresh entry arg (-1) st (setDefaultStackSize b k) = Some (i, k1)
    ∧ (stack_size <$> thread_at k1 i) = Some b
    ∧ sp_at k1 i = Some (st' + b - 40)
    ∧ addThread fresh entry arg sz st (setDefaultStackSize b k) = Some (i, k2)
    ∧ (stack_size <$> thread_at k2 i) = Some sz
    ∧ sp_at k2 i = Some (st' + sz - 40).
Proof.
  intros Hk Hi (t & Ht & Hf) Hfirst Hb Hsz st'.
  set (kd := setDefaultStackSize b k).
  assert (Hkd : table_ok kd) by done.
  assert (Htd : thread_at kd i = Some t) by done.
  assert (Hfirstd : ∀ j, 1 <= j < i → ¬ free_slot kd j) by done.
  assert (Hdef : DEFAULT_STACK_SIZE kd = b).
  { subst kd. unfold setDefaultStackSize. simpl. apply to_int32_small. lia. }
  destruct (addThread_detail fresh entry arg (-1) st kd i t Hkd Hi Htd Hf Hfirstd)
    as (k1 & Hadd1 & Hslot1 & _).
  destruct (addThread_detail fresh entry arg sz st kd i t Hkd Hi Htd Hf Hfirstd)
    as (k2 & Hadd2 & Hslot2 & _).
  rewrite decide_True in Hslot1 by done. rewrite decide_False in Hslot2 by done.
  rewrite Hdef in Hslot1. fold st' in Hslot1, Hslot2.
  exists k1, k2. unfold sp_at. rewrite Hslot1, Hslot2. simpl.
  unfold sizeof_interrupt_stack_t.
  repeat split; try done; f_equal; lia.
Qed.

Lemma first_boost (k : Kernel) (n : nat) :
  table_ok k → Z.of_nat n <= MAX_THREADS →
  (∀ j, 0 <= j < Z.of_nat n → priority_at k j = Some 0)
  ∨ ∃ j p, 0 <= j < Z.of_nat n ∧ priority_at k j = Some p ∧ p ≠ 0
       ∧ ∀ j', 0 <= j' < j → priority_at k j' = Some 0.
Proof.
  intros Hk. induction n as [|n IH]; intros Hn; [left; intros j Hj; lia|].
  destruct IH as [Hall|Hex]; [lia| |].
  - destruct (thread_at_in_range k (Z.of_nat n) Hk) as [t Ht]; [lia|].
    destruct (decide (priority t = 0)) as [Hp|Hp].
    + left. intros j Hj. destruct (decide (j = Z.of_nat n)) as [->|Hne].
      * unfold priority_at. rewrite Ht. simpl. by f_equal.
      * apply Hall. lia.
    + right. exists (Z.of_nat n), (priority t). split; [lia|].
      split; [unfold priority_at; by rewrite Ht|]. split; [done|].
      intros j' Hj'. by apply Hall.
  - right. destruct Hex as (j & p & Hj & Hrest). exists j, p. split; [lia|done].
Qed.

(** Every selection is one of two: with the outgoing thread RUNNING and
    a boost pending, the lowest boosted slot, whose boost is cleared; and
    otherwise the round-robin choice, with every boost left as it was.
    The budget loaded is the chosen slot's time slice.  So a slot other
    than 0 is only ever chosen when it is RUNNING or has a boost
    pending. *)
Theorem selection_is_first_boost_or_round_robin (k : Kernel) :
  table_ok k → 0 <= current_thread k < MAX_THREADS →
  ∃ k', getNextThread k = Some k'
    ∧ ((flags_at k (current_thread k) = Some RUNNING
        ∧ (∃ p, priority_at k (current_thread k') = Some p ∧ p ≠ 0)
        ∧ (∀ j, 0 <= j < current_thread k' → priority_at k j = Some 0)
        ∧ priority_at k' (current_thread k') = Some 0)
       ∨ ((flags_at k (current_thread k) ≠ Some RUNNING ∨ no_boosts k)
          ∧ round_robin_choice k (current_thread k) (current_thread k')
          ∧ ∀ j, priority_at k' j = priority_at k j))
    ∧ Some (currentCount k') = ticks_at k (current_thread k')
    ∧ (current_thread k' = 0
       ∨ flags_at k (current_thread k') = Some RUNNING
       ∨ ∃ p, priority_at k (current_thread k') = Some p ∧ p ≠ 0).
Proof.
  intros Hk Hcur.
  destruct (decide (flags_at k (current_thread k) = Some RUNNING)) as [Hrun|Hrun].
  - destruct (first_boost k (Z.to_nat MAX_THREADS) Hk) as [Hall|(j & p & Hj & Hp & Hp0 & Hlow)];
      [lia| |].
    + destruct (getNextThread_round_robin k Hk Hcur) as (k' & Hget & Hc & Htk & Hf & _).
      { right. intros j Hj. apply Hall. lia. }
      exists k'. split; [done|]. split; [|split; [done|]].
      * right. split; [right; intros j Hj; apply Hall; lia|]. split; [done|].
        intros j. apply Hf.
      * destruct Hc as [(_ & ? & _)|(? & _)]; auto.
    + destruct (getNextThread_boost k j p Hk Hcur Hrun) as
        (k' & Hget & Hc & Htk & Hp' & _); try done; try lia.
      exists k'. rewrite Hc. split; [done|]. split; [|split; [done|]].
      * left. split; [done|]. split; [by exists p|]. done.
      * right. right. by exists p.
  - destruct (getNextThread_round_robin k Hk Hcur) as (k' & Hget & Hc & Htk & Hf & _);
      [by left|].
    exists k'. split; [done|]. split; [|split; [done|]].
    + right. split; [by left|]. split; [done|]. intros j. apply Hf.
    + destruct Hc as [(_ & ? & _)|(? & _)]; auto.
Qed.

End Construction.

Section CriticalSections.
Context `{cfg : Config}.

(** [stop()] and [start(prev)] bracket a critical section and nest:
    [stop] returns the state it replaces by STOPPED, an inner
    [stop]/[start] pair leaves the scheduler STOPPED, and the outer
    [start] gives back the kernel exactly as it was before the outer
    [stop].  This needs [-1], which [start] reads as STARTED, to be
    neither the state saved nor the code of STOPPED. *)
Theorem stop_start_nest (k : Kernel) :
  currentActive k ≠ -1 → STOPPED ≠ -1 →
  ∃ k1 k2 k3 k4,
    stop k = (currentActive k, k1) ∧ currentActive k1 = STOPPED
    ∧ stop k1 = (STOPPED, k2) ∧ currentActive k2 = STOPPED
    ∧ start STOPPED k2 = (STOPPED, k3) ∧ k3 = k1
    ∧ start (currentActive k) k3 = (STOPPED, k4) ∧ k4 = k
    ∧ (start (-1) k).2 = with_currentActive STARTED k.
Proof.
  intros Hact Hstop. unfold stop, start. simpl.
  rewrite !(decide_False (P := STOPPED = -1)) by done.
  rewrite !(decide_False (P := currentActive k = -1)) by done.
  eexists _, _, _, _. repeat split; by destruct k.
Qed.

(** The scoped guard nests without condition: inside a guard the
    scheduler state is the literal 0, the destructor of an inner guard
    puts that 0 back, and the destructor of the outer one gives back the
    kernel exactly as it was. *)
Theorem suspend_guards_nest (k : Kernel) :
  ∃ k1 k2,
    Suspend_ctor k = (currentActive k, k1) ∧ currentActive k1 = 0
    ∧ Suspend_ctor k1 = (0, k2) ∧ currentActive k2 = 0
    ∧ Suspend_dtor 0 k2 = k1
    ∧ Suspend_dtor (currentActive k) (Suspend_dtor 0 k2) = k
    ∧ thread k2 = thread k ∧ current_thread k2 = current_thread k.
Proof.
  unfold Suspend_ctor, Suspend_dtor. simpl.
  eexists _, _. repeat split; by destruct k.
Qed.

(** [addThread] called inside a guard does not end the critical
    section: when 0 is the code of neither STARTED nor FIRST_RUN, a
    successful call leaves the scheduler state at the guard's 0, also when
    the guard was taken in state FIRST_RUN, and the guard's destructor
    then restores the state from before the guard. *)
Theorem addThread_inside_guard (fresh entry arg sz st : Z) (k : Kernel) (i : Z) :
  table_ok k → 1 <= i < MAX_THREADS → free_slot k i →
  (∀ j, 1 <= j < i → ¬ free_slot k j) →
  STARTED ≠ 0 → FIRST_RUN ≠ 0 →
  ∃ kg k1, Suspend_ctor k = (currentActive k, kg)
    ∧ addThread fresh entry arg sz st kg = Some (i, k1)
    ∧ currentActive k1 = 0
    ∧ currentActive (Suspend_dtor (currentActive k) k1) = currentActive k
    ∧ flags_at (Suspend_dtor (currentActive k) k1) i = Some RUNNING.
Proof.
  intros Hk Hi (t & Ht & Hf) Hfirst Hs Hfr.
  set (kg := with_currentActive 0 k).
  assert (Hkg : table_ok kg) by done.
  destruct (addThread_detail fresh entry arg sz st kg i t Hkg Hi Ht Hf)
    as (k1 & Hadd & Hslot & _ & _ & _ & _ & _ & _ & _ & Hact & _); [done|].
  exists kg, k1. split; [done|]. split; [done|].
  simpl in Hact. rewrite decide_False in Hact by (intros [?|?]; congruence).
  split; [done|]. split; [done|].
  unfold flags_at. change (thread_at (Suspend_dtor _ k1) i) with (thread_at k1 i).
  by rewrite Hslot.
Qed.

End CriticalSections.

Section MutexLockScheduling.
Context `{cfg : Config}.

(** The round-robin scan stops at slot 0 or at a RUNNING slot, and
    changes nothing but [current_thread]. *)
Lemma next_running_choice (fuel : nat) (k k1 : Kernel) :
  next_running fuel k = Some k1 →
  thread k1 = thread k
  ∧ (current_thread k1 = 0 ∨ flags_at k (current_thread k1) = Some RUNNING).
Proof.
  revert k. induction fuel as [|fuel IH]; intros k; simpl; [discriminate|].
  destruct (decide (current_thread k + 1 >= MAX_THREADS)).
  { intros [= <-]. split; [done|]. by left. }
  set (k0 := with_current_thread (current_thread k + 1) k).
  destruct (thread_at k0 (current_thread k + 1)) as [t|] eqn:Ht; simpl; [|discriminate].
  destruct (decide (flags t = RUNNING)) as [Hrun|Hrun].
  - intros [= <-]. split; [done|]. right. simpl. unfold flags_at.
    change (thread_at k (current_thread k + 1)) with (thread_at k0 (current_thread k + 1)).
    rewrite Ht. simpl. by f_equal.
  - intros H. destruct (IH _ H) as (Hth & Hc). split; [done|].
    destruct Hc as [Hc|Hc]; [by left|by right].
Qed.

(** Saving the outgoing stack pointer changes no state and no boost. *)
Lemma saved_sp_same_fields (k : Kernel) (tc : ThreadInfo) :
  thread_at k (current_thread k) = Some tc →
  ∀ j,
  let k0 := with_thread (<[Z.to_nat (current_thread k) := set_sp (currentSP k) tc]>
                           (thread k)) k in
  flags_at k0 j = flags_at k j ∧ priority_at k0 j = priority_at k j.
Proof.
  intros Htc j k0.
  assert (Htc' : thread k !! Z.to_nat (current_thread k) = Some tc).
  { unfold thread_at in Htc.
    destruct (decide (0 <= current_thread k)); [done|discriminate]. }
  unfold flags_at, priority_at, thread_at. destruct (decide (0 <= j)); [|done].
  subst k0. simpl. split; by apply lookup_insert_field.
Qed.

(** A selection chooses slot 0, a RUNNING slot or a boosted slot. *)
Lemma getNextThread_selects_dispatchable (k k' : Kernel) :
  getNextThread k = Some k' → dispatchable (current_thread k') k.
Proof.
  unfold getNextThread, update_thread.
  destruct (thread_at k (current_thread k)) as [tc|] eqn:Htc; simpl; [|discriminate].
  pose proof (saved_sp_same_fields k tc Htc) as Hsame. cbv zeta in Hsame. set (k0 := with_thread _ k) in *.
  destruct (priority_scan _ 0 k0) as [[r k1]|] eqn:Hscan; simpl; [|discriminate].
  intros Hrest.
  assert (Hk1 : ∃ k2, (if decide (r = -1) then round_robin k1 else Some k1) = Some k2
                      ∧ publish k2 = Some k').
  { destruct (if decide (r = -1) then round_robin k1 else Some k1) as [k2|];
      simpl in Hrest; [eauto|discriminate]. }
  destruct Hk1 as (k2 & Hk2 & Hpub).
  assert (Hcur : current_thread k' = current_thread k2).
  { unfold publish in Hpub.
    destruct (thread_at k2 (current_thread k2)); simpl in Hpub; [|discriminate].
    by injection Hpub as <-. }
  rewrite Hcur. unfold dispatchable.
  destruct (priority_scan_shape _ _ _ _ _ Hscan)
    as [(-> & ->)|(t & Hr & Ht & Hp & _ & _ & ->)].
  - rewrite decide_True in Hk2 by done. unfold round_robin in Hk2.
    destruct (next_running _ k0) as [k3|] eqn:Hnr; simpl in Hk2; [|discriminate].
    destruct (next_running_choice _ _ _ Hnr) as (_ & Hc).
    destruct (thread_at k3 (current_thread k3)); simpl in Hk2; [|discriminate].
    injection Hk2 as <-. simpl.
    destruct Hc as [Hc|Hc]; [by left|]. right. left.
    by rewrite <- (proj1 (Hsame _)).
  - rewrite decide_False in Hk2 by lia. injection Hk2 as <-. simpl.
    right. right. exists (priority t). split; [|done].
    rewrite <- (proj2 (Hsame _)). unfold priority_at. by rewrite Ht.
Qed.

(** A slot other than 0 that is neither RUNNING nor boosted is not
    chosen, and is neither RUNNING nor boosted after the selection. *)
Lemma getNextThread_keeps_set_aside (me : Z) (k k' : Kernel) :
  1 <= me → set_aside me k → getNextThread k = Some k' →
  current_thread k' ≠ me ∧ set_aside me k'.
Proof.
  intros Hme ((f & Hf & Hne) & Hp) Hget.
  assert (Hc : current_thread k' ≠ me).
  { intros He. pose proof (getNextThread_selects_dispatchable _ _ Hget) as Hd.
    rewrite He in Hd. destruct Hd as [?|[Hr|(p & Hp' & Hp0)]]; [lia| |].
    - rewrite Hf in Hr. by injection Hr.
    - rewrite Hp in Hp'. by injection Hp' as <-. }
  split; [exact Hc|].
  destruct (getNextThread_shape _ _ Hget) as (tc & t' & Htc & Htbl & _ & Ht' & _).
  cbv zeta in Htbl.
  destruct (saved_sp_same_fields k tc Htc me) as (Hfl & Hpr). cbv zeta in Hfl, Hpr.
  assert (Hc0 : 0 <= current_thread k').
  { unfold thread_at in Ht'.
    destruct (decide (0 <= current_thread k')); [done|discriminate]. }
  assert (Hsame : flags_at k' me = flags_at k me ∧ priority_at k' me = priority_at k me).
  { rewrite <- Hfl, <- Hpr. unfold flags_at, priority_at, thread_at.
    rewrite !decide_True by lia. simpl.
    destruct Htbl as [->|(t & _ & ->)]; [done|].
    by rewrite list_lookup_insert_ne by lia. }
  destruct Hsame as (Hfl' & Hpr'). unfold set_aside. rewrite Hfl', Hpr'.
  split; [by exists f|done].
Qed.

(** A selection keeps the table well formed. *)
Lemma getNextThread_well_formed (k k' : Kernel) :
  table_ok k → getNextThread k = Some k' →
  table_ok k' ∧ 0 <= current_thread k' < MAX_THREADS.
Proof.
  intros Hk Hget.
  destruct (getNextThread_shape _ _ Hget) as (tc & t' & _ & Htbl & _ & Ht' & _).
  cbv zeta in Htbl.
  assert (Hlen : length (thread k') = length (thread k)).
  { destruct Htbl as [->|(t & _ & ->)]; by rewrite ?length_insert. }
  assert (Hk' : table_ok k') by (unfold table_ok in *; congruence).
  split; [exact Hk'|]. apply (thread_at_Some k' _ Hk'). eauto.
Qed.



(** When, moreover, the table stays well formed, every bounded run of
    the selections ends without the caller. *)
Lemma resume_spins env me :
  1 <= me →
  (∀ n k m, table_ok k ∧ 0 <= current_thread k < MAX_THREADS ∧ set_aside me k →
     let k' := (env n (k, m)).1 in
     table_ok k' ∧ 0 <= current_thread k' < MAX_THREADS ∧ set_aside me k') →
  ∀ fuel n k m, table_ok k → 0 <= current_thread k < MAX_THREADS → set_aside me k →
    resume env fuel n me k m = Spinning.
Proof.
  intros Hme Henv fuel. induction fuel as [|fuel IH]; intros n k m Hk Hcur Hs; simpl;
    [done|].
  destruct (getNextThread_total k Hk Hcur) as [k1 Hget]. rewrite Hget.
  destruct (getNextThread_keeps_set_aside me k k1 Hme Hs Hget) as (Hc & Hs1).
  destruct (getNextThread_well_formed k k1 Hk Hget) as (Hk1 & Hcur1).
  pose proof (Henv n k1 m (conj Hk1 (conj Hcur1 Hs1))) as Hk2. cbv zeta in Hk2.
  destruct (env n (k1, m)) as [k2 m2]. rewrite decide_False by done.
  destruct Hk2 as (? & ? & ?). by apply IH.
Qed.





End MutexLockScheduling.

Section MutexMore.
Context `{cfg : Config}.

(** [try_lock] takes the mutex exactly when it is free: it returns 1 and
    sets the state to 1 when the state was 0, and returns 0 and changes
    nothing otherwise, so a second [try_lock] after a successful one
    fails.  Neither it nor [getState] changes the kernel or the parked
    waiter, and [getState] returns the state. *)
Theorem try_lock_is_exclusive (k : Kernel) (m : Mutex) :
  currentActive k ≠ -1 →
  ∃ r m', try_lock k m = (r, k, m')
    ∧ (r = 1 ∧ state m = 0 ∧ state m' = 1 ∨ r = 0 ∧ state m ≠ 0 ∧ m' = m)
    ∧ waitthread m' = waitthread m ∧ waitcount m' = waitcount m
    ∧ try_lock k (mkMutex 1 (waitthread m) (waitcount m))
      = (0, k, mkMutex 1 (waitthread m) (waitcount m))
    ∧ Mutex_getState k m = (state m, k).
Proof.
  intros Hact. unfold try_lock, Mutex_getState, stop, start. simpl.
  rewrite !(decide_False (P := currentActive k = -1)) by done.
  replace (with_currentActive (currentActive k) (with_currentActive STOPPED k))
    with k by (by destruct k).
  destruct (decide (state m = 0)) as [Hs|Hs]; eexists _, _;
    (split; [reflexivity|]); repeat split; auto.
Qed.

(** [try_lock] followed by [unlock] on a free mutex with nobody parked
    gives back the kernel and the mutex exactly as they were. *)
Theorem try_lock_then_unlock (k : Kernel) (m : Mutex) :
  currentActive k ≠ -1 → state m = 0 → waitthread m < 0 →
  ∃ m1, try_lock k m = (1, k, m1) ∧ state m1 = 1
    ∧ unlock k m1 = Some (1, k, m).
Proof.
  intros Hact Hs Hw. exists (mkMutex 1 (waitthread m) (waitcount m)).
  split.
  { unfold try_lock, stop, start. rewrite decide_True by done.
    rewrite decide_False by done. by destruct k. }
  split; [done|].
  rewrite unlock_no_waiter by done. simpl. f_equal. f_equal.
  destruct m. simpl in *. by rewrite Hs.
Qed.

(** A round of [Mutex::lock] on a taken mutex.  The first contender
    parks: it records itself as the waiter, saves the current tick count,
    suspends itself and yields.  A contender that finds a waiter already
    recorded changes neither the mutex nor the thread table: it only
    yields. *)
Theorem lock_round_parks_one_waiter (k : Kernel) (m : Mutex) :
  table_ok k → 0 <= current_thread k < MAX_THREADS →
  currentActive k ≠ -1 → state m ≠ 0 →
  ∃ k1 m1, lock_round (k, m) = Some (k1, m1)
    ∧ state m1 = state m
    ∧ svc_issued k1 = SVC_NUMBER :: svc_issued k
    ∧ currentActive k1 = currentActive k
    ∧ (waitthread m = -1 →
       waitthread m1 = current_thread k ∧ waitcount m1 = currentCount k
       ∧ flags_at k1 (current_thread k) = Some SUSPENDED
       ∧ ∀ j, j ≠ current_thread k → thread_at k1 j = thread_at k j)
    ∧ (waitthread m ≠ -1 → m1 = m ∧ thread k1 = thread k).
Proof.
  intros Hk Hcur Hact Hs. unfold lock_round. simpl.
  destruct (try_lock_cases k m) as [(? & _)|(_ & kt & Htry & _)]; [done|].
  assert (Hkt : kt = k).
  { unfold try_lock, stop, start in Htry. rewrite decide_False in Htry by done.
    rewrite decide_False in Htry by done. injection Htry as <-. by destruct k. }
  rewrite Htry, Hkt. clear Htry Hkt kt.
  destruct (decide (waitthread m = -1)) as [Hw|Hw].
  - unfold park, stop, start. simpl.
    destruct (thread_at_in_range k _ Hk Hcur) as [t Ht].
    set (ks := with_currentActive STOPPED k).
    assert (Hts : thread_at ks (current_thread k) = Some t) by done.
    pose proof (update_thread_eq ks _ (set_flags SUSPENDED) t Hts) as Hup.
    unfold suspend. rewrite Hup. simpl. rewrite decide_False by done.
    set (k0 := with_thread _ ks) in *.
    pose proof (thread_at_update_same _ _ _ _ _ Hts Hup) as Hsame.
    eexists _, _. split; [reflexivity|]. simpl.
    split; [done|].
    split; [unfold yield, svcall_isr; by rewrite decide_True|].
    split; [unfold yield, svcall_isr; by rewrite decide_True|].
    split; [|done]. intros _. split; [done|]. split; [done|].
    assert (Hth : ∀ j, thread_at (yield (with_currentActive (currentActive k) k0)) j
                       = thread_at k0 j).
    { intros j. unfold yield, svcall_isr. by rewrite decide_True. }
    split.
    + unfold flags_at. by rewrite Hth, Hsame.
    + intros j Hj. rewrite Hth. by apply (thread_at_update_other _ _ _ _ _ Hup).
  - simpl. eexists _, _. split; [reflexivity|]. simpl.
    unfold yield, svcall_isr. rewrite decide_True by done.
    repeat split; try done.
Qed.

(** Hand-over on [unlock]: with a waiter parked whose saved tick count is
    not 0, the unlocking thread RUNNING and no boost pending on a lower
    slot, [unlock] releases the mutex and the selection that follows runs
    the waiter, RUNNING again, with its own time slice as budget and its
    boost cleared.  A waiter parked with a saved tick count of 0 gets no
    boost: it is RUNNING again but waits for its round-robin turn. *)
Theorem unlock_hands_over_to_waiter (k : Kernel) (m : Mutex) :
  table_ok k → 0 <= current_thread k < MAX_THREADS →
  flags_at k (current_thread k) = Some RUNNING →
  state m = 1 → 0 <= waitthread m < MAX_THREADS →
  (∀ j, 0 <= j < waitthread m → priority_at k j = Some 0) →
  ∃ k1 m1, unlock k m = Some (1, k1, m1)
    ∧ state m1 = 0 ∧ waitthread m1 = -1
    ∧ flags_at k1 (waitthread m) = Some RUNNING
    ∧ priority_at k1 (waitthread m) = Some (waitcount m)
    ∧ (waitcount m ≠ 0 →
       ∃ k2, getNextThread k1 = Some k2
         ∧ current_thread k2 = waitthread m
         ∧ Some (currentCount k2) = ticks_at k (waitthread m)
         ∧ priority_at k2 (waitthread m) = Some 0)
    ∧ (waitcount m = 0 →
       (∀ j, waitthread m < j < MAX_THREADS → priority_at k j = Some 0) →
       ∃ k2, getNextThread k1 = Some k2
         ∧ round_robin_choice k1 (current_thread k) (current_thread k2)).
Proof.
  intros Hk Hcur Hrun Hs Hw Hlow.
  destruct (thread_at_in_range k (waitthread m) Hk Hw) as [t Ht].
  destruct (unlock_waiter k m t Hs) as (k1 & Hun & Hsame & Hoth & _ & _);
    [lia|done|].
  assert (Hk1 : table_ok k1).
  { unfold table_ok. unfold unlock, stop in Hun.
    rewrite decide_True in Hun by done. simpl in Hun.
    rewrite decide_True in Hun by lia. unfold setPriority in Hun. simpl in Hun.
    rewrite decide_False in Hun by lia.
    destruct (update_thread _ _ _) as [ka|] eqn:Ha; simpl in Hun; [|discriminate].
    unfold restart in Hun.
    destruct (update_thread _ _ ka) as [kb|] eqn:Hb; simpl in Hun; [|discriminate].
    injection Hun as <-.
    pose proof (update_thread_table_ok _ _ _ _ Ha) as Hka.
    pose proof (update_thread_table_ok _ _ _ _ Hb (Hka Hk)) as Hkb.
    unfold yield_and_start, svcall_isr. by repeat destruct (decide _). }
  assert (Hc1 : current_thread k1 = current_thread k).
  { unfold unlock, stop in Hun.
    rewrite decide_True in Hun by done. simpl in Hun.
    rewrite decide_True in Hun by lia. unfold setPriority, restart, update_thread in Hun.
    simpl in Hun. rewrite decide_False in Hun by lia.
    destruct (thread_at _ _) as [ta|]; simpl in Hun; [|discriminate].
    destruct (thread_at _ _) as [tb|]; simpl in Hun; [|discriminate].
    injection Hun as <-. unfold yield_and_start, svcall_isr.
    by repeat destruct (decide _). }
  assert (Hfl : ∀ j, flags_at k1 j
                     = if decide (j = waitthread m) then Some RUNNING else flags_at k j).
  { intros j. unfold flags_at. destruct (decide (j = waitthread m)) as [->|Hne].
    - by rewrite Hsame.
    - by rewrite Hoth. }
  assert (Hpr : ∀ j, j ≠ waitthread m → priority_at k1 j = priority_at k j).
  { intros j Hj. unfold priority_at. by rewrite Hoth. }
  assert (Hrun1 : flags_at k1 (current_thread k1) = Some RUNNING).
  { rewrite Hc1, Hfl. by destruct (decide _). }
  exists k1, (mkMutex 0 (-1) (waitcount m)). split; [done|]. split; [done|].
  split; [done|]. split; [rewrite Hfl; by rewrite decide_True|].
  split; [unfold priority_at; by rewrite Hsame|]. split.
  - intros Hwc.
    destruct (getNextThread_boost k1 (waitthread m) (waitcount m) Hk1)
      as (k2 & Hget & Hc2 & Htk & Hp2 & _); try done; try lia.
    { unfold priority_at. by rewrite Hsame. }
    { intros j Hj. rewrite Hpr by lia. by apply Hlow. }
    exists k2. split; [done|]. split; [done|]. split; [|done].
    rewrite Htk. unfold ticks_at. by rewrite Hsame, Ht.
  - intros Hwc Hhigh.
    destruct (getNextThread_round_robin k1 Hk1) as (k2 & Hget & Hc2 & _);
      [lia| |].
    { right. intros j Hj. destruct (decide (j = waitthread m)) as [->|Hne].
      - unfold priority_at. rewrite Hsame. simpl. by rewrite Hwc.
      - rewrite Hpr by done.
        destruct (decide (j < waitthread m)); [apply Hlow|apply Hhigh]; lia. }
    exists k2. split; [done|]. by rewrite Hc1 in Hc2.
Qed.

End MutexMore.

Section WaitAndDelay.
Context `{cfg : Config}.

(** [wait] on a thread that is not RUNNING makes no yield: it returns at
    its first check, on the state [env 0 k] that the environment has
    produced since the start time was read.  It returns the id, unless
    more than [timeout_ms] milliseconds went by between the two reads of
    the counter, in which case it returns [-1]; with no tick between the
    two reads it returns the id for every timeout.  An id outside the
    table is an out-of-bounds read, not a [-1]. *)
Theorem wait_on_stopped_thread_returns_at_once
    (env : nat → Kernel → Kernel) (fuel : nat) (id timeout_ms : Z) (k : Kernel) :
  (∀ f, flags_at (env 0%nat k) id = Some f → f ≠ RUNNING →
     wait env (S fuel) id timeout_ms k
     = Returned (if decide (deadline_passed timeout_ms (millis k) (env 0%nat k))
                 then -1 else id, env 0%nat k))
  ∧ (0 <= timeout_ms → millis (env 0%nat k) = millis k →
     ∀ f, flags_at (env 0%nat k) id = Some f → f ≠ RUNNING →
       wait env (S fuel) id timeout_ms k = Returned (id, env 0%nat k))
  ∧ (thread_at (env 0%nat k) id = None →
     ¬ deadline_passed timeout_ms (millis k) (env 0%nat k) →
     wait env (S fuel) id timeout_ms k = Undefined).
Proof.
  assert (Hfirst : ∀ f, flags_at (env 0%nat k) id = Some f → f ≠ RUNNING →
     wait env (S fuel) id timeout_ms k
     = Returned (if decide (deadline_passed timeout_ms (millis k) (env 0%nat k))
                 then -1 else id, env 0%nat k)).
  { intros f Hf Hne. unfold wait. rewrite wait_loop_unfold.
    destruct (decide (deadline_passed timeout_ms (millis k) (env 0%nat k))); [done|].
    unfold flags_at in Hf.
    destruct (thread_at (env 0%nat k) id) as [t|]; simpl in Hf; [|discriminate].
    injection Hf as <-. by rewrite decide_True. }
  split; [exact Hfirst|]. split.
  - intros Ht Hsame f Hf Hne. rewrite (Hfirst f Hf Hne).
    rewrite decide_False; [done|].
    intros (_ & Hgt). rewrite Hsame, Z.sub_diag in Hgt. unfold wrap32 in Hgt.
    rewrite Z.mod_0_l in Hgt by lia. lia.
  - intros Hnone Hnd. unfold wait. rewrite wait_loop_unfold.
    rewrite decide_False by done. by rewrite Hnone.
Qed.

Lemma wrap32_to_int32 (x : Z) : wrap32 (to_int32 x) = wrap32 x.
Proof.
  unfold to_int32, wrap32.
  destruct (decide (x mod 2 ^ 32 < 2 ^ 31)).
  - apply Z.mod_mod. lia.
  - rewrite Zminus_mod, Z.mod_mod, Z.mod_same by lia.
    rewrite Z.sub_0_r. apply Z.mod_mod. lia.
Qed.

Lemma to_int32_wrap32 (x y : Z) : wrap32 x = wrap32 y → to_int32 x = to_int32 y.
Proof. unfold to_int32. by intros ->. Qed.

(** The signed difference that [delay] computes is the signed reading of
    the difference of the two counter values. *)
Lemma to_int32_sub (a b : Z) : to_int32 (to_int32 a - to_int32 b) = to_int32 (a - b).
Proof.
  apply to_int32_wrap32. unfold wrap32.
  rewrite Zminus_mod. fold (wrap32 (to_int32 a)) (wrap32 (to_int32 b)).
  rewrite !wrap32_to_int32. unfold wrap32. by rewrite <- Zminus_mod.
Qed.

(** One round of the loop of [delay]. *)
Lemma delay_loop_unfold env fuel n millisecond mx k :
  delay_loop env (S fuel) n millisecond mx k =
  if decide (to_int32 (to_int32 (millis k) - mx) < millisecond) then
    delay_loop env fuel (S n) millisecond mx (env n (yield k))
  else Returned k.
Proof. reflexivity. Qed.

Lemma delay_loop_returns env fuel n0 millisecond mx k k' :
  delay_loop env fuel n0 millisecond mx k = Returned k' ↔
  ∃ n, (n < fuel)%nat ∧ k' = after_yields env n0 n k
    ∧ (∀ j, (j < n)%nat →
         to_int32 (to_int32 (millis (after_yields env n0 j k)) - mx) < millisecond)
    ∧ millisecond <= to_int32 (to_int32 (millis k') - mx).
Proof.
  revert n0 k. induction fuel as [|fuel IH]; intros n0 k.
  { simpl. split; [discriminate|]. intros (n & Hn & _). lia. }
  rewrite delay_loop_unfold.
  destruct (decide (to_int32 (to_int32 (millis k) - mx) < millisecond)) as [Hlt|Hge].
  - rewrite IH. split.
    + intros (n & Hn & -> & Hbefore & Hlast). exists (S n). split; [lia|].
      split; [done|]. split; [|done].
      intros [|j] Hj; simpl; [lia|]. apply Hbefore. lia.
    + intros (n & Hn & -> & Hbefore & Hlast). destruct n as [|n].
      * simpl in Hlast. lia.
      * exists n. split; [lia|]. split; [done|]. split; [|done].
        intros j Hj. apply (Hbefore (S j)). lia.
  - split.
    + intros [= <-]. exists 0%nat. split; [lia|]. split; [done|].
      split; [intros j Hj; lia|]. lia.
    + intros (n & Hn & -> & Hbefore & Hlast). destruct n as [|n]; [done|].
      specialize (Hbefore 0%nat ltac:(lia)). simpl in Hbefore. lia.
Qed.

(** [delay(millisecond)] measures the time from its call by the signed
    32-bit difference of the counter, [elapsed_int], which is the number
    of ticks counted, also across a wrap or a sign change of the counter,
    as long as fewer than [2^31] were counted.  The call returns at the
    first check at which this difference is at least [millisecond], having
    yielded once after every earlier check; the first check is made on
    [env 0 k], the state the environment has produced since the call.  So
    it returns without a yield exactly when the difference at the first
    check is already large enough, as it is for [millisecond <= 0] when
    fewer than [2^31] ticks fell between the two reads. *)
Theorem delay_returns (env : nat → Kernel → Kernel) (fuel : nat)
    (millisecond : Z) (k k' : Kernel) :
  (delay env fuel millisecond k = Returned k' ↔
   ∃ n, (n < fuel)%nat ∧ k' = after_yields env 1 n (env 0%nat k)
     ∧ (∀ j, (j < n)%nat →
          elapsed_int k (after_yields env 1 j (env 0%nat k)) < millisecond)
     ∧ millisecond <= elapsed_int k k')
  ∧ (millisecond <= elapsed_int k (env 0%nat k) →
     delay env (S fuel) millisecond k = Returned (env 0%nat k))
  ∧ (elapsed_int k (env 0%nat k) < millisecond →
     delay env fuel millisecond k = Returned k' →
     ∃ n, (1 <= n < fuel)%nat ∧ k' = after_yields env 1 n (env 0%nat k))
  ∧ (∀ d k1, 0 <= d < 2 ^ 31 → millis k1 = wrap32 (millis k + d) →
     elapsed_int k k1 = d).
Proof.
  assert (Hchar : delay env fuel millisecond k = Returned k' ↔
   ∃ n, (n < fuel)%nat ∧ k' = after_yields env 1 n (env 0%nat k)
     ∧ (∀ j, (j < n)%nat →
          elapsed_int k (after_yields env 1 j (env 0%nat k)) < millisecond)
     ∧ millisecond <= elapsed_int k k').
  { unfold delay, elapsed_int. rewrite delay_loop_returns.
    split; intros (n & Hn & -> & Hbefore & Hlast); exists n;
      (split; [done|]); (split; [done|]); split.
    - intros j Hj. rewrite <- to_int32_sub. by apply Hbefore.
    - by rewrite <- to_int32_sub.
    - intros j Hj. rewrite to_int32_sub. by apply Hbefore.
    - by rewrite to_int32_sub. }
  split; [exact Hchar|]. split; [|split].
  - intros Hle. unfold delay. rewrite delay_loop_unfold, to_int32_sub.
    unfold elapsed_int in Hle. by rewrite decide_False by lia.
  - intros Hlt Hret. apply Hchar in Hret.
    destruct Hret as (n & Hn & -> & _ & Hlast). exists n. split; [|done].
    destruct n as [|n]; [simpl in Hlast; lia|lia].
  - intros d k1 Hd Hk1. unfold elapsed_int. rewrite Hk1.
    rewrite <- (to_int32_small d) at 2 by lia.
    apply to_int32_wrap32. unfold wrap32.
    rewrite Zminus_mod, Z.mod_mod by lia. rewrite <- Zminus_mod.
    f_equal. lia.
Qed.

End WaitAndDelay.

Section TickSourceFacts.
Context `{cfg : Config} `{pit : Pit}.

(** [setMicroTimer] returns 1 exactly when the timer could be started.
    On failure it returns 0 and the tick source stays as it was; on
    success the SysTick is disabled as tick source.  The kernel itself is
    not touched either way. *)
Theorem setMicroTimer_result (us : Z) (s : Timed) :
  ∃ r s', setMicroTimer us s = (r, s')
    ∧ kern s' = kern s
    ∧ (r = 1 ∧ (IntervalTimer_begin us (IntervalTimer_priority 255 (context_timer s))).1 = true
         ∧ currentUseSystick s' = 0
       ∨ r = 0 ∧ (IntervalTimer_begin us (IntervalTimer_priority 255 (context_timer s))).1 = false
         ∧ currentUseSystick s' = currentUseSystick s
         ∧ context_timer_flag s' = context_timer_flag s).
Proof.
  unfold setMicroTimer.
  destruct (IntervalTimer_begin us _) as [[|] dev]; simpl;
    eexists _, _; (split; [reflexivity|]); simpl; (split; [done|]).
  - left. auto.
  - right. auto.
Qed.

(** The slice setters report success and change the default slice only.
    [setSliceMicros] returns 1 and makes the default one tick even when
    the timer could not be started, in which case the tick source stays
    as it was.  [setSliceMillis] on the SysTick makes the default
    [milliseconds] ticks.  Neither changes the thread table: the slices of
    the threads that exist, slot 0 included, stay as they are. *)
Theorem slice_setters_change_default_only (n : Z) (s : Timed) :
  0 <= n < 2 ^ 31 →
  (∃ s1, setSliceMicros n s = (1, s1)
     ∧ DEFAULT_TICKS (kern s1) = 0
     ∧ thread (kern s1) = thread (kern s)
     ∧ currentCount (kern s1) = currentCount (kern s)
     ∧ ((IntervalTimer_begin n (IntervalTimer_priority 255 (context_timer s))).1 = false →
        currentUseSystick s1 = currentUseSystick s))
  ∧ (currentUseSystick s ≠ 0 →
     ∃ s2, setSliceMillis n s = Some (1, s2)
       ∧ DEFAULT_TICKS (kern s2) = n - 1
       ∧ thread (kern s2) = thread (kern s)
       ∧ currentUseSystick s2 = currentUseSystick s
       ∧ context_timer s2 = context_timer s)
  ∧ (currentUseSystick s = 0 → n * 1000 < 2 ^ 31 →
     ∃ s3, setSliceMillis n s = Some (1, s3)
       ∧ s3 = (setSliceMicros (n * 1000) s).2
       ∧ DEFAULT_TICKS (kern s3) = 0
       ∧ currentUseSystick s3 = 0).
Proof.
  intros Hn.
  assert (Hmicros : ∀ us, ∃ s1, setSliceMicros us s = (1, s1)
     ∧ DEFAULT_TICKS (kern s1) = 0
     ∧ thread (kern s1) = thread (kern s)
     ∧ currentCount (kern s1) = currentCount (kern s)
     ∧ ((IntervalTimer_begin us (IntervalTimer_priority 255 (context_timer s))).1 = false →
        currentUseSystick s1 = currentUseSystick s)
     ∧ (currentUseSystick s = 0 → currentUseSystick s1 = 0)).
  { intros us. unfold setSliceMicros, setMicroTimer.
    destruct (IntervalTimer_begin us _) as [[|] dev]; simpl;
      eexists; (split; [reflexivity|]); simpl; repeat split; auto; discriminate. }
  split; [|split].
  - destruct (Hmicros n) as (s1 & H1 & H2 & H3 & H4 & H5 & _). eauto 10.
  - intros Hsys. unfold setSliceMillis. rewrite decide_True by done.
    eexists. split; [reflexivity|]. simpl. repeat split.
    unfold setDefaultTimeSlice. simpl. rewrite wrap32_small by lia.
    apply to_int32_small. lia.
  - intros Hpit Hmul. unfold setSliceMillis. rewrite decide_False by tauto.
    rewrite decide_True by lia.
    destruct (Hmicros (n * 1000)) as (s1 & H1 & H2 & _ & _ & _ & H6).
    rewrite H1. simpl. exists s1. auto.
Qed.

(** The SysTick handler always advances the millisecond counter, which
    wraps at [2^32], and branches to the context switch exactly while
    [currentUseSystick] is set.  Nothing sets it again: once the micro
    timer runs, every later [setMicroTimer], [setSliceMicros] and
    [setSliceMillis] leaves it cleared, and the SysTick only counts. *)
Theorem systick_only_counts_after_micro_timer (s : Timed) (n : Z) :
  systick_millis_count (kern (systick_isr s).1)
  = (systick_millis_count (kern s) + 1) mod 2 ^ 32
  ∧ thread (kern (systick_isr s).1) = thread (kern s)
  ∧ currentUseSystick (systick_isr s).1 = currentUseSystick s
  ∧ ((systick_isr s).2 = true ↔ currentUseSystick s ≠ 0)
  ∧ (currentUseSystick s = 0 →
     currentUseSystick (setMicroTimer n s).2 = 0
     ∧ currentUseSystick (setSliceMicros n s).2 = 0
     ∧ (∀ r s', setSliceMillis n s = Some (r, s') → currentUseSystick s' = 0)
     ∧ (systick_isr (setSliceMicros n s).2).2 = false).
Proof.
  unfold systick_isr. simpl. split; [done|]. split; [done|]. split; [done|].
  split. { by rewrite bool_decide_eq_true. }
  intros Hz.
  assert (H1 : currentUseSystick (setMicroTimer n s).2 = 0).
  { unfold setMicroTimer. by destruct (IntervalTimer_begin n _) as [[|] dev]. }
  assert (H2 : ∀ us, currentUseSystick (setSliceMicros us s).2 = 0).
  { intros us. unfold setSliceMicros, setMicroTimer.
    by destruct (IntervalTimer_begin us _) as [[|] dev]. }
  split; [done|]. split; [done|]. split.
  - intros r s'. unfold setSliceMillis. rewrite decide_False by tauto.
    destruct (decide _); [|discriminate].
    specialize (H2 (n * 1000)).
    destruct (setSliceMicros (n * 1000) s) as [r1 s1]. by intros [= _ <-].
  - rewrite bool_decide_eq_false. rewrite H2. tauto.
Qed.

End TickSourceFacts.

(** * Runs of [Mutex::lock] on the sample build *)

Section LockRuns.
Local Existing Instance sample.




(** The main thread as caller: slot 0 parks as well, but the round-robin
    scan takes slot 0 at its wrap whatever its state, so the caller goes
    on with its rounds and [lock(25)] gives up at 40 ms, with slot 0 left
    SUSPENDED and recorded as the waiter. *)
Example lock_times_out :
  ∃ k' m', lock holder_keeps 5 5 25 (two_threads 0) held = Returned (0, k', m')
      ∧ systick_millis_count k' = 40 ∧ state m' = 1 ∧ waitthread m' = 0
      ∧ flags_at k' 0 = Some SUSPENDED.
Proof.
  eexists _, _. split; [vm_compute; reflexivity|]. vm_compute. repeat split.
Qed.

(** The same call without a deadline: it is still spinning after any
    number of rounds tried here. *)
Example lock_without_deadline_spins :
  lock holder_keeps 50 50 0 (two_threads 0) held = Spinning.
Proof. vm_compute. reflexivity. Qed.

End LockRuns.

(** * More concrete runs on the sample build *)

Section MoreRuns.
Local Existing Instance sample.
Local Existing Instance sample_pit.

Ltac slot_cases j Hj :=
  let Hc := fresh "Hc" in
  assert (j = 0 ∨ j = 1 ∨ j = 2 ∨ j = 3 ∨ j = 4 ∨ j = 5 ∨ j = 6 ∨ j = 7) as Hc
    by (simpl in Hj; lia);
  destruct Hc as [->|[->|[->|[->|[->|[->|[->| ->]]]]]]].

Lemma getNextThread_keeps_kernel_witness :
  table_ok (two_threads 0) ∧ 0 <= current_thread (two_threads 0) < MAX_THREADS
  ∧ ∃ k', getNextThread (two_threads 0) = Some k'
      ∧ table_ok k' ∧ same_globals (two_threads 0) k'
      ∧ flags_at k' 1 = flags_at (two_threads 0) 1.
Proof.
  split; [reflexivity|]. split; [simpl; lia|].
  destruct (getNextThread_keeps_kernel (two_threads 0))
    as (k' & Hget & Hk' & _ & Hglob & Hf & _); [reflexivity|simpl; lia|].
  exists k'. split; [exact Hget|]. split; [exact Hk'|]. split; [exact Hglob|].
  apply Hf.
Defined.

Lemma getNextThread_saves_and_publishes_sp_witness :
  ∃ k', getNextThread (two_threads 0) = Some k'
    ∧ sp_at k' 0 = Some (currentSP (two_threads 0))
    ∧ sp_at k' (current_thread k') = Some (currentSP k').
Proof.
  eexists. split; [vm_compute; reflexivity|].
  split;
    [eapply (getNextThread_saves_and_publishes_sp (two_threads 0))
    |eapply (getNextThread_saves_and_publishes_sp (two_threads 0))];
    vm_compute; reflexivity.
Defined.

Lemma round_robin_reaches_every_running_slot_witness :
  table_ok (two_threads 1) ∧ no_boosts (two_threads 1)
  ∧ flags_at (two_threads 1) 1 = Some RUNNING
  ∧ ∃ n k', (1 <= n)%nat ∧ Z.of_nat n <= MAX_THREADS
      ∧ select_n n (two_threads 1) = Some k' ∧ current_thread k' = 1.
Proof.
  assert (Hnb : no_boosts (two_threads 1)).
  { intros j Hj. slot_cases j Hj; reflexivity. }
  split; [reflexivity|]. split; [exact Hnb|]. split; [reflexivity|].
  apply (round_robin_reaches_every_running_slot (two_threads 1) 1);
    [reflexivity | simpl; lia | exact Hnb | simpl; lia | left; reflexivity].
Defined.

Lemma only_main_running_returns_to_main_witness :
  table_ok holder_runs ∧ flags_at holder_runs 0 = Some RUNNING
  ∧ ∃ k', getNextThread holder_runs = Some k' ∧ current_thread k' = 0
      ∧ Some (currentCount k') = ticks_at holder_runs 0 ∧ currentMSP k' = 1.
Proof.
  split; [reflexivity|]. split; [reflexivity|].
  apply (only_main_running_returns_to_main holder_runs);
    [reflexivity | simpl; lia | reflexivity |].
  intros j Hj. slot_cases j Hj; try (simpl in Hj; lia);
    (split; [discriminate|reflexivity]).
Defined.

Lemma boosts_served_lowest_slot_first_witness :
  table_ok two_boosts ∧ flags_at two_boosts 0 = Some RUNNING
  ∧ priority_at two_boosts 1 = Some 20 ∧ priority_at two_boosts 2 = Some 20
  ∧ ∃ k1 k2, getNextThread two_boosts = Some k1 ∧ current_thread k1 = 1
      ∧ getNextThread k1 = Some k2 ∧ current_thread k2 = 2
      ∧ priority_at k2 1 = Some 0 ∧ priority_at k2 2 = Some 0.
Proof.
  split; [reflexivity|]. split; [reflexivity|]. split; [reflexivity|].
  split; [reflexivity|].
  destruct (boosts_served_lowest_slot_first two_boosts 1 2 20 20)
    as (k1 & k2 & H1 & H2 & _ & _ & H3 & H4 & _ & H5 & H6);
    [reflexivity | simpl; lia | reflexivity | lia | simpl; lia | reflexivity
    | reflexivity | lia | reflexivity | lia | |].
  - intros j Hj Hne. assert (j = 0) as -> by lia. reflexivity.
  - exists k1, k2. split; [exact H1|]. split; [exact H2|]. split; [exact H3|].
    split; [exact H4|]. split; [exact H5|exact H6].
Defined.

Lemma self_boost_keeps_the_cpu_witness :
  table_ok (two_threads 1) ∧ flags_at (two_threads 1) 1 = Some RUNNING
  ∧ ∃ kp k1, setPriority (-1) 5 (two_threads 1) = Some kp
      ∧ getNextThread kp = Some k1 ∧ current_thread k1 = 1
      ∧ Some (currentCount k1) = Some 4.
Proof.
  split; [reflexivity|]. split; [reflexivity|].
  destruct (self_boost_keeps_the_cpu (two_threads 1) 5)
    as (kp & k1 & H1 & _ & H2 & H3 & H4 & _);
    [reflexivity | simpl; lia | lia | reflexivity | |].
  - intros j Hj. simpl in Hj. assert (j = 0) as -> by lia. reflexivity.
  - exists kp, k1. split; [exact H1|]. split; [exact H2|]. split; [exact H3|exact H4].
Defined.

Lemma addThread_bootstraps_new_thread_witness :
  table_ok boot ∧ free_slot boot 1
  ∧ ∃ k' t', addThread 0x20002000 0x4001 0x20000100 (-1) 0 boot = Some (1, k')
      ∧ thread_at k' 1 = Some t' ∧ flags t' = RUNNING
      ∧ sp t' = 0x20002000 + 1024 - 40
      ∧ load32 (sp t' + offset r0) k' = Some 0x20000100
      ∧ load32 (sp t' + offset pc) k' = Some 0x4001
      ∧ getStackUsed 1 k' = Some 40.
Proof.
  assert (Hfree : free_slot boot 1).
  { exists empty_slot. split; [reflexivity|]. right. reflexivity. }
  split; [reflexivity|]. split; [exact Hfree|].
  destruct (addThread_bootstraps_new_thread 0x20002000 0x4001 0x20000100 (-1) 0 boot 1)
    as (k' & t' & H1 & H2 & H3 & _ & _ & _ & _ & _ & _ & H4 & H5 & H6 & _ & _ & H7 & _);
    [reflexivity | simpl; lia | exact Hfree | intros j Hj; lia | lia | lia
    | simpl; lia |].
  exists k', t'. split; [exact H1|]. split; [exact H2|]. split; [exact H3|].
  split; [exact H4|]. split; [exact H5|]. split; [exact H6|exact H7].
Defined.

Lemma state_written_is_state_read_witness :
  table_ok (two_threads 0) ∧ 0 <= 1 < MAX_THREADS
  ∧ ∃ k1, setState 1 SUSPENDED (two_threads 0) = Some (SUSPENDED, k1)
      ∧ getState 1 k1 = Some SUSPENDED.
Proof.
  split; [reflexivity|]. split; [simpl; lia|].
  destruct (state_written_is_state_read (two_threads 0) 1 SUSPENDED)
    as (t & k1 & _ & H1 & H2 & _); [reflexivity | simpl; lia |].
  exists k1. split; [exact H1|exact H2].
Defined.

Lemma suspend_then_restart_witness :
  table_ok (two_threads 0) ∧ flags_at (two_threads 0) 1 = Some RUNNING
  ∧ ∃ k1, suspend 1 (two_threads 0) = Some (1, k1)
      ∧ restart 1 k1 = Some (1, two_threads 0).
Proof.
  split; [reflexivity|]. split; [reflexivity|].
  destruct (suspend_then_restart (two_threads 0) 1)
    as (k1 & k2 & H1 & _ & H2 & _ & H3 & _); [reflexivity | simpl; lia |].
  exists k1. split; [exact H1|]. rewrite H2. rewrite H3; reflexivity.
Defined.

Lemma killed_slot_reused_stack_released_on_reuse_witness :
  table_ok (two_threads 0) ∧ thread_at (two_threads 0) 1 = Some (live_slot 1 4 0)
  ∧ ∃ k1 k2 k3 k4,
      kill 1 (two_threads 0) = Some (1, k1) ∧ released k1 = []
      ∧ addThread 0x20003000 0x4101 0x20000200 512 0x20004000 k1 = Some (1, k2)
      ∧ released k2 = [0x20001000]
      ∧ kill 1 k2 = Some (1, k3)
      ∧ addThread 0x20002000 0x4001 0x20000100 (-1) 0 k3 = Some (1, k4)
      ∧ released k4 = [0x20001000].
Proof.
  split; [reflexivity|]. split; [reflexivity|].
  destruct (killed_slot_reused_stack_released_on_reuse (two_threads 0) 1
              (live_slot 1 4 0) spawn_given spawn_owned)
    as (k1 & k2 & k3 & k4 & H1 & H2 & _ & H3 & H4 & H5 & H6 & H7 & _);
    [reflexivity | simpl; lia | reflexivity | intros j Hj; lia | discriminate |].
  exists k1, k2, k3, k4. split; [exact H1|]. split; [exact H2|].
  split; [exact H3|]. split; [exact H4|]. split; [exact H5|].
  split; [exact H6|]. rewrite H7, H4. reflexivity.
Defined.

Lemma del_process_ends_running_thread_witness :
  table_ok (two_threads 1) ∧ currentActive (two_threads 1) ≠ -1
  ∧ ∃ k1, Threads_del_process (two_threads 1) = Some k1
      ∧ flags_at k1 1 = Some ENDED
      ∧ thread_count k1 = thread_count (two_threads 1) - 1
      ∧ ∃ k2, getNextThread k1 = Some k2 ∧ current_thread k2 ≠ 1.
Proof.
  split; [reflexivity|]. split; [simpl; lia|].
  destruct (del_process_ends_running_thread (two_threads 1))
    as (k1 & H1 & H2 & _ & _ & H3 & _ & _ & _ & H4);
    [reflexivity | simpl; lia | simpl; lia |].
  exists k1. split; [exact H1|]. split; [exact H2|]. split; [exact H3|].
  destruct H4 as (k2 & H5 & _ & H6 & _); [discriminate|].
  exists k2. split; [exact H5|]. apply H6. simpl. lia.
Defined.

Lemma addThread_fills_table_in_order_witness :
  RUNNING ≠ EMPTY ∧ RUNNING ≠ ENDED ∧ filled_to 0 boot
  ∧ ∃ k', addThreads (replicate 7 spawn_owned) boot = Some ([1; 2; 3; 4; 5; 6; 7], k')
      ∧ thread_count k' = 7
      ∧ ∃ k'', addThread 0x20003000 0x4101 0x20000200 512 0x20004000 k'
               = Some (-1, k'') ∧ thread k'' = thread k'.
Proof.
  assert (Hfill : filled_to 0 boot).
  { split; [reflexivity|]. split; [intros i Hi; lia|].
    intros i Hi. slot_cases i Hi; try (simpl in Hi; lia); reflexivity. }
  assert (Hre : RUNNING ≠ EMPTY) by discriminate.
  assert (Hrn : RUNNING ≠ ENDED) by discriminate.
  split; [exact Hre|]. split; [exact Hrn|]. split; [exact Hfill|].
  destruct (addThread_fills_table_in_order Hre Hrn
              (replicate 7 spawn_owned) boot Hfill)
    as (k' & H1 & H2 & _ & H3 & _); [reflexivity|].
  exists k'. split; [exact H1|]. split; [exact H2|].
  destruct (H3 spawn_given) as (k'' & H4 & H5 & _).
  exists k''. split; [exact H4|exact H5].
Defined.

Lemma constructed_kernel_is_ready_witness :
  1 <= MAX_THREADS
  ∧ table_ok (Threads_ctor 10 1024) ∧ currentActive (Threads_ctor 10 1024) = FIRST_RUN
  ∧ ∃ k', getNextThread (Threads_ctor 10 1024) = Some k'
      ∧ current_thread k' = 0 ∧ currentCount k' = 10.
Proof.
  split; [simpl; lia|].
  destruct (constructed_kernel_is_ready 10 1024)
    as (H1 & _ & _ & H2 & _ & _ & _ & _ & _ & _ & H3); [simpl; lia|].
  split; [exact H1|]. split; [exact H2|]. apply H3. discriminate.
Defined.

Lemma default_stack_size_applies_witness :
  table_ok boot ∧ 0 <= 2048 < 2 ^ 31
  ∧ ∃ k1, addThread 0x20002000 0x4001 0x20000100 (-1) 0 (setDefaultStackSize 2048 boot)
          = Some (1, k1)
      ∧ (stack_size <$> thread_at k1 1) = Some 2048
      ∧ sp_at k1 1 = Some (0x20002000 + 2048 - 40).
Proof.
  split; [reflexivity|]. split; [lia|].
  destruct (default_stack_size_applies 2048 0x20002000 0x4001 0x20000100 512 0 boot 1)
    as (k1 & k2 & H1 & H2 & H3 & _);
    [reflexivity | simpl; lia | | intros j Hj; lia | lia | lia |].
  - exists empty_slot. split; [reflexivity|]. right. reflexivity.
  - exists k1. split; [exact H1|]. split; [exact H2|exact H3].
Defined.

Lemma selection_is_first_boost_or_round_robin_witness :
  table_ok two_boosts ∧ 0 <= current_thread two_boosts < MAX_THREADS
  ∧ ∃ k', getNextThread two_boosts = Some k'
      ∧ Some (currentCount k') = ticks_at two_boosts (current_thread k')
      ∧ (current_thread k' = 0
         ∨ flags_at two_boosts (current_thread k') = Some RUNNING
         ∨ ∃ p, priority_at two_boosts (current_thread k') = Some p ∧ p ≠ 0).
Proof.
  split; [reflexivity|]. split; [simpl; lia|].
  destruct (selection_is_first_boost_or_round_robin two_boosts)
    as (k' & H1 & _ & H2 & H3); [reflexivity | simpl; lia |].
  exists k'. split; [exact H1|]. split; [exact H2|exact H3].
Defined.

Lemma stop_start_nest_witness :
  currentActive boot ≠ -1 ∧ STOPPED ≠ -1
  ∧ ∃ k1 k2 k3 k4,
      stop boot = (currentActive boot, k1) ∧ stop k1 = (STOPPED, k2)
      ∧ start STOPPED k2 = (STOPPED, k3) ∧ k3 = k1
      ∧ start (currentActive boot) k3 = (STOPPED, k4) ∧ k4 = boot.
Proof.
  split; [discriminate|]. split; [discriminate|].
  destruct (stop_start_nest boot)
    as (k1 & k2 & k3 & k4 & H1 & _ & H2 & _ & H3 & H4 & H5 & H6 & _);
    [discriminate | discriminate |].
  exists k1, k2, k3, k4. split; [exact H1|]. split; [exact H2|].
  split; [exact H3|]. split; [exact H4|]. split; [exact H5|exact H6].
Defined.

Lemma addThread_inside_guard_witness :
  table_ok boot ∧ STARTED ≠ 0 ∧ FIRST_RUN ≠ 0
  ∧ ∃ kg k1, Suspend_ctor boot = (FIRST_RUN, kg)
      ∧ addThread 0x20002000 0x4001 0x20000100 (-1) 0 kg = Some (1, k1)
      ∧ currentActive k1 = 0
      ∧ currentActive (Suspend_dtor FIRST_RUN k1) = FIRST_RUN.
Proof.
  split; [reflexivity|]. split; [discriminate|]. split; [discriminate|].
  destruct (addThread_inside_guard 0x20002000 0x4001 0x20000100 (-1) 0 boot 1)
    as (kg & k1 & H1 & H2 & H3 & H4 & _);
    [reflexivity | simpl; lia | | intros j Hj; lia | discriminate | discriminate |].
  - exists empty_slot. split; [reflexivity|]. right. reflexivity.
  - exists kg, k1. split; [exact H1|]. split; [exact H2|]. split; [exact H3|exact H4].
Defined.

Lemma try_lock_is_exclusive_witness :
  currentActive boot ≠ -1
  ∧ ∃ r m', try_lock boot free_with_waiter = (r, boot, m')
      ∧ (r = 1 ∧ state free_with_waiter = 0 ∧ state m' = 1
         ∨ r = 0 ∧ state free_with_waiter ≠ 0 ∧ m' = free_with_waiter)
      ∧ try_lock boot held_with_waiter = (0, boot, held_with_waiter).
Proof.
  split; [discriminate|].
  destruct (try_lock_is_exclusive boot free_with_waiter)
    as (r & m' & H1 & H2 & _ & _ & H3 & _); [discriminate|].
  exists r, m'. split; [exact H1|]. split; [exact H2|exact H3].
Defined.

Lemma try_lock_then_unlock_witness :
  currentActive boot ≠ -1 ∧ state (mkMutex 0 (-1) 0) = 0
  ∧ ∃ m1, try_lock boot (mkMutex 0 (-1) 0) = (1, boot, m1)
      ∧ unlock boot m1 = Some (1, boot, mkMutex 0 (-1) 0).
Proof.
  split; [discriminate|]. split; [reflexivity|].
  destruct (try_lock_then_unlock boot (mkMutex 0 (-1) 0))
    as (m1 & H1 & _ & H2); [discriminate | reflexivity | simpl; lia |].
  exists m1. split; [exact H1|exact H2].
Defined.

Lemma lock_round_parks_one_waiter_witness :
  table_ok (two_threads 1) ∧ state held ≠ 0 ∧ waitthread held = -1
  ∧ ∃ k1 m1, lock_round (two_threads 1, held) = Some (k1, m1)
      ∧ waitthread m1 = 1 ∧ waitcount m1 = 10
      ∧ flags_at k1 1 = Some SUSPENDED.
Proof.
  split; [reflexivity|]. split; [discriminate|]. split; [reflexivity|].
  destruct (lock_round_parks_one_waiter (two_threads 1) held)
    as (k1 & m1 & H1 & _ & _ & _ & H2 & _);
    [reflexivity | simpl; lia | discriminate | discriminate |].
  destruct H2 as (H3 & H4 & H5 & _); [reflexivity|].
  exists k1, m1. split; [exact H1|]. split; [exact H3|]. split; [exact H4|exact H5].
Defined.

Lemma unlock_hands_over_to_waiter_witness :
  table_ok holder_runs ∧ flags_at holder_runs 0 = Some RUNNING
  ∧ state held_with_waiter = 1
  ∧ ∃ k1 m1 k2, unlock holder_runs held_with_waiter = Some (1, k1, m1)
      ∧ state m1 = 0
      ∧ getNextThread k1 = Some k2 ∧ current_thread k2 = 1
      ∧ Some (currentCount k2) = Some 4.
Proof.
  split; [reflexivity|]. split; [reflexivity|]. split; [reflexivity|].
  destruct (unlock_hands_over_to_waiter holder_runs held_with_waiter)
    as (k1 & m1 & H1 & H2 & _ & _ & _ & H3 & _);
    [reflexivity | simpl; lia | reflexivity | reflexivity | simpl; lia | |].
  - intros j Hj. simpl in Hj. assert (j = 0) as -> by lia. reflexivity.
  - destruct H3 as (k2 & H4 & H5 & H6 & _); [discriminate|].
    exists k1, m1, k2. split; [exact H1|]. split; [exact H2|].
    split; [exact H4|]. split; [exact H5|exact H6].
Defined.

Lemma wait_on_stopped_thread_returns_at_once_witness :
  flags_at (time_passes 0 parked) 1 = Some SUSPENDED
  ∧ millis (time_passes 0 parked) - millis parked = 10
  ∧ wait time_passes 1 1 5 parked = Returned (-1, time_passes 0 parked)
  ∧ wait time_passes 1 1 25 parked = Returned (1, time_passes 0 parked).
Proof.
  split; [reflexivity|]. split; [reflexivity|]. split.
  - rewrite (proj1 (wait_on_stopped_thread_returns_at_once time_passes 0 1 5 parked)
               SUSPENDED); [reflexivity | reflexivity | discriminate].
  - rewrite (proj1 (wait_on_stopped_thread_returns_at_once time_passes 0 1 25 parked)
               SUSPENDED); [reflexivity | reflexivity | discriminate].
Defined.

Lemma delay_returns_witness :
  elapsed_int boot (time_passes 0 boot) < 25
  ∧ ∃ k', delay time_passes 5 25 boot = Returned k'
      ∧ ∃ n, (1 <= n < 5)%nat
          ∧ k' = after_yields time_passes 1 n (time_passes 0 boot).
Proof.
  split; [reflexivity|]. eexists. split; [vm_compute; reflexivity|].
  eapply (proj1 (proj2 (proj2 (delay_returns time_passes 5 25 boot _))));
    [reflexivity | vm_compute; reflexivity].
Defined.

Lemma slice_setters_change_default_only_witness :
  0 <= 5 < 2 ^ 31 ∧ currentUseSystick boot_timed ≠ 0
  ∧ ∃ s2, setSliceMillis 5 boot_timed = Some (1, s2)
      ∧ DEFAULT_TICKS (kern s2) = 5 - 1
      ∧ thread (kern s2) = thread (kern boot_timed).
Proof.
  split; [lia|]. split; [discriminate|].
  destruct (slice_setters_change_default_only 5 boot_timed) as (_ & Hms & _); [lia|].
  destruct Hms as (s2 & H1 & H2 & H3 & _); [discriminate|].
  exists s2. split; [exact H1|]. split; [exact H2|exact H3].
Defined.

End MoreRuns.
